(** * arxiv-summarizer: the worker's paper pipeline

    A shallow embedding of the Cloudflare worker of the arXiv summarizer
    (the TypeScript module with [extractArxivId], [fetchArxivMeta],
    [normalizePaperInput], [buildPrompt], [categorizeAffiliation],
    [summarizeWithGemini] and [inferCollabType]) and the properties its
    specification states about it.

    Conventions of the embedding.
    - A JavaScript string is a [string]: a sequence of code units, here the
      code units below 256.  Whitespace, case mapping and the UTF-8
      percent-encoding are the ECMAScript ones on that range.
    - A JavaScript value that comes out of [JSON.parse] is a [value]; numbers
      are IEEE 754 binary64 ([float]).
    - A regular expression is a [regex] term written as the source writes the
      literal, run by a backtracking matcher in continuation style, which is
      how ECMAScript defines matching.
    - The platform functions the worker calls without defining them
      ([new URL], [JSON.parse], [Number::toString], the source text of the
      built-in functions) are the fields of a [Runtime]; general theorems hold
      for every [Runtime], concrete runs use the [reference] one.
    - [fetch] is an oracle from requests to responses; a computation that may
      call it returns the requests it made together with its outcome. *)

From Stdlib Require Import Bool Arith NArith ZArith Lia List String Ascii Floats.
Import ListNotations.
Local Open Scope string_scope.

(* 0.6 and 0.4 are read as the nearest binary64 values, as JavaScript reads
   them. *)
Set Warnings "-inexact-float".

(* ===================================================================== *)
(** * Strings *)
(* ===================================================================== *)

Module Str.

Definition code (c : ascii) : N := N_of_ascii c.

Definition chr (n : N) : ascii := ascii_of_N n.

(** ECMAScript WhiteSpace and LineTerminator, as [String.prototype.trim] and
    the class [\s] use them: TAB, LF, VT, FF, CR, SP, NBSP. *)
Definition isWhiteSpace (c : ascii) : bool :=
  let n := code c in
  ((9 <=? n) && (n <=? 13) || (n =? 32) || (n =? 160))%N.

(** LineTerminator: what [.] refuses to match. *)
Definition isLineTerminator (c : ascii) : bool :=
  let n := code c in ((n =? 10) || (n =? 13))%N.

Definition isUpper (c : ascii) : bool :=
  let n := code c in ((65 <=? n) && (n <=? 90))%N.

Definition isLower (c : ascii) : bool :=
  let n := code c in ((97 <=? n) && (n <=? 122))%N.

Definition isDigit (c : ascii) : bool :=
  let n := code c in ((48 <=? n) && (n <=? 57))%N.

Definition isAlpha (c : ascii) : bool := isUpper c || isLower c.

Definition isAlnum (c : ascii) : bool := isAlpha c || isDigit c.

(** ASCII lower case of one code unit. *)
Definition lowerAscii (c : ascii) : ascii :=
  if isUpper c then chr (code c + 32) else c.

(** [String.prototype.toLowerCase] on one code unit below 256: the ASCII
    capitals, and U+00C0..U+00DE without the multiplication sign U+00D7. *)
Definition lowerChar (c : ascii) : ascii :=
  let n := code c in
  if isUpper c then chr (n + 32)
  else if ((192 <=? n) && (n <=? 222) && negb (n =? 215))%N then chr (n + 32)
  else c.

Fixpoint map (f : ascii -> ascii) (s : string) : string :=
  match s with
  | EmptyString => EmptyString
  | String c s' => String (f c) (map f s')
  end.

Definition toLowerCase (s : string) : string := map lowerChar s.

Fixpoint trimStart (s : string) : string :=
  match s with
  | EmptyString => EmptyString
  | String c s' => if isWhiteSpace c then trimStart s' else s
  end.

(** [trimEnd] keeps a character when it is not whitespace or when something
    is kept after it. *)
Fixpoint trimEnd (s : string) : string :=
  match s with
  | EmptyString => EmptyString
  | String c s' =>
      match trimEnd s' with
      | EmptyString => if isWhiteSpace c then EmptyString else String c EmptyString
      | t => String c t
      end
  end.

Definition trim (s : string) : string := trimEnd (trimStart s).

Fixpoint take (n : nat) (s : string) : string :=
  match n, s with
  | S n', String c s' => String c (take n' s')
  | _, _ => EmptyString
  end.

Fixpoint drop (n : nat) (s : string) : string :=
  match n, s with
  | S n', String _ s' => drop n' s'
  | _, _ => s
  end.

Definition startsWith (s p : string) : bool := String.prefix p s.

(** [s.endsWith(p)] *)
Definition endsWith (s p : string) : bool :=
  (String.length p <=? String.length s)%nat
  && String.eqb (drop (String.length s - String.length p) s) p.

(** [s.split(sep)] for a one-character separator: the pieces between the
    separators, empty ones included; the empty string splits into one empty
    piece. *)
Fixpoint split (sep : ascii) (s : string) : list string :=
  match s with
  | EmptyString => [EmptyString]
  | String c s' =>
      if Ascii.eqb c sep then EmptyString :: split sep s'
      else match split sep s' with
           | [] => [String c EmptyString]
           | p :: ps => String c p :: ps
           end
  end.

(** [a.join(sep)] *)
Fixpoint join (sep : string) (l : list string) : string :=
  match l with
  | [] => EmptyString
  | [x] => x
  | x :: xs => x ++ sep ++ join sep xs
  end.

Definition nonEmpty (s : string) : bool :=
  match s with EmptyString => false | _ => true end.

(** Every character of [s] satisfies [p]. *)
Fixpoint all (p : ascii -> bool) (s : string) : bool :=
  match s with
  | EmptyString => true
  | String c s' => p c && all p s'
  end.

(** Some character of [s] satisfies [p]. *)
Fixpoint any (p : ascii -> bool) (s : string) : bool :=
  match s with
  | EmptyString => false
  | String c s' => p c || any p s'
  end.

Definition hexDigit (n : N) : ascii :=
  if (n <? 10)%N then chr (48 + n) else chr (55 + n).

(** [%XX] with upper-case hexadecimal digits. *)
Definition percentByte (n : N) : string :=
  String "%" (String (hexDigit (n / 16)) (String (hexDigit (n mod 16)) EmptyString)).

(** Percent-encoding of the UTF-8 bytes of one code point below 256. *)
Definition percentUtf8 (c : ascii) : string :=
  let n := code c in
  if (n <? 128)%N then percentByte n
  else percentByte (192 + n / 64) ++ percentByte (128 + n mod 64).

Fixpoint concatMap (f : ascii -> string) (s : string) : string :=
  match s with
  | EmptyString => EmptyString
  | String c s' => f c ++ concatMap f s'
  end.

(** Decimal rendering of an integer, as a template literal renders an
    integral Number. *)
Fixpoint digitsOf (fuel : nat) (n : N) (acc : string) : string :=
  match fuel with
  | O => acc
  | S fuel' =>
      let acc' := String (chr (48 + n mod 10)) acc in
      if (n <? 10)%N then acc' else digitsOf fuel' (n / 10) acc'
  end.

Definition ofN (n : N) : string := digitsOf (S (N.to_nat (N.log2 n))) n EmptyString.

Definition ofZ (z : Z) : string :=
  match z with
  | Z0 => "0"
  | Zpos p => ofN (Npos p)
  | Zneg p => "-" ++ ofN (Npos p)
  end.

End Str.

(* ===================================================================== *)
(** * Regular expressions *)
(* ===================================================================== *)

(** The fragment of ECMAScript regular expressions the worker uses.  Every
    quantifier of the source is over a single character class, so [Rep]
    takes the class. *)
Inductive regex : Type :=
| Eps                                   (* the empty pattern *)
| Chr (c : ascii)                       (* a pattern character *)
| Cls (p : ascii -> bool)               (* a character class, [.] included *)
| Seq (r1 r2 : regex)                   (* r1 r2 *)
| Alt (r1 r2 : regex)                   (* r1|r2 *)
| Rep (greedy : bool) (p : ascii -> bool) (* class* and class*? *)
| Grp (i : nat) (r : regex)             (* the i-th capturing group *)
| Eoi.                                  (* $ without the m flag *)

Module Re.

(** A literal run of pattern characters. *)
Fixpoint Lit (s : string) : regex :=
  match s with
  | EmptyString => Eps
  | String c EmptyString => Chr c
  | String c s' => Seq (Chr c) (Lit s')
  end.

(** class+ *)
Definition Plus (greedy : bool) (p : ascii -> bool) : regex :=
  Seq (Cls p) (Rep greedy p).

(** r? (greedy) *)
Definition Opt (r : regex) : regex := Alt r Eps.

Fixpoint seq (l : list regex) : regex :=
  match l with
  | [] => Eps
  | [r] => r
  | r :: l' => Seq r (seq l')
  end.

Fixpoint alt (l : list regex) : regex :=
  match l with
  | [] => Eps
  | [r] => r
  | r :: l' => Alt r (alt l')
  end.

(** Character classes of the source. *)
Definition space : ascii -> bool := Str.isWhiteSpace.          (* \s *)
Definition anyChar : ascii -> bool := fun _ => true.           (* [\s\S] *)
Definition dot : ascii -> bool := fun c => negb (Str.isLineTerminator c). (* . *)
Definition noneOf (s : string) : ascii -> bool :=              (* [^...] *)
  fun c => negb (Str.any (Ascii.eqb c) s).

(** Captures: the text of the groups that took part in the match. *)
Definition caps := list (nat * string).

Fixpoint group (i : nat) (cs : caps) : option string :=
  match cs with
  | [] => None
  | (j, s) :: cs' => if Nat.eqb i j then Some s else group i cs'
  end.

(** A pattern character against an input character: equal, or equal up to
    ASCII case under the [i] flag (the pattern characters of the source are
    all ASCII, which [Canonicalize] never identifies with a code unit above
    127). *)
Definition sameChar (ci : bool) (pc c : ascii) : bool :=
  if ci then Ascii.eqb (Str.lowerAscii pc) (Str.lowerAscii c) else Ascii.eqb pc c.

(** Greedy and lazy iteration of a class before a continuation. *)
Fixpoint rep {A} (greedy : bool) (p : ascii -> bool) (s : string)
    (k : string -> option A) : option A :=
  match s with
  | EmptyString => k EmptyString
  | String c s' =>
      if greedy then
        if p c then
          match rep greedy p s' k with
          | Some x => Some x
          | None => k s
          end
        else k s
      else
        match k s with
        | Some x => Some x
        | None => if p c then rep greedy p s' k else None
        end
  end.

(** The matcher: [rmatch ci r s cs k] matches [r] at the head of [s] in
    every way, in the priority order of backtracking, and returns the first
    result the continuation [k] accepts. *)
Fixpoint rmatch {A} (ci : bool) (r : regex) (s : string) (cs : caps)
    (k : string -> caps -> option A) : option A :=
  match r with
  | Eps => k s cs
  | Chr pc =>
      match s with
      | String c s' => if sameChar ci pc c then k s' cs else None
      | EmptyString => None
      end
  | Cls p =>
      match s with
      | String c s' => if p c then k s' cs else None
      | EmptyString => None
      end
  | Seq r1 r2 => rmatch ci r1 s cs (fun s' cs' => rmatch ci r2 s' cs' k)
  | Alt r1 r2 =>
      match rmatch ci r1 s cs k with
      | Some x => Some x
      | None => rmatch ci r2 s cs k
      end
  | Rep g p => rep g p s (fun s' => k s' cs)
  | Grp i r1 =>
      rmatch ci r1 s cs
        (fun s' cs' =>
           k s' ((i, Str.take (String.length s - String.length s') s) :: cs'))
  | Eoi =>
      match s with
      | EmptyString => k s cs
      | _ => None
      end
  end.

(** A match: the text before it, the matched text, the captures, the text
    after it. *)
Record result : Type := mkResult {
  before : string;
  matched : string;
  captures : caps;
  after : string
}.

(** A match starting exactly at the head of [s]. *)
Definition matchAt (ci : bool) (r : regex) (s : string) : option (string * caps) :=
  rmatch ci r s [] (fun s' cs => Some (s', cs)).

(** [RegExp.prototype.exec] from index 0 without the [g] flag: the match at
    the leftmost index that has one.  [pre] is the text already passed, in
    reverse. *)
Fixpoint search (ci : bool) (r : regex) (pre : string) (s : string) : option result :=
  match matchAt ci r s with
  | Some (s', cs) =>
      Some (mkResult pre (Str.take (String.length s - String.length s') s) cs s')
  | None =>
      match s with
      | EmptyString => None
      | String c s' => search ci r (pre ++ String c EmptyString) s'
      end
  end.

Definition exec (ci : bool) (r : regex) (s : string) : option result :=
  search ci r EmptyString s.

(** [re.test(s)] *)
Definition test (ci : bool) (r : regex) (s : string) : bool :=
  match exec ci r s with Some _ => true | None => false end.

(** [s.match(re)[1]] when the match exists and the group took part. *)
Definition capture1 (ci : bool) (r : regex) (s : string) : option string :=
  match exec ci r s with
  | Some m => Some (match group 1 m.(captures) with Some g => g | None => EmptyString end)
  | None => None
  end.

(** [s.matchAll(re)] with the [g] flag: the successive matches, each search
    starting where the previous match ended, one further when it was
    empty. *)
Fixpoint matchAll (fuel : nat) (ci : bool) (r : regex) (s : string) : list result :=
  match fuel with
  | O => []
  | S fuel' =>
      match exec ci r s with
      | None => []
      | Some m =>
          m :: match m.(matched), m.(after) with
               | EmptyString, EmptyString => []
               | EmptyString, String _ rest => matchAll fuel' ci r rest
               | _, rest => matchAll fuel' ci r rest
               end
      end
  end.

(** [s.replace(re, by)] with the [g] flag, [by] a string without [$]. *)
Fixpoint replaceAllFuel (fuel : nat) (ci : bool) (r : regex) (by_ : string) (s : string) : string :=
  match fuel with
  | O => s
  | S fuel' =>
      match exec ci r s with
      | None => s
      | Some m =>
          m.(before) ++ by_ ++
          match m.(matched), m.(after) with
          | EmptyString, EmptyString => EmptyString
          | EmptyString, String c rest => String c (replaceAllFuel fuel' ci r by_ rest)
          | _, rest => replaceAllFuel fuel' ci r by_ rest
          end
      end
  end.

Definition replaceAll (ci : bool) (r : regex) (by_ : string) (s : string) : string :=
  replaceAllFuel (S (String.length s)) ci r by_ s.

Definition allMatches (ci : bool) (r : regex) (s : string) : list result :=
  matchAll (S (String.length s)) ci r s.

(** [s.replace(re, by)] without the [g] flag: the first match only. *)
Definition replaceFirst (ci : bool) (r : regex) (by_ : string) (s : string) : string :=
  match exec ci r s with
  | None => s
  | Some m => m.(before) ++ by_ ++ m.(after)
  end.

End Re.

(* ===================================================================== *)
(** * JavaScript values and outcomes *)
(* ===================================================================== *)

(** What [JSON.parse] can return, and [undefined]. *)
#[warnings="-register-all"]
Inductive value : Type :=
| VUndefined
| VNull
| VBool (b : bool)
| VNum (n : float)
| VStr (s : string)
| VArr (items : list value)
| VObj (fields : list (string * value)).

(** What a [throw] carries. *)
Inductive exn : Type :=
| Error (message : string)      (* new Error(message) *)
| TypeError
| SyntaxError
| NetworkError.

(** The outcome of running a piece of code: it returns or it throws. *)
Inductive outcome (A : Type) : Type :=
| Returned (a : A)
| Thrown (e : exn).

Arguments Returned {A} a.
Arguments Thrown {A} e.

Module Out.

Definition bind {A B} (m : outcome A) (f : A -> outcome B) : outcome B :=
  match m with
  | Returned a => f a
  | Thrown e => Thrown e
  end.

(** try { m } catch { h } *)
Definition catch {A} (m : outcome A) (h : exn -> outcome A) : outcome A :=
  match m with
  | Returned a => Returned a
  | Thrown e => h e
  end.

Fixpoint mapM {A B} (f : A -> outcome B) (l : list A) : outcome (list B) :=
  match l with
  | [] => Returned []
  | a :: l' =>
      bind (f a) (fun b => bind (mapM f l') (fun bs => Returned (b :: bs)))
  end.

Fixpoint foldM {A B} (f : B -> A -> outcome B) (acc : B) (l : list A) : outcome B :=
  match l with
  | [] => Returned acc
  | a :: l' => bind (f acc a) (fun acc' => foldM f acc' l')
  end.

End Out.

Declare Scope outcome_scope.
Delimit Scope outcome_scope with outcome.
Notation "x <- m ;; k" := (Out.bind m (fun x => k))
  (at level 61, m at next level, right associativity) : outcome_scope.

Module Num.

Local Open Scope float_scope.

(** The Number nearest to an integer. *)
Definition ofZ (z : Z) : float := SF2Prim (binary_normalize prec emax z 0 false).

Definition ofNat (n : nat) : float := ofZ (Z.of_nat n).

Definition isNaN (x : float) : bool := negb (PrimFloat.eqb x x).

(** ToBoolean of a Number: false on +0, -0 and NaN. *)
Definition truthy (x : float) : bool := negb (PrimFloat.eqb x 0) && negb (isNaN x).

(** [Math.round]: the integral Number nearest to [x], the one toward
    +infinity of two equally near; -0 when [x] is negative and rounds to
    zero; [x] itself when it is integral, infinite or NaN. *)
Definition round (x : float) : float :=
  match Prim2SF x with
  | S754_finite s m e =>
      if (0 <=? e)%Z then x
      else
        let den := Z.pow 2 (- e) in
        let num := if s then (- Z.pos m)%Z else Z.pos m in
        let n := Z.div (2 * num + den) (2 * den) in
        if (n =? 0)%Z then (if s then (-0) else 0) else ofZ n
  | _ => x
  end.

End Num.

Module Js.

(** ToBoolean *)
Definition truthy (v : value) : bool :=
  match v with
  | VUndefined | VNull => false
  | VBool b => b
  | VNum n => Num.truthy n
  | VStr s => Str.nonEmpty s
  | VArr _ | VObj _ => true
  end.

(** [a || b] *)
Definition or (a b : value) : value := if truthy a then a else b.

(** Own property of an object literal or of a parsed object. *)
Fixpoint assoc (k : string) (fields : list (string * value)) : option value :=
  match fields with
  | [] => None
  | (k', v) :: fields' => if String.eqb k k' then Some v else assoc k fields'
  end.

(** [v.k] for the property names the worker reads.  Besides [length] none of
    them is a member of a built-in prototype, so on an object the own
    property decides, and on a primitive or an array the result is
    [undefined].  Reading a property of [null] or [undefined] throws. *)
Definition get (v : value) (k : string) : outcome value :=
  match v with
  | VUndefined | VNull => Thrown TypeError
  | VObj fields =>
      Returned (match assoc k fields with Some x => x | None => VUndefined end)
  | VArr items =>
      Returned (if String.eqb k "length" then VNum (Num.ofNat (List.length items))
                else VUndefined)
  | VStr s =>
      Returned (if String.eqb k "length" then VNum (Num.ofNat (String.length s))
                else VUndefined)
  | VBool _ | VNum _ => Returned VUndefined
  end.

(** [v?.k] *)
Definition getOpt (v : value) (k : string) : value :=
  match get v k with
  | Returned x => x
  | Thrown _ => VUndefined
  end.

(** [v?.[0]] *)
Definition getOpt0 (v : value) : value :=
  match v with
  | VArr (x :: _) => x
  | VStr (String c _) => VStr (String c EmptyString)
  | VObj fields => match assoc "0" fields with Some x => x | None => VUndefined end
  | _ => VUndefined
  end.

(** [Array.isArray(v) ? v : []] *)
Definition arrayOr (v : value) : value :=
  match v with
  | VArr _ => v
  | _ => VArr []
  end.

(** [typeof v === 'number' ? v : null] *)
Definition numberOrNull (v : value) : option float :=
  match v with
  | VNum n => Some n
  | _ => None
  end.

(** [x ?? undefined] for a Number or null. *)
Definition numOrUndefined (x : option float) : value :=
  match x with
  | Some n => VNum n
  | None => VUndefined
  end.

(** [v === s] for a string literal [s]. *)
Definition isString (v : value) (s : string) : bool :=
  match v with
  | VStr t => String.eqb t s
  | _ => false
  end.

Definition present (v : value) : bool :=
  match v with
  | VUndefined => false
  | _ => true
  end.

Definition isArray (v : value) : bool :=
  match v with
  | VArr _ => true
  | _ => false
  end.

(** A string or [null], as a value. *)
Definition ofOptString (s : option string) : value :=
  match s with
  | Some x => VStr x
  | None => VNull
  end.

Definition ofStrings (l : list string) : value := VArr (List.map VStr l).

(** The function-valued members of [Object.prototype]. *)
Definition objectPrototypeMethods : list string :=
  [ "constructor"; "__defineGetter__"; "__defineSetter__"; "hasOwnProperty";
    "__lookupGetter__"; "__lookupSetter__"; "isPrototypeOf";
    "propertyIsEnumerable"; "toString"; "valueOf"; "toLocaleString" ].

Definition isPrototypeMethod (k : string) : bool :=
  List.existsb (String.eqb k) objectPrototypeMethods.

(** [fields] with the own property [k] set to [v], in place when it exists. *)
Fixpoint set (k : string) (v : value) (fields : list (string * value)) : list (string * value) :=
  match fields with
  | [] => [(k, v)]
  | (k', v') :: fields' =>
      if String.eqb k k' then (k, v) :: fields' else (k', v') :: set k v fields'
  end.

End Js.

(* ===================================================================== *)
(** * The platform *)
(* ===================================================================== *)

(** The two properties of a parsed URL the worker reads. *)
Record URL : Type := mkURL {
  hostname : string;
  pathname : string
}.

(** The platform functions the worker calls: [new URL(s)] ([None] when it
    throws), [JSON.parse(s)] ([None] when it throws), [Number::toString], and
    the text [Function.prototype.toString] gives for the method of
    [Object.prototype] of the given name. *)
Class Runtime : Type := {
  URL_parse : string -> option URL;
  JSON_parse : string -> option value;
  Number_toString : float -> string;
  native_source : string -> string
}.

(** An outbound HTTP request and the response to it. *)
Record Request : Type := mkRequest {
  req_url : string;
  req_method : string;
  req_headers : list (string * string);
  req_body : option string
}.

Record Response : Type := mkResponse {
  status : Z;
  body : string
}.

(** [res.ok]: the status is in the range 200-299. *)
Definition ok (res : Response) : bool :=
  ((200 <=? res.(status)) && (res.(status) <=? 299))%Z.

(** The network: what [fetch] resolves or rejects with for each request. *)
Definition Network : Type := Request -> outcome Response.

(** A computation that may call [fetch]: the requests it made, in order,
    and its outcome. *)
Definition io (A : Type) : Type := list Request * outcome A.

Module IO.

Definition ret {A} (a : A) : io A := ([], Returned a).

Definition throw {A} (e : exn) : io A := ([], Thrown e).

Definition lift {A} (m : outcome A) : io A := ([], m).

Definition bind {A B} (m : io A) (f : A -> io B) : io B :=
  match m with
  | (log, Returned a) => let (log', r) := f a in ((log ++ log')%list, r)
  | (log, Thrown e) => (log, Thrown e)
  end.

(** try { m } catch { h } *)
Definition catch {A} (m : io A) (h : exn -> io A) : io A :=
  match m with
  | (log, Returned a) => (log, Returned a)
  | (log, Thrown e) => let (log', r) := h e in ((log ++ log')%list, r)
  end.

(** [await fetch(req)] *)
Definition fetch (net : Network) (req : Request) : io Response := ([req], net req).

Definition requests {A} (m : io A) : list Request := fst m.

Definition result {A} (m : io A) : outcome A := snd m.

End IO.

Declare Scope io_scope.
Delimit Scope io_scope with io.
Notation "x <- m ;; k" := (IO.bind m (fun x => k))
  (at level 61, m at next level, right associativity) : io_scope.

(* ===================================================================== *)
(** * The worker *)
(* ===================================================================== *)

(** The double quote, and a word between double quotes. *)
Definition dq : string := String (Str.chr 34) EmptyString.

Definition q (s : string) : string := dq ++ s ++ dq.

(** The backquote. *)
Definition bq : ascii := Str.chr 96.

(** [encodeURIComponent] on code units below 256: the unreserved marks and
    the alphanumerics stay, everything else is percent-encoded in UTF-8. *)
Definition uriUnreserved (c : ascii) : bool :=
  Str.isAlnum c || Str.any (Ascii.eqb c) "-_.!~*'()".

Definition encodeURIComponent (s : string) : string :=
  Str.concatMap (fun c => if uriUnreserved c then String c EmptyString else Str.percentUtf8 c) s.

(** QuoteJSONString, what [JSON.stringify] gives for a string. *)
Definition jsonEscape (c : ascii) : string :=
  let n := Str.code c in
  if (n =? 34)%N then "\" ++ dq
  else if (n =? 92)%N then "\\"
  else if (n =? 8)%N then "\b"
  else if (n =? 12)%N then "\f"
  else if (n =? 10)%N then "\n"
  else if (n =? 13)%N then "\r"
  else if (n =? 9)%N then "\t"
  else if (n <? 32)%N then
    "\u00" ++ String (Str.lowerAscii (Str.hexDigit (n / 16)))
                (String (Str.lowerAscii (Str.hexDigit (n mod 16))) EmptyString)
  else String c EmptyString.

Definition JSON_quote (s : string) : string := dq ++ Str.concatMap jsonEscape s ++ dq.

(** ** Data *)

Inductive Category : Type := Academia | Industry | Other.

Definition Category_name (c : Category) : string :=
  match c with
  | Academia => "Academia"
  | Industry => "Industry"
  | Other => "Other"
  end.

Inductive CollabType : Type :=
| AcademiaOnly | IndustryOnly | AcademiaIndustry | Unknown.

Definition CollabType_name (c : CollabType) : string :=
  match c with
  | AcademiaOnly => "Academia-only"
  | IndustryOnly => "Industry-only"
  | AcademiaIndustry => "Academia-Industry"
  | Unknown => "Unknown"
  end.

(** An element of [ArxivMeta.authorsDetailed]. *)
Module Author.
Record t : Type := mk {
  name : string;
  affiliation : option string;
  category : Category
}.
End Author.

(** An element of [authors_affiliations], and the argument type of
    [inferCollabType]: the three properties hold whatever was read. *)
Module Entry.
Record t : Type := mk {
  name : value;
  affiliation : value;
  category : value
}.

(** The same object seen at the wider type. *)
Definition ofAuthor (a : Author.t) : t :=
  mk (VStr a.(Author.name)) (Js.ofOptString a.(Author.affiliation))
     (VStr (Category_name a.(Author.category))).
End Entry.

Module ArxivMeta.
Record t : Type := mk {
  id : option string;
  title : option string;
  abstract : option string;
  authors : list string;
  absUrl : option string;
  pdfUrl : option string;
  authorsDetailed : list Author.t;
  codeLinks : list string;
  videoLinks : list string;
  modelLinks : list string
}.
End ArxivMeta.

Module Resources.
Record t : Type := mk {
  code : value;
  video : value;
  checkpoints : value
}.
End Resources.

(** [StructuredSummary].  A property whose value is [undefined] and a
    property the object literal leaves out are the same [VUndefined]:
    [JSON.stringify] writes neither. *)
Module Summary.
Record t : Type := mk {
  title : value;
  arxiv_id : value;
  arxiv_abs_url : value;
  arxiv_pdf_url : value;
  one_liner : value;
  simplified_summary : value;
  practical_problem : value;
  problems_solved : value;
  key_innovations : value;
  impact_potential : value;
  use_cases : value;
  benchmarks : value;
  collaboration_type : value;
  takeaways : value;
  notes : value;
  resources : Resources.t;
  reliability_score : value;
  applicability_score : value;
  overall_score : value;
  total_authors : value;
  authors : value;
  authors_affiliations : list Entry.t;
  affiliation_breakdown : value
}.
End Summary.

(** [x || null] and [x || undefined] for a string or null: the empty string
    is falsy. *)
Definition truthyStr (s : option string) : option string :=
  match s with
  | Some x => if Str.nonEmpty x then Some x else None
  | None => None
  end.

(** [x || d] inside a template literal. *)
Definition orElse (s : option string) (d : string) : string :=
  match truthyStr s with
  | Some x => x
  | None => d
  end.

(** [x || undefined] as a value. *)
Definition strOrUndefined (s : option string) : value :=
  match truthyStr s with
  | Some x => VStr x
  | None => VUndefined
  end.

(** ** The regular expressions of the source

    In the comments [\x22] stands for the double quote. *)

Module Pat.
Import Re.

(** /\.pdf$/i *)
Definition pdfSuffix : regex := Seq (Lit ".pdf") Eoi.

(** /<entry>[\s\S]*?<title>([\s\S]*?)<\/title>/i *)
Definition entryTitle : regex :=
  seq [Lit "<entry>"; Rep false anyChar; Lit "<title>"; Grp 1 (Rep false anyChar); Lit "</title>"].

(** /\s+/g *)
Definition spaces : regex := Plus true space.

(** /<summary>([\s\S]*?)<\/summary>/i *)
Definition summary : regex :=
  seq [Lit "<summary>"; Grp 1 (Rep false anyChar); Lit "</summary>"].

(** /<author>([\s\S]*?)<\/author>/gi *)
Definition author : regex :=
  seq [Lit "<author>"; Grp 1 (Rep false anyChar); Lit "</author>"].

(** /<name>([\s\S]*?)<\/name>/i *)
Definition name : regex :=
  seq [Lit "<name>"; Grp 1 (Rep false anyChar); Lit "</name>"].

(** /<arxiv:affiliation[^>]*>([\s\S]*?)<\/arxiv:affiliation>/i *)
Definition affiliation : regex :=
  seq [Lit "<arxiv:affiliation"; Rep true (noneOf ">"); Chr ">";
       Grp 1 (Rep false anyChar); Lit "</arxiv:affiliation>"].

(** /<h1 class=\x22title\x22>[\s\S]*?<span[^>]*>.*?<\/span>\s*([\s\S]*?)<\/h1>/i *)
Definition htmlTitle : regex :=
  seq [Lit ("<h1 class=" ++ q "title" ++ ">"); Rep false anyChar;
       Lit "<span"; Rep true (noneOf ">"); Chr ">";
       Rep false dot; Lit "</span>"; Rep true space;
       Grp 1 (Rep false anyChar); Lit "</h1>"].

(** /<[^>]+>/g *)
Definition tag : regex := seq [Chr "<"; Plus true (noneOf ">"); Chr ">"].

(** /<blockquote class=\x22abstract[^\x22]*\x22>\s*<span[^>]*>.*?<\/span>([\s\S]*?)<\/blockquote>/i *)
Definition htmlAbstract : regex :=
  seq [Lit ("<blockquote class=" ++ dq ++ "abstract"); Rep true (noneOf dq);
       Lit (dq ++ ">"); Rep true space;
       Lit "<span"; Rep true (noneOf ">"); Chr ">";
       Rep false dot; Lit "</span>";
       Grp 1 (Rep false anyChar); Lit "</blockquote>"].

(** /<div class=\x22authors\x22>[\s\S]*?<a[^>]*>([\s\S]*?)<\/a>/gi *)
Definition htmlAuthor : regex :=
  seq [Lit ("<div class=" ++ q "authors" ++ ">"); Rep false anyChar;
       Lit "<a"; Rep true (noneOf ">"); Chr ">";
       Grp 1 (Rep false anyChar); Lit "</a>"].

(** /<a[^>]+href=\x22(https?:[^\x22#]+)\x22/gi *)
Definition htmlLink : regex :=
  seq [Lit "<a"; Plus true (noneOf ">"); Lit ("href=" ++ dq);
       Grp 1 (seq [Lit "http"; Opt (Chr "s"); Chr ":"; Plus true (noneOf (dq ++ "#"))]);
       Lit dq].

(** /&amp;/g *)
Definition amp : regex := Lit "&amp;".

(** /#.*$/ *)
Definition fragment : regex := seq [Chr "#"; Rep true dot; Eoi].

(** /github\.com\//i *)
Definition github : regex := Lit "github.com/".

(** /youtu(be)?\.com|vimeo\.com/i *)
Definition videoHost : regex :=
  Alt (seq [Lit "youtu"; Opt (Grp 1 (Lit "be")); Lit ".com"]) (Lit "vimeo.com").

(** /huggingface\.co\//i *)
Definition huggingface : regex := Lit "huggingface.co/".

(** /(univ|institute|college|school|laborator|centre|center)/ *)
Definition academia : regex :=
  Grp 1 (alt (List.map Lit
    ["univ"; "institute"; "college"; "school"; "laborator"; "centre"; "center"])).

(** /(inc|corp|labs|technolog|systems|company|ltd|llc|google|microsoft|meta|ibm|amazon|nvidia|openai|deepmind)/ *)
Definition industry : regex :=
  Grp 1 (alt (List.map Lit
    ["inc"; "corp"; "labs"; "technolog"; "systems"; "company"; "ltd"; "llc";
     "google"; "microsoft"; "meta"; "ibm"; "amazon"; "nvidia"; "openai"; "deepmind"])).

Definition fence3 : string := String bq (String bq (String bq EmptyString)).

(** /```json\s*([\s\S]*?)\s*```/i *)
Definition fencedJson : regex :=
  seq [Lit (fence3 ++ "json"); Rep true space; Grp 1 (Rep false anyChar);
       Rep true space; Lit fence3].

(** /```\s*([\s\S]*?)\s*```/i *)
Definition fenced : regex :=
  seq [Lit fence3; Rep true space; Grp 1 (Rep false anyChar);
       Rep true space; Lit fence3].

End Pat.

(** [.replace(/\s+/g, ' ').trim()] *)
Definition collapse (s : string) : string :=
  Str.trim (Re.replaceAll false Pat.spaces " " s).

(** [.replace(/<[^>]+>/g, '').replace(/\s+/g, ' ').trim()] *)
Definition stripTags (s : string) : string :=
  collapse (Re.replaceAll false Pat.tag EmptyString s).

(** [.replace(/\.pdf$/i, '')] *)
Definition dropPdf (s : string) : string :=
  Re.replaceFirst true Pat.pdfSuffix EmptyString s.

(** [x === s] for an array element [x], [undefined] past the end. *)
Definition isPart (x : option string) (s : string) : bool :=
  match x with
  | Some t => String.eqb t s
  | None => false
  end.

Definition isSome {A} (x : option A) : bool :=
  match x with
  | Some _ => true
  | None => false
  end.

(** [u.pathname.split('/').filter(Boolean)] *)
Definition pathSegments (u : URL) : list string :=
  List.filter Str.nonEmpty (Str.split "/" u.(pathname)).

(** ** categorizeAffiliation *)

Definition categorizeAffiliation (aff : option string) : Category :=
  match truthyStr aff with
  | None => Other
  | Some aff =>
      let a := Str.toLowerCase aff in
      if Re.test false Pat.academia a then Academia
      else if Re.test false Pat.industry a then Industry
      else Other
  end.

(** ** inferCollabType *)

Definition inferCollabType (list : list Entry.t) : CollabType :=
  match list with
  | [] => Unknown
  | _ =>
      let hasAcad := List.existsb (fun a => Js.isString a.(Entry.category) "Academia") list in
      let hasInd := List.existsb (fun a => Js.isString a.(Entry.category) "Industry") list in
      if hasAcad && hasInd then AcademiaIndustry
      else if hasAcad then AcademiaOnly
      else if hasInd then IndustryOnly
      else Unknown
  end.

(** ** buildPrompt *)

Definition buildPrompt (paperMeta : ArxivMeta.t) : string :=
  let title := paperMeta.(ArxivMeta.title) in
  let abstract := paperMeta.(ArxivMeta.abstract) in
  let authors := paperMeta.(ArxivMeta.authors) in
  let absUrl := paperMeta.(ArxivMeta.absUrl) in
  let pdfUrl := paperMeta.(ArxivMeta.pdfUrl) in
  let id := paperMeta.(ArxivMeta.id) in
  Str.join (String (Str.chr 10) EmptyString)
    [
      "You are an assistant creating a practitioner-friendly structured summary of a research paper.";
      "Here is the paper information:";
      "Title: " ++ orElse title "Unknown";
      "arXiv ID: " ++ orElse id "Unknown";
      "Abstract: " ++ orElse abstract "No abstract available";
      "Authors: " ++ orElse (Some (Str.join ", " authors)) "Unknown authors";
      "Abstract URL: " ++ orElse absUrl "Unknown";
      "PDF URL: " ++ orElse pdfUrl "Unknown";
      EmptyString;
      "Based on this paper information, create a structured summary and return ONLY strict JSON (no markdown fences) matching this full schema:";
      "{" ++ q "title" ++ ": string, " ++ q "arxiv_id" ++ ": string, " ++
        q "arxiv_abs_url" ++ ": string, " ++ q "arxiv_pdf_url" ++ ": string, " ++
        q "one_liner" ++ ": string, " ++ q "simplified_summary" ++ ": string, " ++
        q "practical_problem" ++ ": string, " ++ q "problems_solved" ++ ": string[], " ++
        q "key_innovations" ++ ": string[], " ++ q "impact_potential" ++ ": string[], " ++
        q "use_cases" ++ ": string[], " ++ q "benchmarks" ++ ": [{" ++ q "metric" ++
        ": string, " ++ q "value" ++ ": string, " ++ q "baseline" ++ ": string, " ++
        q "improvement" ++ ": string}], " ++ q "collaboration_type" ++ ": " ++
        q "Academia-only" ++ "|" ++ q "Industry-only" ++ "|" ++ q "Academia-Industry" ++
        "|" ++ q "Unknown" ++ ", " ++ q "takeaways" ++ ": string[], " ++ q "notes" ++
        ": string[], " ++ q "resources" ++ ": {" ++ q "code" ++ ": string[], " ++
        q "video" ++ ": string[], " ++ q "checkpoints" ++ ": string[]}, " ++
        q "reliability_score" ++ ": number, " ++ q "applicability_score" ++ ": number, " ++
        q "overall_score" ++ ": number, " ++ q "total_authors" ++ ": number, " ++
        q "authors" ++ ": string[], " ++ q "authors_affiliations" ++ ": [{" ++ q "name" ++
        ": string, " ++ q "affiliation" ++ ": string, " ++ q "category" ++
        ": string}], " ++ q "affiliation_breakdown" ++ ": {" ++ q "Academia" ++
        ": number, " ++ q "Industry" ++ ": number, " ++ q "Other" ++ ": number}}";
      "Definitions & Rules:";
      "- title: The paper title.";
      "- arxiv_id: The arXiv ID if applicable.";
      "- arxiv_abs_url: The abstract URL.";
      "- arxiv_pdf_url: The PDF URL.";
      "- one_liner: <= 25 words plain language value prop.";
      "- simplified_summary: Plain, non-academic explanation (<=300 words) covering what, how, why it matters.";
      "- practical_problem: Real-world problem addressed in one concise sentence.";
      "- problems_solved: 3-6 concrete pain points; each <= 12 words.";
      "- key_innovations: 3-6 technical or methodological novelties.";
      "- impact_potential: 3-5 bullets broader potential (societal/economic/scientific).";
      "- use_cases: 3-6 practical scenarios.";
      "- benchmarks: Only include reported quantitative results. {metric, value, baseline, improvement}. No invention. [] if none.";
      "- collaboration_type: Infer from affiliations; Academia-Industry if >=1 of each.";
      "- takeaways: 3-6 actionable distilled lessons.";
      "- notes: Limitations/risks (0-5).";
      "- resources.*: Only URLs found in the paper or clearly present; no hallucinated domains.";
      "- reliability_score: 0-100 (soundness: clarity, evidence, benchmarks, openness).";
      "- applicability_score: 0-100 (ease of adoption, code/resources, clarity).";
      "- overall_score: Weighted 0-100 (0.6*reliability + 0.4*applicability).";
      "- total_authors: Number of authors.";
      "- authors: List of author names.";
      "- authors_affiliations: List with name, affiliation, category (Academia/Industry/Other).";
      "- affiliation_breakdown: Count of each category.";
      "- NEVER fabricate benchmarks or links. Use empty collections if absent.";
      "- Keep wording neutral, concise, concrete. No hype."
    ].

Section Worker.

Context {rt : Runtime}.

(** [new URL(input)], which throws a TypeError on a string that does not
    parse. *)
Definition new_URL (input : string) : outcome URL :=
  match URL_parse input with
  | Some u => Returned u
  | None => Thrown TypeError
  end.

(** [await res.json()] *)
Definition res_json (res : Response) : outcome value :=
  match JSON_parse res.(body) with
  | Some v => Returned v
  | None => Thrown SyntaxError
  end.

(** ** extractArxivId *)

Definition extractArxivId (input : string) : option string :=
  let attempt : outcome (option string) :=
    (u <- new_URL input ;;
     if negb (Str.endsWith u.(hostname) "arxiv.org") then Returned None
     else
       let parts := pathSegments u in
       let last := dropPdf (List.last parts EmptyString) in
       Returned (truthyStr (Some last)))%outcome in
  match attempt with
  | Returned r => r
  | Thrown _ => None
  end.

(** ** normalizePaperInput

    The body of the [try] returns [Some] of what a [return] inside it gives
    and [None] when control leaves the block at its end. *)
Definition normalizePaperInput (input : string) : outcome string :=
  let input := Str.trim input in
  let attempt : outcome (option string) :=
    (url <- new_URL input ;;
     if String.eqb url.(hostname) "arxiv.org" then
       let pathParts := pathSegments url in
       let part0 := List.nth_error pathParts 0 in
       let part1 := List.nth_error pathParts 1 in
       if isPart part0 "abs" && isSome (truthyStr part1) then
         (* Already abs URL *)
         Returned (Some input)
       else if isPart part0 "pdf" && isSome (truthyStr part1) then
         (* PDF URL, convert to abs *)
         let id := dropPdf (orElse part1 EmptyString) in
         Returned (Some ("https://arxiv.org/abs/" ++ id))
       else if Nat.eqb (List.length pathParts) 1 then
         (* Probably ID in path *)
         let id := dropPdf (orElse part0 EmptyString) in
         Returned (Some ("https://arxiv.org/abs/" ++ id))
       else Returned None
     else
       (* Non-arXiv URL, prepare HTML archive URL *) Returned (Some ("https://web.archive.org/web/2/" ++ input)))%outcome in
  match attempt with
  | Returned (Some r) => Returned r
  | Returned None => Returned input
  | Thrown _ => Returned ("https://arxiv.org/abs/" ++ input)
  end.

(** ** fetchArxivMeta *)

Definition GET (url : string) : Request := mkRequest url "GET" [] None.

(** The author blocks of the Atom feed, as the [forEach] pushes them. *)
Definition atomAuthors (xml : string) : list string * list Author.t :=
  List.fold_left
    (fun (acc : list string * list Author.t) (block : Re.result) =>
       let raw := match Re.group 1 block.(Re.captures) with
                  | Some g => g
                  | None => EmptyString
                  end in
       let nameMatch := Re.capture1 true Pat.name raw in
       let affMatch := Re.capture1 true Pat.affiliation raw in
       let name := match nameMatch with Some n => Some (collapse n) | None => None end in
       match truthyStr name with
       | Some name =>
           let affiliation :=
             match affMatch with Some a => Some (collapse a) | None => None end in
           (fst acc ++ [name],
            snd acc ++ [Author.mk name affiliation (categorizeAffiliation affiliation)])%list
       | None => acc
       end)
    (Re.allMatches true Pat.author xml) ([], []).

(** The resource links of the abstract page, sorted into code, video and
    model links as the [forEach] pushes them. *)
Definition htmlLinks (html : string) : list string * list string * list string :=
  List.fold_left
    (fun (acc : list string * list string * list string) (m : Re.result) =>
       let '(codeLinks, videoLinks, modelLinks) := acc in
       let raw := match Re.group 1 m.(Re.captures) with
                  | Some g => g
                  | None => EmptyString
                  end in
       let link :=
         Re.replaceFirst false Pat.fragment EmptyString
           (Str.trim (Re.replaceAll false Pat.amp "&" raw)) in
       if Re.test true Pat.github link then (codeLinks ++ [link], videoLinks, modelLinks)%list
       else if Re.test true Pat.videoHost link then (codeLinks, videoLinks ++ [link], modelLinks)%list
       else if Re.test true Pat.huggingface link then (codeLinks, videoLinks, modelLinks ++ [link])%list
       else acc)
    (Re.allMatches true Pat.htmlLink html) ([], [], []).

(** The metadata with nothing found. *)
Definition noMeta (id : option string) : ArxivMeta.t :=
  ArxivMeta.mk id None None [] None None [] [] [] [].

Definition fetchArxivMeta (net : Network) (url : string) : io ArxivMeta.t :=
  let id := extractArxivId url in
  match truthyStr id with
  | Some id' =>
      let apiUrl := "https://export.arxiv.org/api/query?id_list=" ++ encodeURIComponent id' in
      (res <- IO.fetch net (GET apiUrl) ;;
       if negb (ok res) then IO.throw (Error ("arXiv API error " ++ Str.ofZ res.(status)))
       else
         let xml := res.(body) in
         let title :=
           match Re.capture1 true Pat.entryTitle xml with
           | Some t => Some (collapse t)
           | None => None
           end in
         let abstract :=
           match Re.capture1 true Pat.summary xml with
           | Some s => Some (collapse s)
           | None => None
           end in
         let '(authors, authorsDetailed) := atomAuthors xml in
         let absUrl := "https://arxiv.org/abs/" ++ id' in
         let pdfUrl := "https://arxiv.org/pdf/" ++ id' ++ ".pdf" in
         IO.ret (ArxivMeta.mk id title abstract authors (Some absUrl) (Some pdfUrl)
                   authorsDetailed [] [] []))%io
  | None =>
      (* Fallback to abs HTML extraction; whatever throws inside is swallowed
         and the variables keep what was assigned before. *)
      match new_URL url with
      | Thrown _ => IO.ret (noMeta id)
      | Returned u =>
          if Str.endsWith u.(hostname) "arxiv.org" then
            let parts := pathSegments u in
            let id2 := dropPdf (List.last parts EmptyString) in
            let absUrl := "https://arxiv.org/abs/" ++ id2 in
            let pdfUrl := "https://arxiv.org/pdf/" ++ id2 ++ ".pdf" in
            IO.catch
              (res <- IO.fetch net (GET absUrl) ;;
               let html := res.(body) in
               let title :=
                 match Re.capture1 true Pat.htmlTitle html with
                 | Some t => Some (stripTags t)
                 | None => None
                 end in
               let abstract :=
                 match Re.capture1 true Pat.htmlAbstract html with
                 | Some a => Some (stripTags a)
                 | None => None
                 end in
               let aMatches := Re.allMatches true Pat.htmlAuthor html in
               let authors :=
                 match aMatches with
                 | [] => []
                 | _ =>
                     List.filter Str.nonEmpty
                       (List.map
                          (fun m => stripTags
                             (match Re.group 1 m.(Re.captures) with
                              | Some g => g
                              | None => EmptyString
                              end))
                          aMatches)
                 end in
               let authorsDetailed := List.map (fun name => Author.mk name None Other) authors in
               let '(codeLinks, videoLinks, modelLinks) := htmlLinks html in
               IO.ret (ArxivMeta.mk id title abstract authors (Some absUrl) (Some pdfUrl)
                         authorsDetailed codeLinks videoLinks modelLinks))%io
              (fun _ => IO.ret (ArxivMeta.mk id None None [] (Some absUrl) (Some pdfUrl) [] [] [] []))
          else IO.ret (noMeta id)
      end
  end.

(** ** summarizeWithGemini *)

(** ToString of a value, as a computed property key needs it: it throws on
    an object that carries an own [toString] property (no parsed value is
    callable, and [Object.prototype.valueOf] returns the object). *)
Fixpoint toStringValue (v : value) : outcome string :=
  match v with
  | VUndefined => Returned "undefined"
  | VNull => Returned "null"
  | VBool true => Returned "true"
  | VBool false => Returned "false"
  | VNum n => Returned (Number_toString n)
  | VStr s => Returned s
  | VArr items =>
      (fix joinItems (l : list value) : outcome string :=
         match l with
         | [] => Returned EmptyString
         | x :: l' =>
             (sx <- match x with
                    | VUndefined | VNull => Returned EmptyString
                    | _ => toStringValue x
                    end ;;
              match l' with
              | [] => Returned sx
              | _ => (rest <- joinItems l' ;; Returned (sx ++ "," ++ rest))
              end)%outcome
         end) items
  | VObj fields =>
      match Js.assoc "toString" fields with
      | Some _ => Thrown TypeError
      | None => Returned "[object Object]"
      end
  end.

(** What the accumulator of the tally holds under a key. *)
Inductive count : Type :=
| CNum (n : float)
| CStr (s : string).

Definition count_value (c : count) : value :=
  match c with
  | CNum n => VNum n
  | CStr s => VStr s
  end.

Fixpoint countAssoc (k : string) (acc : list (string * count)) : option count :=
  match acc with
  | [] => None
  | (k', c) :: acc' => if String.eqb k k' then Some c else countAssoc k acc'
  end.

(** Assignment to a key of the accumulator: an own key keeps its place, a
    new key goes to the end.  The list is in creation order, which is the
    order the keys of the object are enumerated in when none of them is an
    array index. *)
Fixpoint countSet (k : string) (c : count) (acc : list (string * count)) : list (string * count) :=
  match acc with
  | [] => [(k, c)]
  | (k', c') :: acc' =>
      if String.eqb k k' then (k, c) :: acc' else (k', c') :: countSet k c acc'
  end.

(** [acc[key] = (acc[key] || 0) + 1] on an accumulator that started as an
    object literal.  An own count is incremented; a key that names a method
    of [Object.prototype] reads the method, whose sum with 1 is a string;
    [__proto__] reads the prototype through its accessor, whose setter
    ignores the string assigned; any other key starts at 1. *)
Definition bump (acc : list (string * count)) (key : string) : list (string * count) :=
  match countAssoc key acc with
  | Some (CNum n) =>
      countSet key (CNum ((if Num.truthy n then n else 0) + 1)%float) acc
  | Some (CStr s) =>
      countSet key (if Str.nonEmpty s then CStr (s ++ "1") else CNum 1%float) acc
  | None =>
      if String.eqb key "__proto__" then acc
      else if Js.isPrototypeMethod key then countSet key (CStr (native_source key ++ "1")) acc
      else countSet key (CNum 1%float) acc
  end.

(** The [reduce] that counts the entries by category. *)
Definition tally (list : list Entry.t) : outcome value :=
  (acc <- Out.foldM
            (fun acc a => key <- toStringValue a.(Entry.category) ;; Returned (bump acc key))
            [("Academia", CNum 0%float); ("Industry", CNum 0%float); ("Other", CNum 0%float)]
            list ;;
   Returned (VObj (List.map (fun kc => (fst kc, count_value (snd kc))) acc)))%outcome.

(** [data?.candidates?.[0]?.content?.parts?.[0]?.text || ''] *)
Definition extractText (data : value) : value :=
  Js.or
    (Js.getOpt
       (Js.getOpt0
          (Js.getOpt (Js.getOpt (Js.getOpt0 (Js.getOpt data "candidates")) "content") "parts"))
       "text")
    (VStr EmptyString).

(** [text.trim()], a TypeError when [text] has no such method. *)
Definition trimValue (text : value) : outcome string :=
  match text with
  | VStr s => Returned (Str.trim s)
  | _ => Thrown TypeError
  end.

(** The text handed to [JSON.parse]: the trimmed text, or the trimmed inside
    of the first fenced block when one is found. *)
Definition fencedJson (jsonStr : string) : string :=
  let fenced :=
    match Re.exec true Pat.fencedJson jsonStr with
    | Some m => Some m
    | None => Re.exec true Pat.fenced jsonStr
    end in
  match fenced with
  | Some m =>
      Str.trim (match Re.group 1 m.(Re.captures) with Some g => g | None => EmptyString end)
  | None => jsonStr
  end.

(** [JSON.parse(jsonStr)] *)
Definition parseJson (jsonStr : string) : outcome value :=
  match JSON_parse jsonStr with
  | Some v => Returned v
  | None => Thrown SyntaxError
  end.

(** The body of the [try] after the parse. *)
Definition buildSummary (paperMeta : ArxivMeta.t) (parsed : value) : outcome Summary.t :=
  (reliability <- Js.get parsed "reliability_score" ;;
   let rel := Js.numberOrNull reliability in
   applicability <- Js.get parsed "applicability_score" ;;
   let app := Js.numberOrNull applicability in
   overall_score <- Js.get parsed "overall_score" ;;
   let overall :=
     match overall_score with
     | VNum n => Some n
     | _ =>
         match rel, app with
         | Some rel, Some app => Some (Num.round (rel * 0.6 + app * 0.4)%float)
         | _, _ => None
         end
     end in
   authors_affiliations <- Js.get parsed "authors_affiliations" ;;
   authorsDetailed <-
     match authors_affiliations with
     | VArr items =>
         Out.mapM
           (fun a =>
              name <- Js.get a "name" ;;
              affiliation <- Js.get a "affiliation" ;;
              category <- Js.get a "category" ;;
              Returned (Entry.mk name affiliation category))
           items
     | _ => Returned []
     end ;;
   affiliation_breakdown <- Js.get parsed "affiliation_breakdown" ;;
   affiliationBreakdown <-
     (if Js.truthy affiliation_breakdown then Returned affiliation_breakdown
      else tally authorsDetailed) ;;
   title <- Js.get parsed "title" ;;
   arxiv_id <- Js.get parsed "arxiv_id" ;;
   arxiv_abs_url <- Js.get parsed "arxiv_abs_url" ;;
   arxiv_pdf_url <- Js.get parsed "arxiv_pdf_url" ;;
   one_liner <- Js.get parsed "one_liner" ;;
   simplified_summary <- Js.get parsed "simplified_summary" ;;
   practical_problem <- Js.get parsed "practical_problem" ;;
   problems_solved <- Js.get parsed "problems_solved" ;;
   key_innovations <- Js.get parsed "key_innovations" ;;
   impact_potential <- Js.get parsed "impact_potential" ;;
   use_cases <- Js.get parsed "use_cases" ;;
   benchmarks <- Js.get parsed "benchmarks" ;;
   collaboration_type <- Js.get parsed "collaboration_type" ;;
   takeaways <- Js.get parsed "takeaways" ;;
   notes <- Js.get parsed "notes" ;;
   let resources := Js.getOpt parsed "resources" in
   total_authors <- Js.get parsed "total_authors" ;;
   authors <- Js.get parsed "authors" ;;
   authors_length <-
     (if Js.truthy authors then Js.get authors "length" else Returned (VNum 0%float)) ;;
   Returned
     (Summary.mk
        (Js.or title (strOrUndefined paperMeta.(ArxivMeta.title)))
        (Js.or arxiv_id (strOrUndefined paperMeta.(ArxivMeta.id)))
        (Js.or arxiv_abs_url (strOrUndefined paperMeta.(ArxivMeta.absUrl)))
        (Js.or arxiv_pdf_url (strOrUndefined paperMeta.(ArxivMeta.pdfUrl)))
        (Js.or one_liner (VStr EmptyString))
        (Js.or simplified_summary VUndefined)
        (Js.or practical_problem VUndefined)
        (Js.arrayOr problems_solved)
        (Js.arrayOr key_innovations)
        (Js.arrayOr impact_potential)
        (Js.arrayOr use_cases)
        (Js.arrayOr benchmarks)
        (Js.or collaboration_type (VStr (CollabType_name (inferCollabType authorsDetailed))))
        (Js.arrayOr takeaways)
        (Js.arrayOr notes)
        (Resources.mk
           (Js.arrayOr (Js.getOpt resources "code"))
           (Js.arrayOr (Js.getOpt resources "video"))
           (Js.arrayOr (Js.getOpt resources "checkpoints")))
        (Js.numOrUndefined rel)
        (Js.numOrUndefined app)
        (Js.numOrUndefined overall)
        (Js.or total_authors authors_length)
        (Js.arrayOr authors)
        authorsDetailed
        affiliationBreakdown))%outcome.

(** The handler of the [catch]: the summary built from the fetched metadata. *)
Definition fallbackSummary (paperMeta : ArxivMeta.t) : outcome Summary.t :=
  let authorsDetailed := List.map Entry.ofAuthor paperMeta.(ArxivMeta.authorsDetailed) in
  (affiliation_breakdown <- tally authorsDetailed ;;
   Returned
     (Summary.mk
        (strOrUndefined paperMeta.(ArxivMeta.title))
        (strOrUndefined paperMeta.(ArxivMeta.id))
        (strOrUndefined paperMeta.(ArxivMeta.absUrl))
        (strOrUndefined paperMeta.(ArxivMeta.pdfUrl))
        (VStr "Summary generation failed, but paper metadata was retrieved.")
        VUndefined
        VUndefined
        (VArr [])
        (VArr [])
        VUndefined
        VUndefined
        (VArr [])
        (VStr (CollabType_name (inferCollabType authorsDetailed)))
        (VArr [])
        (VArr [VStr "Summary generation failed - please try again"])
        (Resources.mk
           (Js.ofStrings paperMeta.(ArxivMeta.codeLinks))
           (Js.ofStrings paperMeta.(ArxivMeta.videoLinks))
           (Js.ofStrings paperMeta.(ArxivMeta.modelLinks)))
        VUndefined
        VUndefined
        VUndefined
        (VNum (Num.ofNat (List.length paperMeta.(ArxivMeta.authors))))
        (Js.ofStrings paperMeta.(ArxivMeta.authors))
        authorsDetailed
        affiliation_breakdown))%outcome.

(** From the text of the model to the summary: the fence, the [try] and its
    [catch]. *)
Definition resolveText (paperMeta : ArxivMeta.t) (text : value) : outcome Summary.t :=
  (trimmed <- trimValue text ;;
   let jsonStr := fencedJson trimmed in
   Out.catch
     (parsed <- parseJson jsonStr ;; buildSummary paperMeta parsed)
     (fun _ => fallbackSummary paperMeta))%outcome.

Definition geminiEndpoint (apiKey : string) : string :=
  "https://generativelanguage.googleapis.com/v1beta/models/gemini-2.5-flash:generateContent?key="
  ++ encodeURIComponent apiKey.

(** [JSON.stringify({ contents: [{ parts: [{ text }] }] })] *)
Definition geminiBody (text : string) : string :=
  "{" ++ q "contents" ++ ":[{" ++ q "parts" ++ ":[{" ++ q "text" ++ ":"
  ++ JSON_quote text ++ "}]}]}".

Definition geminiRequest (apiKey : string) (paperMeta : ArxivMeta.t) : Request :=
  mkRequest (geminiEndpoint apiKey) "POST"
    [("content-type", "application/json")]
    (Some (geminiBody (buildPrompt paperMeta))).

Definition summarizeWithGemini (net : Network) (apiKey paperUrl : string) : io Summary.t :=
  (paperMeta <- fetchArxivMeta net paperUrl ;;
   res <- IO.fetch net (geminiRequest apiKey paperMeta) ;;
   if negb (ok res) then
     let txt := res.(body) in
     IO.throw (Error ("Gemini error " ++ Str.ofZ res.(status) ++ ": " ++ txt))
   else
     data <- IO.lift (res_json res) ;;
     let text := extractText data in
     IO.lift (resolveText paperMeta text))%io.

End Worker.

(* ===================================================================== *)
(** * The request handler *)
(* ===================================================================== *)

(** What the handler reads of the incoming request: its address, its method
    and its [origin] header, [None] when [request.headers.get] gives
    [null]. *)
Record Incoming : Type := mkIncoming {
  in_url : string;
  in_method : string;
  in_origin : option string
}.

(** The bindings of the worker; [ALLOWED_ORIGINS] is optional. *)
Record Env : Type := mkEnv {
  GOOGLE_API_KEY : string;
  ALLOWED_ORIGINS : option string
}.

(** The body of a reply.  A body written by [JSON.stringify] is kept as the
    value that was handed to it. *)
Inductive Body : Type :=
| NoBody                          (* new Response(null, ...) *)
| Text (s : string)               (* new Response('OK', ...) *)
| ErrorJson (error : string)      (* JSON.stringify({ error }) *)
| SummaryJson (s : Summary.t).    (* JSON.stringify(structured) *)

(** The reply of the handler: status (200 when the source gives none),
    headers in the order the object literal lists them, body. *)
Record Reply : Type := mkReply {
  reply_status : Z;
  reply_headers : list (string * string);
  reply_body : Body
}.

(** The two further platform functions the handler calls:
    [new URL(s).searchParams.get(name)], and the [message] of an error the
    platform itself threw. *)
Class Host : Type := {
  searchParams_get : string -> string -> option string;
  native_message : exn -> string
}.

(** [e.message] *)
Definition message {host : Host} (e : exn) : string :=
  match e with
  | Error m => m
  | _ => native_message e
  end.

(** [(env.ALLOWED_ORIGINS || '').split(',').map(s => s.trim()).filter(Boolean)] *)
Definition allowedOrigins (env : Env) : list string :=
  List.filter Str.nonEmpty
    (List.map Str.trim (Str.split "," (orElse env.(ALLOWED_ORIGINS) EmptyString))).

(** [allowed.length === 0 || allowed.includes(origin)] *)
Definition isAllowed (allowed : list string) (origin : string) : bool :=
  Nat.eqb (List.length allowed) 0 || List.existsb (String.eqb origin) allowed.

Definition corsBase (allowed : list string) (origin : string) : list (string * string) :=
  [ ("access-control-allow-origin",
     if isAllowed allowed origin && Str.nonEmpty origin then origin else "null");
    ("access-control-allow-headers", "content-type");
    ("access-control-allow-methods", "GET,OPTIONS");
    ("vary", "origin") ].

(** [{ 'content-type': 'application/json', ...corsBase }] *)
Definition jsonHeaders (cors : list (string * string)) : list (string * string) :=
  ("content-type", "application/json") :: cors.

Module Handler.
Section Handler.

Context {rt : Runtime} {host : Host}.

(** The [fetch] method of the default export. *)
Definition fetch (net : Network) (request : Incoming) (env : Env) : io Reply :=
  (url <- IO.lift (new_URL request.(in_url)) ;;
   let origin := orElse request.(in_origin) EmptyString in
   let allowed := allowedOrigins env in
   let cors := corsBase allowed origin in
   if String.eqb url.(pathname) "/api/summarize" then
     if String.eqb request.(in_method) "OPTIONS" then IO.ret (mkReply 200 cors NoBody)
     else if negb (isAllowed allowed origin) then
       IO.ret (mkReply 403 (jsonHeaders cors) (ErrorJson "Forbidden"))
     else
       let paper := searchParams_get request.(in_url) "paper" in
       match truthyStr paper with
       | None => IO.ret (mkReply 400 (jsonHeaders cors) (ErrorJson "Missing paper param"))
       | Some paper =>
           IO.catch
             (normalizedPaper <- IO.lift (normalizePaperInput paper) ;;
              structured <- summarizeWithGemini net env.(GOOGLE_API_KEY) normalizedPaper ;;
              IO.ret (mkReply 200 (jsonHeaders cors) (SummaryJson structured)))
             (fun e =>
                IO.ret (mkReply 500 (jsonHeaders cors)
                          (ErrorJson (orElse (Some (message e)) "Failed to summarize"))))
       end
   else if String.eqb request.(in_method) "OPTIONS" then IO.ret (mkReply 200 cors NoBody)
   else IO.ret (mkReply 200 cors (Text "OK")))%io.

End Handler.
End Handler.

(* ===================================================================== *)
(** * The reference platform *)
(* ===================================================================== *)

(** ** URL parsing

    The basic URL parser of the URL Standard, without a base URL, on the
    inputs of this fragment: every scheme but [file]; hosts that are not
    IPv6 literals; for the special schemes, hosts that are ASCII domains
    without a percent sign, without a label in [xn--] and not ending in a
    number.  Outside the fragment the answer is [Unsupported].  Only the
    host and the path are kept. *)
Module Whatwg.

Inductive parsed : Type :=
| Parsed (u : URL)
| Failure
| Unsupported.

Definition isC0OrSpace (c : ascii) : bool := (Str.code c <=? 32)%N.

Definition isTabOrNewline (c : ascii) : bool :=
  let n := Str.code c in ((n =? 9) || (n =? 10) || (n =? 13))%N.

Fixpoint stripStart (s : string) : string :=
  match s with
  | EmptyString => EmptyString
  | String c s' => if isC0OrSpace c then stripStart s' else s
  end.

Fixpoint stripEnd (s : string) : string :=
  match s with
  | EmptyString => EmptyString
  | String c s' =>
      match stripEnd s' with
      | EmptyString => if isC0OrSpace c then EmptyString else String c EmptyString
      | t => String c t
      end
  end.

Fixpoint removeTabNewline (s : string) : string :=
  match s with
  | EmptyString => EmptyString
  | String c s' =>
      if isTabOrNewline c then removeTabNewline s' else String c (removeTabNewline s')
  end.

(** The input as the state machine sees it. *)
Definition prepare (s : string) : string := removeTabNewline (stripEnd (stripStart s)).

(** Scheme state: the lower-cased scheme and what follows the colon. *)
Fixpoint schemeState (s : string) : option (string * string) :=
  match s with
  | EmptyString => None
  | String c s' =>
      if Ascii.eqb c ":" then Some (EmptyString, s')
      else if Str.isAlnum c || Str.any (Ascii.eqb c) "+-." then
        match schemeState s' with
        | Some (scheme, rest) => Some (String (Str.lowerAscii c) scheme, rest)
        | None => None
        end
      else None
  end.

(** Scheme start state. *)
Definition schemeStart (s : string) : option (string * string) :=
  match s with
  | String c _ => if Str.isAlpha c then schemeState s else None
  | EmptyString => None
  end.

Definition isSpecial (scheme : string) : bool :=
  List.existsb (String.eqb scheme) ["ftp"; "file"; "http"; "https"; "ws"; "wss"].

(** The longest prefix without a character of [stop], and the rest. *)
Fixpoint span (stop : ascii -> bool) (s : string) : string * string :=
  match s with
  | EmptyString => (EmptyString, EmptyString)
  | String c s' =>
      if stop c then (EmptyString, s)
      else let (a, b) := span stop s' in (String c a, b)
  end.

Definition oneOf (cs : string) : ascii -> bool := fun c => Str.any (Ascii.eqb c) cs.

(** What follows the last at-sign, and whether there is one. *)
Fixpoint afterLastAt (s : string) : string * bool :=
  match s with
  | EmptyString => (EmptyString, false)
  | String c s' =>
      let (t, seen) := afterLastAt s' in
      if seen then (t, true)
      else if Ascii.eqb c "@" then (s', true)
      else (s, false)
  end.

Fixpoint decimal (s : string) (acc : N) : N :=
  match s with
  | EmptyString => acc
  | String c s' => decimal s' (10 * acc + (Str.code c - 48))%N
  end.

(** Port state on the text after the colon: [false] on a character that is
    not a digit and on a port above 65535. *)
Definition portOk (port : string) : bool :=
  Str.all Str.isDigit port && (decimal port 0 <=? 65535)%N.

(** Forbidden host code points, and forbidden domain code points. *)
Definition forbiddenHost (c : ascii) : bool :=
  let n := Str.code c in
  (n =? 0)%N || (n =? 9)%N || (n =? 10)%N || (n =? 13)%N
  || oneOf " #/:<>?@[\]^|" c.

Definition forbiddenDomain (c : ascii) : bool :=
  let n := Str.code c in
  forbiddenHost c || (n <=? 31)%N || Ascii.eqb c "%" || (n =? 127)%N.

Definition isHex (c : ascii) : bool :=
  Str.isDigit c || oneOf "abcdefABCDEF" c.

(** The ends-in-a-number checker. *)
Definition endsInNumber (host : string) : bool :=
  let parts := Str.split "." host in
  let parts :=
    match List.rev parts with
    | EmptyString :: ((_ :: _) as rest) => List.rev rest
    | _ => parts
    end in
  match List.rev parts with
  | [EmptyString] => false
  | last :: _ =>
      (Str.nonEmpty last && Str.all Str.isDigit last)
      || match last with
         | String "0" (String x digits) =>
             (Ascii.eqb x "x" || Ascii.eqb x "X") && Str.all isHex digits
         | _ => false
         end
  | [] => false
  end.

Definition hasPunycodeLabel (host : string) : bool :=
  List.existsb (fun label => String.prefix "xn--" (Str.map Str.lowerAscii label))
    (Str.split "." host).

Inductive host_result : Type :=
| Host (h : string)
| HostFailure
| HostUnsupported.

(** The C0 control percent-encode set, and the sets built on it. *)
Definition inC0ControlSet (c : ascii) : bool :=
  let n := Str.code c in ((n <=? 31) || (126 <? n))%N.

Definition inQuerySet (c : ascii) : bool :=
  inC0ControlSet c || Ascii.eqb c " " || Ascii.eqb c (Str.chr 34) || oneOf "#<>" c.

Definition inPathSet (c : ascii) : bool :=
  inQuerySet c || oneOf "?^{}" c || Ascii.eqb c (Str.chr 96).

Definition percentEncode (inSet : ascii -> bool) (s : string) : string :=
  Str.concatMap (fun c => if inSet c then Str.percentUtf8 c else String c EmptyString) s.

(** The host parser: a domain for a special scheme, an opaque host
    otherwise. *)
Definition hostParse (special : bool) (input : string) : host_result :=
  match input with
  | String "[" _ => HostUnsupported
  | _ =>
      if special then
        if Str.any (fun c => (127 <? Str.code c)%N || Ascii.eqb c "%") input
           || hasPunycodeLabel input
        then HostUnsupported
        else
          let asciiDomain := Str.map Str.lowerAscii input in
          if Str.any forbiddenDomain asciiDomain then HostFailure
          else if endsInNumber asciiDomain then HostUnsupported
          else Host asciiDomain
      else
        if Str.any forbiddenHost input then HostFailure
        else Host (percentEncode inC0ControlSet input)
  end.

Definition isSingleDot (seg : string) : bool :=
  let s := Str.map Str.lowerAscii seg in
  String.eqb s "." || String.eqb s "%2e".

Definition isDoubleDot (seg : string) : bool :=
  let s := Str.map Str.lowerAscii seg in
  String.eqb s ".." || String.eqb s ".%2e" || String.eqb s "%2e." || String.eqb s "%2e%2e".

(** Path state, one buffer at a time: [segs] are the buffers between the
    separators, [path] is the path so far. *)
Fixpoint pathState (segs : list string) (path : list string) : list string :=
  match segs with
  | [] => path
  | seg :: rest =>
      let isLast := match rest with [] => true | _ => false end in
      let path' :=
        if isDoubleDot seg then
          let shortened := List.removelast path in
          if isLast then (shortened ++ [EmptyString])%list else shortened
        else if isSingleDot seg then
          if isLast then (path ++ [EmptyString])%list else path
        else (path ++ [percentEncode inPathSet seg])%list in
      pathState rest path'
  end.

(** The buffers of a path: split at the slash, and at the backslash for a
    special scheme. *)
Fixpoint splitPath (special : bool) (s : string) : list string :=
  match s with
  | EmptyString => [EmptyString]
  | String c s' =>
      if Ascii.eqb c "/" || (special && Ascii.eqb c "\") then EmptyString :: splitPath special s'
      else match splitPath special s' with
           | [] => [String c EmptyString]
           | p :: ps => String c p :: ps
           end
  end.

(** The URL path serializer on a list of segments. *)
Definition serializePath (path : list string) : string :=
  String.concat EmptyString (List.map (fun seg => "/" ++ seg) path).

(** Path start state and path state on what follows the authority, up to
    the query or the fragment. *)
Definition pathFrom (special : bool) (rest : string) : string :=
  let (p, _) := span (oneOf "?#") rest in
  match p with
  | EmptyString => if special then "/" else EmptyString
  | String c p' =>
      let p'' := if Ascii.eqb c "/" || (special && Ascii.eqb c "\") then p' else p in
      serializePath (pathState (splitPath special p'') [])
  end.

(** Authority state, host state and port state on the text [rest] after the
    slashes, then the path. *)
Definition authority (special : bool) (rest : string) : parsed :=
  let stop := if special then oneOf "/\?#" else oneOf "/?#" in
  let (auth, after) := span stop rest in
  let (hostport, atSeen) := afterLastAt auth in
  if atSeen && negb (Str.nonEmpty hostport) then Failure
  else
    let (hostText, portText) :=
      match hostport with
      | String "[" _ => (hostport, EmptyString)
      | _ => span (Ascii.eqb ":") hostport
      end in
    match hostport with
    | String "[" _ => Unsupported
    | _ =>
        let hasPort := Str.nonEmpty portText in
        if negb (Str.nonEmpty hostText) && (special || hasPort) then Failure
        else
          match hostParse special hostText with
          | HostFailure => Failure
          | HostUnsupported => Unsupported
          | Host h =>
              if hasPort && negb (portOk (Str.drop 1 portText)) then Failure
              else Parsed (mkURL h (pathFrom special after))
          end
    end.

Fixpoint skipSlashes (s : string) : string :=
  match s with
  | String c s' => if Ascii.eqb c "/" || Ascii.eqb c "\" then skipSlashes s' else s
  | EmptyString => EmptyString
  end.

Definition parse (input : string) : parsed :=
  match schemeStart (prepare input) with
  | None => Failure
  | Some (scheme, rest) =>
      if String.eqb scheme "file" then Unsupported
      else if isSpecial scheme then authority true (skipSlashes rest)
      else
        match rest with
        | String "/" (String "/" rest') => authority false rest'
        | String "/" _ => Parsed (mkURL EmptyString (pathFrom false rest))
        | _ =>
            let (p, _) := span (oneOf "?#") rest in
            Parsed (mkURL EmptyString (percentEncode inC0ControlSet p))
        end
  end.

End Whatwg.

(** ** Numbers and their decimal forms *)

Module Dec.

Local Open Scope Z_scope.

Definition signed (neg : bool) (z : Z) : Z := if neg then - z else z.

(** The Number nearest to [digits * 10^e10], ties to even: StringToNumber
    on a decimal literal.  A quotient is cut with a sticky last bit, eleven
    bits beyond the precision, before the one rounding. *)
Definition toNumber (neg : bool) (digits : Z) (e10 : Z) : float :=
  if digits <=? 0 then SF2Prim (S754_zero neg)
  else if 0 <=? e10 then
    if 400 <? e10 then SF2Prim (S754_infinity neg)
    else SF2Prim (binary_normalize prec emax (signed neg (digits * 10 ^ e10)) 0 false)
  else
    let d := - e10 in
    if Z.log2 digits + 1 - 3 * d <? -1080 then SF2Prim (S754_zero neg)
    else
      let den := 10 ^ d in
      let k := Z.max 0 (Z.log2 den - Z.log2 digits + 64) in
      let num := digits * 2 ^ k in
      let w := 2 * (num / den) + (if num mod den =? 0 then 0 else 1) in
      SF2Prim (binary_normalize prec emax (signed neg w) (- (k + 1)) false).

(** [10^n <= num/den] for any integer [n]. *)
Definition pow10Le (n : Z) (num den : Z) : bool :=
  if 0 <=? n then 10 ^ n * den <=? num else den <=? num * 10 ^ (- n).

(** The [n] with [10^(n-1) <= num/den < 10^n]. *)
Definition magnitude (num den : Z) : Z :=
  let est := (Z.log2 num - Z.log2 den) * 30103 / 100000 in
  let fix up (fuel : nat) (n : Z) : Z :=
    match fuel with
    | O => n
    | S fuel' => if pow10Le n num den then up fuel' (n + 1) else n
    end in
  up 8%nat (est - 2).

(** The shortest decimal [s * 10^(n-k)] that converts back to [x], the
    nearest to [x] of them, the even one when two are equally near:
    [Some (s, k)], looking for the least [k] from [k] on. *)
Fixpoint shortest (fuel : nat) (x : float) (num den n k : Z) : option (Z * Z) :=
  match fuel with
  | O => None
  | S fuel' =>
      let scaledNum := if 0 <=? k - n then num * 10 ^ (k - n) else num in
      let scaledDen := if 0 <=? k - n then den else den * 10 ^ (n - k) in
      let lo := scaledNum / scaledDen in
      let hi := lo + 1 in
      let twice := 2 * (scaledNum mod scaledDen) in
      let okLo := (10 ^ (k - 1) <=? lo) && PrimFloat.eqb (toNumber false lo (n - k)) x in
      let okHi := PrimFloat.eqb (toNumber false hi (n - k)) x in
      let preferLo := (twice <? scaledDen) || ((twice =? scaledDen) && Z.even lo) in
      if okLo && (preferLo || negb okHi) then Some (lo, k)
      else if okHi then Some (hi, k)
      else shortest fuel' x num den n (k + 1)
  end.

Definition digitsOfZ (z : Z) : string := Str.ofZ z.

Fixpoint zeros (n : nat) : string :=
  match n with
  | O => EmptyString
  | S n' => String "0" (zeros n')
  end.

(** Number::toString in radix 10 on a positive finite Number [m * 2^e]. *)
Definition positiveToString (x : float) (m : positive) (e : Z) : string :=
  let num := if 0 <=? e then Z.pos m * 2 ^ e else Z.pos m in
  let den := if 0 <=? e then 1 else 2 ^ (- e) in
  let n0 := magnitude num den in
  match shortest 18%nat x num den n0 1 with
  | None => EmptyString
  | Some (s0, k0) =>
      (* a candidate that reached 10^k is 10^(k-1) one magnitude higher *)
      let '(s, n) := if 10 ^ k0 <=? s0 then (s0 / 10, n0 + 1) else (s0, n0) in
      let ds := digitsOfZ s in
      let k := Z.of_nat (String.length ds) in
      if (k <=? n) && (n <=? 21) then (ds ++ zeros (Z.to_nat (n - k)))%string
      else if (0 <? n) && (n <=? 21) then
        (Str.take (Z.to_nat n) ds ++ "." ++ Str.drop (Z.to_nat n) ds)%string
      else if (-6 <? n) && (n <=? 0) then
        ("0." ++ zeros (Z.to_nat (- n)) ++ ds)%string
      else
        let ex := n - 1 in
        let sign := if ex <? 0 then "-"%string else "+"%string in
        let mant := if k =? 1 then ds
                    else (Str.take 1 ds ++ "." ++ Str.drop 1 ds)%string in
        (mant ++ "e" ++ sign ++ digitsOfZ (Z.abs ex))%string
  end.

Definition toString (x : float) : string :=
  match Prim2SF x with
  | S754_nan => "NaN"
  | S754_zero _ => "0"
  | S754_infinity s => if s then "-Infinity" else "Infinity"
  | S754_finite s m e =>
      ((if s then "-" else EmptyString) ++ positiveToString (PrimFloat.abs x) m e)%string
  end.

End Dec.

(** ** JSON.parse

    The JSON grammar of ECMA-404 as [JSON.parse] reads it, a later member of
    an object replacing an earlier one of the same name.  An escape [\u] of
    a code unit above 255 is outside the strings of this embedding:
    [Unsupported]. *)
Module Json.

Inductive res (A : Type) : Type :=
| Ok (a : A)
| Invalid
| Unsupported.

Arguments Ok {A} a.
Arguments Invalid {A}.
Arguments Unsupported {A}.

Definition bind {A B} (m : res A) (f : A -> res B) : res B :=
  match m with
  | Ok a => f a
  | Invalid => Invalid
  | Unsupported => Unsupported
  end.

Definition isWs (c : ascii) : bool :=
  let n := Str.code c in ((n =? 32) || (n =? 9) || (n =? 10) || (n =? 13))%N.

Fixpoint skipWs (s : string) : string :=
  match s with
  | String c s' => if isWs c then skipWs s' else s
  | EmptyString => EmptyString
  end.

Definition hexValue (c : ascii) : option N :=
  let n := Str.code c in
  if Str.isDigit c then Some (n - 48)%N
  else if ((97 <=? n) && (n <=? 102))%N then Some (n - 87)%N
  else if ((65 <=? n) && (n <=? 70))%N then Some (n - 55)%N
  else None.

Definition hex4 (a b c d : ascii) : option N :=
  match hexValue a, hexValue b, hexValue c, hexValue d with
  | Some x, Some y, Some z, Some w => Some (((x * 16 + y) * 16 + z) * 16 + w)%N
  | _, _, _, _ => None
  end.

(** The characters of a string literal after its opening quote, and what
    follows the closing quote. *)
Fixpoint stringBody (s : string) : res (string * string) :=
  match s with
  | EmptyString => Invalid
  | String c s' =>
      if Ascii.eqb c (Str.chr 34) then Ok (EmptyString, s')
      else if Ascii.eqb c "\" then
        match s' with
        | EmptyString => Invalid
        | String e s'' =>
            let simple (x : N) :=
              bind (stringBody s'') (fun r => Ok (String (Str.chr x) (fst r), snd r)) in
            if Ascii.eqb e (Str.chr 34) then simple 34%N
            else if Ascii.eqb e "\" then simple 92%N
            else if Ascii.eqb e "/" then simple 47%N
            else if Ascii.eqb e "b" then simple 8%N
            else if Ascii.eqb e "f" then simple 12%N
            else if Ascii.eqb e "n" then simple 10%N
            else if Ascii.eqb e "r" then simple 13%N
            else if Ascii.eqb e "t" then simple 9%N
            else if Ascii.eqb e "u" then
              match s'' with
              | String h1 (String h2 (String h3 (String h4 s3))) =>
                  match hex4 h1 h2 h3 h4 with
                  | Some n =>
                      if (n <? 256)%N then
                        bind (stringBody s3) (fun r => Ok (String (Str.chr n) (fst r), snd r))
                      else Unsupported
                  | None => Invalid
                  end
              | _ => Invalid
              end
            else Invalid
        end
      else if (Str.code c <? 32)%N then Invalid
      else bind (stringBody s') (fun r => Ok (String c (fst r), snd r))
  end.

(** A run of digits: its value, its length, the rest. *)
Fixpoint digitRun (s : string) (acc : Z) (len : Z) : Z * Z * string :=
  match s with
  | String c s' =>
      if Str.isDigit c then digitRun s' (10 * acc + Z.of_N (Str.code c - 48)) (len + 1)
      else (acc, len, s)
  | EmptyString => (acc, len, s)
  end.

(** A number literal at the head of [s]. *)
Definition number (s : string) : res (float * string) :=
  let (neg, s1) :=
    match s with
    | String "-" s' => (true, s')
    | _ => (false, s)
    end in
  let '(int, intLen, s2) := digitRun s1 0 0 in
  if (intLen =? 0)%Z then Invalid
  else if (1 <? intLen)%Z && String.prefix "0" s1 then Invalid
  else
    let fraction :=
      match s2 with
      | String "." s' =>
          let '(m, len, s3) := digitRun s' int 0 in
          if (len =? 0)%Z then None else Some (m, len, s3)
      | _ => Some (int, 0%Z, s2)
      end in
    match fraction with
    | None => Invalid
    | Some (m, fracLen, s3) =>
        let exponent :=
          match s3 with
          | String e s' =>
              if Ascii.eqb e "e" || Ascii.eqb e "E" then
                let (eneg, s4) :=
                  match s' with
                  | String "-" t => (true, t)
                  | String "+" t => (false, t)
                  | _ => (false, s')
                  end in
                let '(ex, len, s5) := digitRun s4 0 0 in
                if (len =? 0)%Z then None else Some (Dec.signed eneg ex, s5)
              else Some (0%Z, s3)
          | EmptyString => Some (0%Z, s3)
          end in
        match exponent with
        | None => Invalid
        | Some (ex, rest) => Ok (Dec.toNumber neg m (ex - fracLen), rest)
        end
    end.

Definition literal (word : string) (v : value) (s : string) : res (value * string) :=
  if String.prefix word s then Ok (v, Str.drop (String.length word) s) else Invalid.

(** A value at the head of [s] (after whitespace), and what follows it. *)
Fixpoint parseValue (fuel : nat) (s : string) : res (value * string) :=
  match fuel with
  | O => Unsupported
  | S fuel' =>
      let elements :=
        fix elements (fuel : nat) (s : string) (acc : list value) : res (value * string) :=
          match fuel with
          | O => Unsupported
          | S fuel'' =>
              bind (parseValue fuel' s) (fun r =>
                let acc' := (acc ++ [fst r])%list in
                match skipWs (snd r) with
                | String "," s' => elements fuel'' s' acc'
                | String "]" s' => Ok (VArr acc', s')
                | _ => Invalid
                end)
          end in
      let members :=
        fix members (fuel : nat) (s : string) (acc : list (string * value)) : res (value * string) :=
          match fuel with
          | O => Unsupported
          | S fuel'' =>
              match skipWs s with
              | String c s1 =>
                  if Ascii.eqb c (Str.chr 34) then
                    bind (stringBody s1) (fun k =>
                      match skipWs (snd k) with
                      | String ":" s2 =>
                          bind (parseValue fuel' s2) (fun r =>
                            let acc' := Js.set (fst k) (fst r) acc in
                            match skipWs (snd r) with
                            | String "," s' => members fuel'' s' acc'
                            | String "}" s' => Ok (VObj acc', s')
                            | _ => Invalid
                            end)
                      | _ => Invalid
                      end)
                  else Invalid
              | EmptyString => Invalid
              end
          end in
      match skipWs s with
      | EmptyString => Invalid
      | String c s' =>
          if Ascii.eqb c "{" then
            match skipWs s' with
            | String "}" s'' => Ok (VObj [], s'')
            | _ => members fuel' s' []
            end
          else if Ascii.eqb c "[" then
            match skipWs s' with
            | String "]" s'' => Ok (VArr [], s'')
            | _ => elements fuel' s' []
            end
          else if Ascii.eqb c (Str.chr 34) then
            bind (stringBody s') (fun r => Ok (VStr (fst r), snd r))
          else if Ascii.eqb c "t" then literal "true" (VBool true) (String c s')
          else if Ascii.eqb c "f" then literal "false" (VBool false) (String c s')
          else if Ascii.eqb c "n" then literal "null" VNull (String c s')
          else bind (number (String c s')) (fun r => Ok (VNum (fst r), snd r))
      end
  end.

Definition parse (s : string) : res value :=
  bind (parseValue (S (String.length s)) s) (fun r =>
    match skipWs (snd r) with
    | EmptyString => Ok (fst r)
    | _ => Invalid
    end).

End Json.

(** ** The reference runtime

    On a text outside the two fragments above, the parsers of [reference]
    answer [None], as they do on a text the platform rejects.  The concrete
    runs below stay inside the fragments. *)

Definition reference : Runtime := {|
  URL_parse := fun s =>
    match Whatwg.parse s with
    | Whatwg.Parsed u => Some u
    | _ => None
    end;
  JSON_parse := fun s =>
    match Json.parse s with
    | Json.Ok v => Some v
    | _ => None
    end;
  Number_toString := Dec.toString;
  native_source := fun name =>
    "function " ++ (if String.eqb name "constructor" then "Object" else name)
    ++ "() { [native code] }"
|}.

(* ===================================================================== *)
(** * The specification's vocabulary and fixtures *)
(* ===================================================================== *)

(** The substring test the specification words the classifier with:
    [s.includes(w)]. *)
Fixpoint includes (s w : string) : bool :=
  String.prefix w s
  || match s with
     | EmptyString => false
     | String _ s' => includes s' w
     end.

(** The keyword sets, as the two patterns of [categorizeAffiliation] list
    them. *)
Definition academiaKeywords : list string :=
  ["univ"; "institute"; "college"; "school"; "laborator"; "centre"; "center"].

Definition industryKeywords : list string :=
  ["inc"; "corp"; "labs"; "technolog"; "systems"; "company"; "ltd"; "llc";
   "google"; "microsoft"; "meta"; "ibm"; "amazon"; "nvidia"; "openai"; "deepmind"].

(** The classifier in the words of the specification: null or empty is
    Other; otherwise a case-insensitive substring match against the Academia
    keywords first, then against the Industry keywords. *)
Definition classify (affiliationText : option string) : Category :=
  match affiliationText with
  | None => Other
  | Some EmptyString => Other
  | Some text =>
      let lowered := Str.toLowerCase text in
      if List.existsb (includes lowered) academiaKeywords then Academia
      else if List.existsb (includes lowered) industryKeywords then Industry
      else Other
  end.

(** The list has an author of the category. *)
Definition hasCategory (c : Category) (list : list Entry.t) : Prop :=
  List.Exists (fun a => a.(Entry.category) = VStr (Category_name c)) list.

Definition entryOf (c : Category) : Entry.t :=
  Entry.mk VUndefined VUndefined (VStr (Category_name c)).

(** ** Networks for concrete runs *)

(** Every request is answered with the same status and body. *)
Definition netStatus (code : Z) (text : string) : Network :=
  fun _ => Returned (mkResponse code text).

(** Every request fails. *)
Definition netDown : Network := fun _ => Thrown NetworkError.

(** ** The shapes of a canonical paper address *)



(** An Atom feed with one entry, one author and one affiliation. *)
Definition atomFixture : string :=
  "<feed><title>arXiv Query</title><entry><id>http://arxiv.org/abs/2506.01667v1</id>"
  ++ "<title>A  Sample" ++ String (Str.chr 10) " Paper</title><summary> An abstract. </summary>"
  ++ "<author><name>Ada Lovelace</name><arxiv:affiliation xmlns:arxiv="
  ++ q "http://arxiv.org/schemas/atom" ++ ">University of London</arxiv:affiliation>"
  ++ "</author></entry></feed>".

(** The reply of the model endpoint whose first candidate carries [text]. *)
Definition geminiReply (text : string) : string :=
  "{" ++ q "candidates" ++ ":[{" ++ q "content" ++ ":{" ++ q "parts" ++ ":[{"
  ++ q "text" ++ ":" ++ JSON_quote text ++ "}]}}]}".

(** The Atom API answers with [atomFixture], the model endpoint with the
    text [text]; nothing else is reachable. *)
Definition netFixture (text : string) : Network :=
  fun req =>
    if String.prefix "https://export.arxiv.org/api/query?id_list=" req.(req_url)
    then Returned (mkResponse 200 atomFixture)
    else if String.prefix "https://generativelanguage.googleapis.com/" req.(req_url)
    then Returned (mkResponse 200 (geminiReply text))
    else Thrown NetworkError.

(** Texts of the model used in the concrete runs. *)
Definition scoresText : string :=
  "{" ++ q "reliability_score" ++ ":80," ++ q "applicability_score" ++ ":50}".

Definition scoresNullAuthorText : string :=
  "{" ++ q "reliability_score" ++ ":80," ++ q "applicability_score" ++ ":50,"
  ++ q "authors_affiliations" ++ ":[null]}".

Definition authorsObjectText : string := "{" ++ q "authors" ++ ":{}}".

Definition fence (tag inner : string) : string :=
  Pat.fence3 ++ tag ++ inner ++ Pat.fence3.

(** [w] is a prefix of [s], up to ASCII case when [ci] is set. *)
Fixpoint litPrefix (ci : bool) (w s : string) : bool :=
  match w, s with
  | EmptyString, _ => true
  | String a w', String b s' => Re.sameChar ci a b && litPrefix ci w' s'
  | String _ _, EmptyString => false
  end.

Definition allSpace (s : string) : bool := Str.all Str.isWhiteSpace s.

(** The literal [w] occurs nowhere in [s], up to ASCII case when [ci] is
    set. *)
Fixpoint noOccurrence (ci : bool) (w s : string) : bool :=
  negb (litPrefix ci w s)
  && match s with
     | EmptyString => true
     | String _ s' => noOccurrence ci w s'
     end.

(** Two backquotes. *)
Definition bq2 : string := String bq (String bq EmptyString).

(** A closing fence put after [body] is the first run of three backquotes
    at or after the head of [body]: the literal of the fence occurs nowhere
    in [body] followed by two backquotes.  So [body] holds no three
    backquotes in a row and does not end in a backquote. *)
Definition closesFirst (body : string) : bool :=
  noOccurrence true Pat.fence3 (body ++ bq2).

(** The opening literal of the first fence pattern, three backquotes and the
    word [json] in any letter case, occurs nowhere in [text]. *)
Definition noJsonFence (text : string) : bool :=
  noOccurrence true (Pat.fence3 ++ "json") text.

(** A backquote or whitespace: what a fence and the whitespace around a
    body are made of.  No letter is one. *)
Definition fenceChar (c : ascii) : bool := Str.isWhiteSpace c || Ascii.eqb bq c.

(** The head of a string is not whitespace, or the string is empty. *)
Definition headNotSpace (s : string) : Prop :=
  match s with
  | EmptyString => True
  | String c _ => Str.isWhiteSpace c = false
  end.

(** The continuation of [Re.matchAt]. *)
Definition accept : string -> Re.caps -> option (string * Re.caps) :=
  fun s cs => Some (s, cs).

Definition newline : string := String (Str.chr 10) EmptyString.

Definition oneLinerText : string := "{" ++ q "one_liner" ++ ":" ++ q "hi" ++ "}".

(** A text of the model with single and double backquotes inside a
    string. *)
Definition backquoteText : string :=
  "{" ++ q "one_liner" ++ ":" ++ q "use `map` and ``fold``" ++ "}".

(** ** Identifiers in addresses *)

(** The characters of an arXiv identifier segment: letters, digits, hyphen,
    dot and underscore. *)
Definition idChar (c : ascii) : bool :=
  Str.isAlnum c || Str.any (Ascii.eqb c) "-._".

(** A path segment made of such characters that is not a dot segment. *)
Definition idSegment (s : string) : bool :=
  Str.nonEmpty s && Str.all idChar s
  && negb (String.eqb s ".") && negb (String.eqb s "..").

(** Such characters, the slash and the colon. *)
Definition addressChar (c : ascii) : bool :=
  idChar c || Ascii.eqb c "/" || Ascii.eqb c ":".

(** ** Further vocabulary *)

(** No character of [s] is the slash. *)
Definition noSlash (s : string) : bool := negb (Str.any (fun c => Ascii.eqb c "/") s).

(** Runs of whitespace squeezed to one space each: what
    [.replace(/\s+/g, ' ')] computes, written as a recursion over the text.
    [inRun] tells that the previous character was whitespace. *)
Fixpoint squeeze (inRun : bool) (s : string) : string :=
  match s with
  | EmptyString => EmptyString
  | String c s' =>
      if Str.isWhiteSpace c then
        if inRun then squeeze true s' else String " " (squeeze true s')
      else String c (squeeze false s')
  end.

(** Every whitespace character of [s] is a plain space followed by a
    character that is not whitespace. *)
Fixpoint spaced (s : string) : bool :=
  match s with
  | EmptyString => true
  | String c s' =>
      (if Str.isWhiteSpace c
       then Ascii.eqb c " "
            && match s' with
               | String d _ => negb (Str.isWhiteSpace d)
               | EmptyString => false
               end
       else true)
      && spaced s'
  end.

(** As [spaced], a trailing space allowed. *)
Fixpoint loose (s : string) : bool :=
  match s with
  | EmptyString => true
  | String c s' =>
      (if Str.isWhiteSpace c
       then Ascii.eqb c " "
            && match s' with
               | String d _ => negb (Str.isWhiteSpace d)
               | EmptyString => true
               end
       else true)
      && loose s'
  end.

(** A text on one line, words separated by single spaces, without
    whitespace at either end. *)
Definition tidy (s : string) : bool :=
  match s with
  | String c _ => negb (Str.isWhiteSpace c)
  | EmptyString => true
  end && spaced s.

(** What holds of every author the fetcher lists: the name is not empty and
    tidy, the affiliation is tidy, and the category is the one the
    classifier gives the affiliation. *)
Definition authorOk (a : Author.t) : Prop :=
  Str.nonEmpty a.(Author.name) = true
  /\ tidy a.(Author.name) = true
  /\ match a.(Author.affiliation) with
     | Some aff => tidy aff = true
     | None => True
     end
  /\ a.(Author.category) = categorizeAffiliation a.(Author.affiliation).

(** A text that may be missing is tidy when it is there. *)
Definition tidyOpt (s : option string) : Prop :=
  match s with
  | Some t => tidy t = true
  | None => True
  end.

(** The address of the Atom API for an identifier. *)
Definition apiUrl (id : string) : string :=
  "https://export.arxiv.org/api/query?id_list=" ++ encodeURIComponent id.

(** The three kinds of resource link, as the scraper tells them apart: a
    code link names github.com; a video link does not and names a video
    host; a model link names neither and names huggingface.co. *)
Definition isCodeLink (link : string) : bool := Re.test true Pat.github link.

Definition isVideoLink (link : string) : bool :=
  negb (Re.test true Pat.github link) && Re.test true Pat.videoHost link.

Definition isModelLink (link : string) : bool :=
  negb (Re.test true Pat.github link) && negb (Re.test true Pat.videoHost link)
  && Re.test true Pat.huggingface link.

(** The three addresses the worker ever requests: the Atom API, the bare
    abstract page of arxiv.org, and the model endpoint. *)
Definition knownEndpoint (r : Request) : bool :=
  String.prefix "https://export.arxiv.org/api/query?id_list=" r.(req_url)
  || String.eqb r.(req_url) "https://arxiv.org/abs/"
  || String.prefix
       "https://generativelanguage.googleapis.com/v1beta/models/gemini-2.5-flash:generateContent?key="
       r.(req_url).

(** The request carries a body: of the worker's requests, the one to the
    model only. *)
Definition hasBody (r : Request) : bool := isSome r.(req_body).

(** A request addressed to the archive proxy the normalizer builds its
    addresses on. *)
Definition toArchive (r : Request) : bool :=
  String.prefix "https://web.archive.org/" r.(req_url).

(** A Number or [undefined]; an array or [undefined]. *)
Definition isNumberOrUndefined (v : value) : bool :=
  match v with
  | VNum _ | VUndefined => true
  | _ => false
  end.

Definition isArrayOrUndefined (v : value) : bool :=
  match v with
  | VArr _ | VUndefined => true
  | _ => false
  end.

(** One step of a count of the tally: [(n || 0) + 1]. *)
Definition increment (n : float) : float :=
  ((if Num.truthy n then n else 0) + 1)%float.

(** The count the tally holds after [k] entries of a category. *)
Definition counted (k : nat) : float := Nat.iter k increment 0%float.

(** The number of authors of a category. *)
Definition authorsOf (c : Category) (l : list Author.t) : nat :=
  List.length
    (List.filter
       (fun a => String.eqb (Category_name a.(Author.category)) (Category_name c)) l).

(** What holds of the summary on both branches of the resolver. *)
Definition shaped (s : Summary.t) : Prop :=
  List.forallb Js.isArray
    [ s.(Summary.problems_solved); s.(Summary.key_innovations); s.(Summary.benchmarks);
      s.(Summary.takeaways); s.(Summary.notes); s.(Summary.authors);
      s.(Summary.resources).(Resources.code); s.(Summary.resources).(Resources.video);
      s.(Summary.resources).(Resources.checkpoints) ] = true
  /\ List.forallb isArrayOrUndefined
       [ s.(Summary.impact_potential); s.(Summary.use_cases) ] = true
  /\ List.forallb isNumberOrUndefined
       [ s.(Summary.reliability_score); s.(Summary.applicability_score);
         s.(Summary.overall_score) ] = true
  /\ Js.present s.(Summary.one_liner) = true
  /\ Js.truthy s.(Summary.collaboration_type) = true.


(** ** A platform double for the handler *)

(** The query of every address holds [paper] under [paper] and nothing
    else; the errors of the platform carry fixed messages. *)
Definition hostFixture (paper : option string) : Host := {|
  searchParams_get := fun _ name => if String.eqb name "paper" then paper else None;
  native_message := fun e =>
    match e with
    | Error m => m
    | TypeError => "Type error"
    | SyntaxError => "Unexpected end of JSON input"
    | NetworkError => "Network connection lost."
    end
|}.

(** The origin the handler works with: [request.headers.get('origin') || '']. *)
Definition originOf (request : Incoming) : string := orElse request.(in_origin) EmptyString.

(** The value of a header of a reply, [None] when the reply has no such
    header. *)
Fixpoint header (name : string) (headers : list (string * string)) : option string :=
  match headers with
  | [] => None
  | (k, v) :: rest => if String.eqb k name then Some v else header name rest
  end.

(** Commas and whitespace only. *)
Definition blankList (text : string) : bool :=
  Str.all (fun c => Str.isWhiteSpace c || Ascii.eqb c ",") text.

(** The characters [encodeURIComponent] writes: the unreserved ones and the
    percent sign of an escape. *)
Definition uriSafe (c : ascii) : bool := uriUnreserved c || Ascii.eqb c "%".

(** The metadata with the fields the prompt does not read taken out. *)
Definition promptFields (m : ArxivMeta.t) : ArxivMeta.t :=
  ArxivMeta.mk m.(ArxivMeta.id) m.(ArxivMeta.title) m.(ArxivMeta.abstract)
    m.(ArxivMeta.authors) m.(ArxivMeta.absUrl) m.(ArxivMeta.pdfUrl) [] [] [] [].

(** ** Further fixtures *)

(** The Atom API answers with [atomFixture], the model endpoint with the
    body [reply]; nothing else is reachable. *)
Definition netModelBody (reply : string) : Network :=
  fun req =>
    if String.prefix "https://export.arxiv.org/api/query?id_list=" req.(req_url)
    then Returned (mkResponse 200 atomFixture)
    else if String.prefix "https://generativelanguage.googleapis.com/" req.(req_url)
    then Returned (mkResponse 200 reply)
    else Thrown NetworkError.

(** A page with one author and one link to a repository. *)
Definition authorsPage : string :=
  "<div class=" ++ q "authors" ++ "><a href=" ++ q "https://github.com/ada/engine"
  ++ ">Ada  Lovelace</a></div>".

(** A request to the summarize route from an origin, and the bindings of a
    worker that allows two origins. *)
Definition summarizeRequest (method : string) (origin : option string) : Incoming :=
  mkIncoming "https://worker.example/api/summarize?paper=2506.01667" method origin.

Definition envFixture : Env :=
  mkEnv "KEY" (Some "https://app.example, https://other.example,").

(* ===================================================================== *)
(** * Properties *)
(* ===================================================================== *)

(** ** Strings and patterns *)

Module StrFacts.

Lemma eqb_refl (c : ascii) : Ascii.eqb c c = true.
Proof. apply Ascii.eqb_eq. reflexivity. Qed.

Lemma prefix_cons (a b : ascii) (p s : string) :
  String.prefix (String a p) (String b s) = Ascii.eqb a b && String.prefix p s.
Proof.
  simpl. destruct (ascii_dec a b) as [->|Hne].
  - rewrite eqb_refl. reflexivity.
  - destruct (Ascii.eqb a b) eqn:E; [|reflexivity].
    apply Ascii.eqb_eq in E. contradiction.
Qed.

Lemma append_nil_r (s : string) : s ++ EmptyString = s.
Proof. induction s as [|c s IH]; simpl; [reflexivity | now rewrite IH]. Qed.

Lemma append_assoc (a b c : string) : (a ++ b) ++ c = a ++ (b ++ c).
Proof. induction a as [|x a IH]; simpl; [reflexivity | now rewrite IH]. Qed.

Lemma length_append (a b : string) :
  String.length (a ++ b) = String.length a + String.length b.
Proof. induction a as [|x a IH]; simpl; [reflexivity | now rewrite IH]. Qed.

Lemma drop_append (a b : string) : Str.drop (String.length a) (a ++ b) = b.
Proof. induction a as [|x a IH]; simpl; [now destruct b | exact IH]. Qed.

Lemma take_append (a b : string) : Str.take (String.length a) (a ++ b) = a.
Proof. induction a as [|x a IH]; simpl; [now destruct b | now rewrite IH]. Qed.

End StrFacts.

Module ReFacts.
Import Re StrFacts.

(** A literal matches exactly when it is a prefix, and hands the rest to the
    continuation. *)
Lemma rmatch_Lit {A} (w s : string) (cs : caps) (k : string -> caps -> option A) :
  rmatch false (Lit w) s cs k
  = if String.prefix w s then k (Str.drop (String.length w) s) cs else None.
Proof.
  revert s. induction w as [|c w IH]; intros s.
  - simpl. now destruct s.
  - destruct s as [|b s].
    + destruct w; reflexivity.
    + rewrite prefix_cons. destruct w as [|c' w].
      * simpl. unfold sameChar. destruct (Ascii.eqb c b); [|reflexivity].
        simpl. now destruct s.
      * change (Lit (String c (String c' w))) with (Seq (Chr c) (Lit (String c' w))).
        cbn [rmatch]. unfold sameChar.
        destruct (Ascii.eqb c b); [|reflexivity].
        rewrite IH. reflexivity.
Qed.

(** An alternation of literals before a continuation that accepts
    everything matches exactly when one of the literals is a prefix. *)
Lemma rmatch_alt_Lit {A} (ws : list string) (s : string) (cs : caps)
    (k : string -> caps -> option A) :
  (forall s' cs', k s' cs' <> None) ->
  ws <> [] ->
  (rmatch false (alt (List.map Lit ws)) s cs k <> None)
  <-> List.existsb (fun w => String.prefix w s) ws = true.
Proof.
  intros Hk. induction ws as [|w ws IH]; intros Hne; [contradiction|].
  destruct ws as [|w' ws].
  - simpl. rewrite rmatch_Lit, orb_false_r.
    destruct (String.prefix w s); split; intros H; try reflexivity;
      try discriminate; try apply Hk. now contradiction H.
  - change (alt (List.map Lit (w :: w' :: ws)))
      with (Alt (Lit w) (alt (List.map Lit (w' :: ws)))).
    cbn [rmatch List.existsb]. rewrite rmatch_Lit.
    destruct (String.prefix w s) eqn:E.
    + simpl. destruct (k (Str.drop (String.length w) s) cs) eqn:Ek.
      * split; intros _; [reflexivity | discriminate].
      * now apply Hk in Ek.
    + simpl. apply IH. discriminate.
Qed.

Lemma matchAt_alt_Lit (ws : list string) (s : string) :
  ws <> [] ->
  (matchAt false (Grp 1 (alt (List.map Lit ws))) s <> None)
  <-> List.existsb (fun w => String.prefix w s) ws = true.
Proof.
  intros Hne. unfold matchAt. cbn [rmatch].
  apply rmatch_alt_Lit; [intros; discriminate | exact Hne].
Qed.

Lemma existsb_includes_cons (ws : list string) (c : ascii) (s : string) :
  List.existsb (includes (String c s)) ws
  = List.existsb (fun w => String.prefix w (String c s)) ws
    || List.existsb (includes s) ws.
Proof.
  induction ws as [|w ws IH]; [reflexivity|].
  cbn [List.existsb]. rewrite IH.
  change (includes (String c s) w) with (String.prefix w (String c s) || includes s w).
  destruct (String.prefix w (String c s)), (includes s w),
    (List.existsb (fun w0 => String.prefix w0 (String c s)) ws),
    (List.existsb (includes s) ws); reflexivity.
Qed.

Lemma existsb_includes_nil (ws : list string) :
  List.existsb (includes EmptyString) ws
  = List.existsb (fun w => String.prefix w EmptyString) ws.
Proof.
  induction ws as [|w ws IH]; [reflexivity|].
  cbn [List.existsb]. rewrite IH. simpl. now rewrite orb_false_r.
Qed.

(** [test] of a group of alternative literals is the substring test of one
    of them. *)
Lemma test_alt_Lit (ws : list string) (s : string) :
  ws <> [] ->
  test false (Grp 1 (alt (List.map Lit ws))) s = List.existsb (includes s) ws.
Proof.
  intros Hne. unfold test, exec. generalize EmptyString as pre.
  induction s as [|c s IH]; intros pre; cbn [search];
    pose proof (matchAt_alt_Lit ws) as Hiff.
  - rewrite existsb_includes_nil. specialize (Hiff EmptyString Hne).
    destruct (matchAt false (Grp 1 (alt (List.map Lit ws))) EmptyString) as [[s' cs']|].
    + symmetry. apply Hiff. discriminate.
    + destruct (List.existsb (fun w => String.prefix w EmptyString) ws); [|reflexivity].
      exfalso. now apply Hiff.
  - rewrite existsb_includes_cons. specialize (Hiff (String c s) Hne).
    destruct (matchAt false (Grp 1 (alt (List.map Lit ws))) (String c s)) as [[s' cs']|].
    + symmetry. apply orb_true_iff. left. apply Hiff. discriminate.
    + destruct (List.existsb (fun w => String.prefix w (String c s)) ws).
      * exfalso. now apply Hiff.
      * simpl. apply IH.
Qed.

End ReFacts.

(** ** Trimming and the fence patterns *)

Module TrimFacts.
Import StrFacts.

Lemma trimStart_space (a s : string) :
  allSpace a = true -> Str.trimStart (a ++ s) = Str.trimStart s.
Proof.
  induction a as [|c a IH]; [reflexivity|]. simpl. intros H.
  apply andb_true_iff in H. destruct H as [Hc Ha]. rewrite Hc. now apply IH.
Qed.

Lemma trimEnd_space (b : string) : allSpace b = true -> Str.trimEnd b = EmptyString.
Proof.
  induction b as [|c b IH]; [reflexivity|]. simpl. intros H.
  apply andb_true_iff in H. destruct H as [Hc Hb]. now rewrite (IH Hb), Hc.
Qed.

Lemma trimEnd_append_space (s b : string) :
  allSpace b = true -> Str.trimEnd (s ++ b) = Str.trimEnd s.
Proof.
  intros Hb. induction s as [|c s IH]; simpl.
  - now apply trimEnd_space.
  - now rewrite IH.
Qed.

Lemma trimStart_nonspace (c : ascii) (s : string) :
  Str.isWhiteSpace c = false -> Str.trimStart (String c s) = String c s.
Proof. intros H. simpl. now rewrite H. Qed.

Lemma trim_sandwich (a s b : string) :
  allSpace a = true -> allSpace b = true -> Str.trim (a ++ s ++ b) = Str.trim s.
Proof.
  intros Ha Hb. unfold Str.trim. rewrite (trimStart_space a _ Ha).
  induction s as [|c s IH].
  - simpl. rewrite (trimEnd_space (Str.trimStart b)); [reflexivity|].
    clear -Hb. induction b as [|c b IH]; [reflexivity|]. simpl in *.
    apply andb_true_iff in Hb. destruct Hb as [Hc Hb]. rewrite Hc. now apply IH.
  - cbn [append Str.trimStart]. destruct (Str.isWhiteSpace c); [exact IH|].
    change (String c (s ++ b)) with (String c s ++ b). now apply trimEnd_append_space.
Qed.

(** Every non-empty tail of a right-trimmed string holds a character that
    is not whitespace. *)
Lemma trimEnd_tail (t c1 c2 : string) :
  Str.trimEnd t = c1 ++ c2 -> c2 <> EmptyString -> allSpace c2 = false.
Proof.
  revert c1 c2. induction t as [|c t IH]; intros c1 c2 H Hne.
  - simpl in H. destruct c1; [simpl in H; now subst|discriminate].
  - simpl in H. destruct (Str.trimEnd t) as [|d u] eqn:E.
    + destruct (Str.isWhiteSpace c) eqn:Hc.
      * destruct c1; [simpl in H; now subst|discriminate].
      * destruct c1 as [|x c1]; simpl in H.
        -- subst. unfold allSpace. simpl. now rewrite Hc.
        -- injection H as _ H. destruct c1; [simpl in H; now subst|discriminate].
    + destruct c1 as [|x c1]; simpl in H.
      * subst c2. pose proof (IH EmptyString (String d u) eq_refl) as Hu.
        unfold allSpace in *.
        change (Str.all Str.isWhiteSpace (String c (String d u)))
          with (Str.isWhiteSpace c && Str.all Str.isWhiteSpace (String d u)).
        rewrite Hu by discriminate. apply andb_false_r.
      * injection H as _ H. now apply (IH c1 c2).
Qed.

Lemma trim_tail (s c1 c2 : string) :
  Str.trim s = c1 ++ c2 -> c2 <> EmptyString -> allSpace c2 = false.
Proof. apply trimEnd_tail. Qed.

(** A string is its trimmed form between two runs of whitespace; when the
    trimmed form is empty the run after it can be taken empty. *)
Lemma trimStart_split (s : string) :
  exists a, s = a ++ Str.trimStart s /\ allSpace a = true.
Proof.
  induction s as [|c s [a [Hs Ha]]].
  - now exists EmptyString.
  - simpl. destruct (Str.isWhiteSpace c) eqn:Hc.
    + exists (String c a). simpl. rewrite <- Hs. split; [reflexivity|].
      unfold allSpace in *. simpl. now rewrite Hc.
    + now exists EmptyString.
Qed.

Lemma trimEnd_split (s : string) :
  exists b, s = Str.trimEnd s ++ b /\ allSpace b = true
            /\ (Str.trimEnd s = EmptyString -> s = b).
Proof.
  induction s as [|c s [b [Hs [Hb Hnil]]]].
  - now exists EmptyString.
  - simpl. destruct (Str.trimEnd s) as [|d u] eqn:E.
    + specialize (Hnil eq_refl). subst b.
      destruct (Str.isWhiteSpace c) eqn:Hc.
      * exists (String c s). split; [reflexivity|]. split; [|reflexivity].
        unfold allSpace in *. simpl. now rewrite Hc.
      * exists s. split; [reflexivity|]. split; [exact Hb|discriminate].
    + exists b. split; [simpl in *; now rewrite <- Hs|]. split; [exact Hb|discriminate].
Qed.

Lemma allSpace_append (a b : string) :
  allSpace (a ++ b) = allSpace a && allSpace b.
Proof.
  unfold allSpace. induction a as [|c a IH]; [reflexivity|].
  simpl. now rewrite IH, andb_assoc.
Qed.

Lemma trim_split (s : string) :
  exists a b, s = a ++ Str.trim s ++ b /\ allSpace a = true /\ allSpace b = true.
Proof.
  destruct (trimStart_split s) as [a [Hs Ha]].
  destruct (trimEnd_split (Str.trimStart s)) as [b [Ht [Hb _]]].
  exists a, b. unfold Str.trim. now rewrite <- Ht.
Qed.

Lemma any_append (p : ascii -> bool) (a b : string) :
  Str.any p (a ++ b) = Str.any p a || Str.any p b.
Proof. induction a as [|c a IH]; [reflexivity|]. simpl. now rewrite IH, orb_assoc. Qed.

End TrimFacts.

Module FenceFacts.
Import Re StrFacts TrimFacts.

Lemma trimStart_head (s : string) (c : ascii) (t : string) :
  Str.trimStart s = String c t -> Str.isWhiteSpace c = false.
Proof.
  induction s as [|d s IH]; [discriminate|]. simpl.
  destruct (Str.isWhiteSpace d) eqn:Hd; [exact IH|].
  intros H. injection H as <- _. exact Hd.
Qed.

Lemma trimEnd_head (s : string) (c : ascii) (t : string) :
  Str.trimEnd s = String c t -> exists t', s = String c t'.
Proof.
  destruct s as [|d s]; [discriminate|]. simpl.
  destruct (Str.trimEnd s); [destruct (Str.isWhiteSpace d); [discriminate|]|];
    intros H; injection H as <- _; now exists s.
Qed.

Lemma trim_head (s : string) (c : ascii) (t : string) :
  Str.trim s = String c t -> Str.isWhiteSpace c = false.
Proof.
  unfold Str.trim. intros H. apply trimEnd_head in H. destruct H as [t' H].
  now apply trimStart_head in H.
Qed.

Lemma trimEnd_idem (s : string) : Str.trimEnd (Str.trimEnd s) = Str.trimEnd s.
Proof.
  induction s as [|c s IH]; [reflexivity|]. simpl.
  destruct (Str.trimEnd s) as [|d u] eqn:E.
  - destruct (Str.isWhiteSpace c) eqn:Hc; [reflexivity|]. simpl. now rewrite Hc.
  - change (Str.trimEnd (String c (String d u)))
      with (match Str.trimEnd (String d u) with
            | EmptyString => if Str.isWhiteSpace c then EmptyString else String c EmptyString
            | t => String c t
            end).
    now rewrite IH.
Qed.

Lemma trim_idem (s : string) : Str.trim (Str.trim s) = Str.trim s.
Proof.
  destruct (Str.trim s) as [|c t] eqn:E; [reflexivity|].
  pose proof (trim_head s c t E) as Hc.
  unfold Str.trim at 1. rewrite (trimStart_nonspace c t Hc).
  rewrite <- E. unfold Str.trim. apply trimEnd_idem.
Qed.

Lemma rmatch_Lit_ci {A} (ci : bool) (w s : string) (cs : caps)
    (k : string -> caps -> option A) :
  rmatch ci (Lit w) s cs k
  = if litPrefix ci w s then k (Str.drop (String.length w) s) cs else None.
Proof.
  revert s. induction w as [|c w IH]; intros s.
  - simpl. now destruct s.
  - destruct s as [|b s].
    + destruct w; reflexivity.
    + cbn [litPrefix]. destruct w as [|c' w].
      * simpl. destruct (sameChar ci c b); [|reflexivity]. simpl. now destruct s.
      * change (Lit (String c (String c' w))) with (Seq (Chr c) (Lit (String c' w))).
        cbn [rmatch]. destruct (sameChar ci c b); [|reflexivity].
        rewrite IH. reflexivity.
Qed.

Lemma rmatch_seq {A} (ci : bool) (r : regex) (l : list regex) (s : string) (cs : caps)
    (k : string -> caps -> option A) :
  rmatch ci (seq (r :: l)) s cs k
  = rmatch ci r s cs (fun s' cs' => rmatch ci (seq l) s' cs' k).
Proof.
  destruct l as [|r' l]; reflexivity.
Qed.

Lemma rmatch_Rep {A} (ci g : bool) (p : ascii -> bool) (s : string) (cs : caps)
    (k : string -> caps -> option A) :
  rmatch ci (Rep g p) s cs k = rep g p s (fun s' => k s' cs).
Proof. reflexivity. Qed.

Lemma rmatch_Grp {A} (ci : bool) (i : nat) (r : regex) (s : string) (cs : caps)
    (k : string -> caps -> option A) :
  rmatch ci (Grp i r) s cs k
  = rmatch ci r s cs
      (fun s' cs' => k s' ((i, Str.take (String.length s - String.length s') s) :: cs')).
Proof. reflexivity. Qed.


(** A greedy run of whitespace takes all the whitespace when what follows is
    accepted there. *)
Lemma rep_greedy_space {A} (w s : string) (k : string -> option A) (x : A) :
  allSpace w = true -> headNotSpace s -> k s = Some x ->
  rep true space (w ++ s) k = Some x.
Proof.
  intros Hw Hs Hk. induction w as [|c w IH].
  - destruct s as [|c s]; simpl; [exact Hk|].
    simpl in Hs. unfold space. now rewrite Hs.
  - unfold allSpace in Hw. simpl in Hw. apply andb_true_iff in Hw.
    destruct Hw as [Hc Hw]. simpl. unfold space at 1. rewrite Hc.
    now rewrite (IH Hw).
Qed.


Lemma litPrefix_append (ci : bool) (w x z : string) :
  litPrefix ci w x = true -> litPrefix ci w (x ++ z) = true.
Proof.
  revert x. induction w as [|a w IH]; intros x H; [reflexivity|].
  destruct x as [|b x]; [discriminate H|]. cbn [append litPrefix] in *.
  apply andb_true_iff in H. destruct H as [Hab Hw]. now rewrite Hab, (IH x Hw).
Qed.

(** A literal no longer than [x] is a prefix of [x] followed by anything
    exactly when it is a prefix of [x]. *)
Lemma litPrefix_short (ci : bool) (w x z : string) :
  String.length w <= String.length x ->
  litPrefix ci w (x ++ z) = litPrefix ci w x.
Proof.
  revert x. induction w as [|a w IH]; intros x H; [reflexivity|].
  destruct x as [|b x]; [simpl in H; lia|]. cbn [append litPrefix].
  rewrite IH; [reflexivity|]. simpl in H. lia.
Qed.

Lemma litPrefix_longer (ci : bool) (w w' x : string) :
  litPrefix ci (w ++ w') x = true -> litPrefix ci w x = true.
Proof.
  revert x. induction w as [|a w IH]; intros x H; [reflexivity|].
  destruct x as [|b x]; [discriminate H|]. cbn [append litPrefix] in *.
  apply andb_true_iff in H. destruct H as [Hab Hw]. now rewrite Hab, (IH x Hw).
Qed.

(** Where a literal does not occur, it occurs in no part of the text, and no
    longer literal occurs. *)
Lemma noOccurrence_suffix (ci : bool) (w a b : string) :
  noOccurrence ci w (a ++ b) = true -> noOccurrence ci w b = true.
Proof.
  induction a as [|c a IH]; intros H; [exact H|].
  cbn [append noOccurrence] in H. apply andb_true_iff in H. now apply IH.
Qed.

Lemma noOccurrence_prefix (ci : bool) (w a b : string) :
  w <> EmptyString -> noOccurrence ci w (a ++ b) = true -> noOccurrence ci w a = true.
Proof.
  intros Hw. induction a as [|c a IH]; intros H.
  - destruct w; [contradiction | reflexivity].
  - cbn [append] in H. cbn [noOccurrence] in *.
    apply andb_true_iff in H. destruct H as [Hh Ht]. rewrite (IH Ht), andb_true_r.
    apply negb_true_iff in Hh. apply negb_true_iff.
    destruct (litPrefix ci w (String c a)) eqn:E; [|reflexivity].
    change (String c (a ++ b)) with (String c a ++ b) in Hh.
    now rewrite (litPrefix_append ci w _ b E) in Hh.
Qed.

Lemma noOccurrence_longer (ci : bool) (w w' s : string) :
  noOccurrence ci w s = true -> noOccurrence ci (w ++ w') s = true.
Proof.
  assert (Hh : forall x, litPrefix ci w x = false -> litPrefix ci (w ++ w') x = false).
  { intros x Hx. destruct (litPrefix ci (w ++ w') x) eqn:E; [|reflexivity].
    now rewrite (litPrefix_longer ci w w' x E) in Hx. }
  induction s as [|c s IH]; intros H; cbn [noOccurrence] in *;
    apply andb_true_iff in H; destruct H as [H1 H2]; apply negb_true_iff in H1;
    rewrite (Hh _ H1); [reflexivity|]. now rewrite (IH H2).
Qed.

(** After whitespace, a continuation that needs the fence fails wherever the
    run of whitespace is cut, when the fence that closes the text is the
    first three backquotes of it. *)
Lemma rep_space_before_fence {A} (s : string) (k : string -> option A) :
  (forall t, litPrefix true Pat.fence3 t = false -> k t = None) ->
  closesFirst s = true -> allSpace s = false ->
  rep true space (s ++ Pat.fence3) k = None.
Proof.
  intros Hk. unfold closesFirst.
  induction s as [|c s IH]; intros Hno Hsp; [discriminate Hsp|].
  cbn [append noOccurrence] in Hno. apply andb_true_iff in Hno.
  destruct Hno as [Hhead Htail]. apply negb_true_iff in Hhead.
  assert (Hhere : k (String c (s ++ Pat.fence3)) = None).
  { apply Hk.
    change (String c (s ++ Pat.fence3))
      with (String c (s ++ String bq (String bq (String bq EmptyString)))).
    replace (String c (s ++ String bq (String bq (String bq EmptyString))))
      with (String c (s ++ bq2) ++ String bq EmptyString)
      by (cbn [append]; rewrite append_assoc; reflexivity).
    rewrite litPrefix_short; [exact Hhead|].
    cbn [String.length]. rewrite length_append. simpl. lia. }
  cbn [append rep]. unfold space at 1.
  destruct (Str.isWhiteSpace c) eqn:Hws; [|exact Hhere].
  rewrite IH; [exact Hhere | exact Htail |].
  unfold allSpace in *. cbn [Str.all] in Hsp. now rewrite Hws in Hsp.
Qed.

(** A lazy run of any characters stops at the first point its continuation
    accepts. *)
Lemma rep_lazy_any {A} (c z : string) (k : string -> option A) (x : A) :
  (forall c1 c2, c = c1 ++ c2 -> c2 <> EmptyString -> k (c2 ++ z) = None) ->
  k z = Some x ->
  rep false anyChar (c ++ z) k = Some x.
Proof.
  intros Hfail Hz. induction c as [|a c IH].
  - destruct z; simpl; [exact Hz | now rewrite Hz].
  - pose proof (Hfail EmptyString (String a c) eq_refl) as H0.
    cbn [append] in H0. cbn [append rep]. rewrite H0 by discriminate.
    unfold anyChar at 1. apply IH. intros c1 c2 -> Hne.
    now apply (Hfail (String a c1) c2).
Qed.


(** A text is whitespace, its trimmed form, whitespace; what follows the
    first run does not begin with whitespace. *)
Lemma body_split (w1 inner w2 y : string) :
  allSpace w1 = true -> allSpace w2 = true -> headNotSpace y ->
  exists a b,
    w1 ++ inner ++ w2 = a ++ Str.trim inner ++ b
    /\ allSpace a = true /\ allSpace b = true
    /\ headNotSpace (Str.trim inner ++ b ++ y).
Proof.
  intros Hw1 Hw2 Hy.
  destruct (trim_split inner) as (a & b & Hin & Ha & Hb).
  destruct (Str.trim inner) as [|c t] eqn:E.
  - exists (w1 ++ a ++ b ++ w2), EmptyString.
    split; [rewrite Hin at 1; cbn [append]; now rewrite !append_assoc, append_nil_r|].
    rewrite !allSpace_append, Hw1, Ha, Hb, Hw2. repeat split. exact Hy.
  - exists (w1 ++ a), (b ++ w2).
    split; [rewrite Hin at 1; now rewrite !append_assoc|].
    rewrite !allSpace_append, Hw1, Ha, Hb, Hw2. repeat split.
    cbn. now apply (trim_head inner c t).
Qed.

(** The part of the two fence patterns after the opening literal, on a body
    between whitespace closed by the fence, the fence being the first three
    backquotes after the opening: the group is the body, trimmed. *)
Lemma fence_body (w1 inner w2 : string) :
  allSpace w1 = true -> allSpace w2 = true ->
  closesFirst (w1 ++ inner ++ w2) = true ->
  rmatch true
    (seq [Rep true space; Grp 1 (Rep false anyChar); Rep true space; Lit Pat.fence3])
    (w1 ++ inner ++ w2 ++ Pat.fence3) [] accept
  = Some (EmptyString, [(1, Str.trim inner)]).
Proof.
  intros Hw1 Hw2 Hclose.
  destruct (body_split w1 inner w2 Pat.fence3 Hw1 Hw2) as (a & b & Hbody & Ha & Hb & Hhead);
    [reflexivity|].
  replace (w1 ++ inner ++ w2 ++ Pat.fence3) with (a ++ Str.trim inner ++ b ++ Pat.fence3)
    by (rewrite <- !append_assoc, (append_assoc a), <- Hbody, !append_assoc; reflexivity).
  rewrite Hbody in Hclose.
  pose proof (trim_tail inner) as Htail.
  set (c := Str.trim inner) in *. clearbody c.
  rewrite rmatch_seq, rmatch_Rep.
  apply rep_greedy_space; [exact Ha | exact Hhead |].
  rewrite rmatch_seq, rmatch_Grp, rmatch_Rep.
  apply rep_lazy_any.
  - intros c1 c2 -> Hne. rewrite rmatch_seq, rmatch_Rep.
    rewrite <- append_assoc. apply rep_space_before_fence.
    + intros t Ht. now rewrite rmatch_seq, rmatch_Lit_ci, Ht.
    + unfold closesFirst in *. rewrite !append_assoc in Hclose.
      apply noOccurrence_suffix in Hclose. apply noOccurrence_suffix in Hclose.
      now rewrite !append_assoc.
    + rewrite allSpace_append, (Htail c1 c2 eq_refl Hne). reflexivity.
  - rewrite rmatch_seq, rmatch_Rep.
    apply rep_greedy_space; [exact Hb | reflexivity |].
    rewrite rmatch_seq, rmatch_Lit_ci.
    change (litPrefix true Pat.fence3 Pat.fence3) with true. cbn iota.
    change (Str.drop (String.length Pat.fence3) Pat.fence3) with EmptyString.
    change (seq []) with Eps. cbn [rmatch]. unfold accept.
    rewrite (length_append c), Nat.add_sub, take_append. reflexivity.
Qed.

(** A match at the head of the text is the match [exec] finds. *)
Lemma exec_at_head (ci : bool) (r : regex) (s s' : string) (cs : caps) :
  matchAt ci r s = Some (s', cs) ->
  exec ci r s
  = Some (mkResult EmptyString (Str.take (String.length s - String.length s') s) cs s').
Proof.
  intros H. unfold exec. destruct s; cbn [search]; now rewrite H.
Qed.

(** A pattern that opens with a literal finds nothing where the literal
    does not occur. *)
Lemma search_absent (ci : bool) (w : string) (l : list regex) (pre s : string) :
  noOccurrence ci w s = true -> search ci (seq (Lit w :: l)) pre s = None.
Proof.
  revert pre. induction s as [|c s IH]; intros pre H; cbn [noOccurrence] in H;
    apply andb_true_iff in H; destruct H as [Hhead Htail];
    apply negb_true_iff in Hhead; cbn [search]; unfold matchAt;
    rewrite rmatch_seq, rmatch_Lit_ci, Hhead.
  - reflexivity.
  - now apply IH.
Qed.

Lemma trimEnd_append_fixed (x y : string) :
  Str.trimEnd y = y -> y <> EmptyString -> Str.trimEnd (x ++ y) = x ++ y.
Proof.
  intros Hy Hne. induction x as [|c x IH]; [exact Hy|].
  cbn [append Str.trimEnd]. rewrite IH.
  destruct (x ++ y) eqn:E; [|reflexivity].
  destruct x; [simpl in E; now subst|discriminate].
Qed.

(** A fenced block is its own trimmed form. *)
Lemma trim_fence (tag body : string) : Str.trim (fence tag body) = fence tag body.
Proof.
  unfold fence, Str.trim.
  change (Str.trimStart (Pat.fence3 ++ tag ++ body ++ Pat.fence3))
    with (Pat.fence3 ++ tag ++ body ++ Pat.fence3).
  rewrite <- !append_assoc. apply trimEnd_append_fixed; [reflexivity|discriminate].
Qed.

(** The two cases of the opening fence: tagged [json] in any letter case,
    or untagged in a text where the first pattern finds nothing. *)
Lemma fencedJson_tagged (tag lead inner trail : string) :
  Str.map Str.lowerAscii tag = "json" ->
  allSpace lead = true -> allSpace trail = true ->
  closesFirst (lead ++ inner ++ trail) = true ->
  fencedJson (fence tag (lead ++ inner ++ trail)) = Str.trim inner.
Proof.
  intros Htag Hl Ht Hclose.
  destruct tag as [|c1 [|c2 [|c3 [|c4 [|c5 tag]]]]]; try discriminate Htag.
  cbn [Str.map] in Htag. injection Htag as H1 H2 H3 H4.
  assert (Hm : matchAt true Pat.fencedJson
                 (fence (String c1 (String c2 (String c3 (String c4 EmptyString))))
                    (lead ++ inner ++ trail))
               = Some (EmptyString, [(1, Str.trim inner)])).
  { unfold matchAt, Pat.fencedJson. change (fun s' cs => Some (s', cs)) with accept.
    rewrite rmatch_seq, rmatch_Lit_ci.
    unfold fence. cbn [Pat.fence3 append litPrefix String.length Str.drop].
    unfold sameChar. rewrite H1, H2, H3, H4. cbn.
    rewrite !append_assoc. now apply fence_body. }
  unfold fencedJson. rewrite (exec_at_head _ _ _ _ _ Hm). cbn.
  apply trim_idem.
Qed.

Lemma fencedJson_untagged (lead inner trail : string) :
  noJsonFence (fence EmptyString (lead ++ inner ++ trail)) = true ->
  allSpace lead = true -> allSpace trail = true ->
  closesFirst (lead ++ inner ++ trail) = true ->
  fencedJson (fence EmptyString (lead ++ inner ++ trail)) = Str.trim inner.
Proof.
  intros Hjson Hl Ht Hclose.
  assert (Hno : exec true Pat.fencedJson (fence EmptyString (lead ++ inner ++ trail)) = None).
  { now apply search_absent. }
  assert (Hm : matchAt true Pat.fenced (fence EmptyString (lead ++ inner ++ trail))
               = Some (EmptyString, [(1, Str.trim inner)])).
  { unfold matchAt, Pat.fenced. change (fun s' cs => Some (s', cs)) with accept.
    rewrite rmatch_seq, rmatch_Lit_ci.
    unfold fence. cbn [Pat.fence3 append litPrefix String.length Str.drop].
    change (sameChar true bq bq) with true. cbn [andb].
    rewrite !append_assoc. now apply fence_body. }
  unfold fencedJson. rewrite Hno, (exec_at_head _ _ _ _ _ Hm). cbn.
  apply trim_idem.
Qed.

(** A text without three backquotes in a row is handed to [JSON.parse] as it
    is. *)
Lemma fencedJson_plain (s : string) :
  noOccurrence true Pat.fence3 s = true -> fencedJson s = s.
Proof.
  intros H. unfold fencedJson, Pat.fencedJson, Pat.fenced, exec.
  rewrite (search_absent true (Pat.fence3 ++ "json")) by now apply noOccurrence_longer.
  now rewrite (search_absent true Pat.fence3).
Qed.

(** The inside of a block, trimmed, holds no three backquotes in a row when
    the closing fence is the first. *)
Lemma closesFirst_inside (lead inner trail : string) :
  closesFirst (lead ++ inner ++ trail) = true ->
  noOccurrence true Pat.fence3 (Str.trim inner) = true.
Proof.
  unfold closesFirst. intros H.
  destruct (trim_split inner) as (a & b & Hin & _ & _).
  rewrite Hin, !append_assoc in H.
  apply noOccurrence_suffix, noOccurrence_suffix in H.
  now apply (noOccurrence_prefix true Pat.fence3 _ _) in H.
Qed.

(** *** The conditions are necessary

    What follows shows that a block is unwrapped to its inside only when
    its closing fence is the first, and an untagged one only when the
    opening literal of the first pattern occurs nowhere. *)

(** The backquote is not a letter: under the [i] flag it only matches
    itself; and it is not whitespace. *)
Lemma sameChar_bq (c : ascii) : sameChar true bq c = Ascii.eqb bq c.
Proof. destruct c as [[] [] [] [] [] [] [] []]; reflexivity. Qed.

Lemma space_not_bq (c : ascii) : Str.isWhiteSpace c = true -> sameChar true bq c = false.
Proof.
  destruct c as [[] [] [] [] [] [] [] []]; simpl; intros H; try reflexivity; discriminate H.
Qed.

Lemma bq_not_space (c : ascii) : sameChar true bq c = true -> Str.isWhiteSpace c = false.
Proof.
  destruct (Str.isWhiteSpace c) eqn:E; [|reflexivity].
  intros H. now rewrite (space_not_bq c E) in H.
Qed.

(** A lazy run of any characters stops at the first point its continuation
    accepts, and stops somewhere when the continuation accepts somewhere. *)
Lemma rep_lazy_first {A} (s : string) (k : string -> option A) (x : A) :
  rep false anyChar s k = Some x ->
  exists s1 s2,
    s = s1 ++ s2 /\ k s2 = Some x
    /\ forall p q, s1 = p ++ q -> q <> EmptyString -> k (q ++ s2) = None.
Proof.
  induction s as [|c s IH]; intros H.
  - exists EmptyString, EmptyString. split; [reflexivity|]. split; [exact H|].
    intros p q E Hq. destruct p; destruct q; try discriminate E. contradiction.
  - cbn [rep] in H. destruct (k (String c s)) as [y|] eqn:Ek.
    + injection H as <-. exists EmptyString, (String c s).
      split; [reflexivity|]. split; [exact Ek|].
      intros p q E Hq. destruct p; destruct q; try discriminate E. contradiction.
    + unfold anyChar at 1 in H. destruct (IH H) as (s1 & s2 & -> & Hk & Hmin).
      exists (String c s1), s2. split; [reflexivity|]. split; [exact Hk|].
      intros p q E Hq. destruct p as [|d p].
      * cbn [append] in E. subst q. exact Ek.
      * cbn [append] in E. injection E as _ E. now apply (Hmin p q).
Qed.

Lemma rep_lazy_some {A} (s1 s2 : string) (k : string -> option A) :
  k s2 <> None -> rep false anyChar (s1 ++ s2) k <> None.
Proof.
  intros Hk. induction s1 as [|c s1 IH].
  - destruct s2 as [|d s2]; cbn [append rep]; [exact Hk|].
    destruct (k (String d s2)); [discriminate | now contradiction Hk].
  - cbn [append rep]. destruct (k (String c (s1 ++ s2))); [discriminate|].
    unfold anyChar at 1. exact IH.
Qed.

(** Two ways of cutting a text in two: one cut is before the other. *)
Lemma append_cases (a b c d : string) :
  a ++ b = c ++ d ->
  (exists q, a = c ++ q /\ d = q ++ b) \/ (exists q, c = a ++ q /\ b = q ++ d).
Proof.
  revert c. induction a as [|x a IH]; intros c H.
  - right. exists c. split; [reflexivity | exact H].
  - destruct c as [|y c].
    + left. exists (String x a). split; [reflexivity | now symmetry].
    + cbn [append] in H. injection H as -> H. destruct (IH c H) as [(q & -> & ->)|(q & -> & ->)].
      * left. now exists q.
      * right. now exists q.
Qed.

Lemma trim_length (s : string) : String.length (Str.trim s) <= String.length s.
Proof.
  destruct (trim_split s) as (a & b & Hs & _ & _).
  rewrite Hs at 2. rewrite !length_append. lia.
Qed.

Lemma rep_ext {A} (g : bool) (p : ascii -> bool) (s : string) (f h : string -> option A) :
  (forall t, f t = h t) -> rep g p s f = rep g p s h.
Proof.
  intros E. induction s as [|c s IH]; cbn [rep]; [apply E|].
  destruct g; rewrite IH, E; reflexivity.
Qed.

(** The closing part of the two fence patterns, [\s*] and the fence, as a
    function of the text alone. *)
Lemma closing_eq {A} (s : string) (cs : caps) (k : string -> caps -> option A) :
  rmatch true (seq [Rep true space; Lit Pat.fence3]) s cs k
  = rep true space s
      (fun s' => if litPrefix true Pat.fence3 s' then k (Str.drop 3 s') cs else None).
Proof.
  rewrite rmatch_seq, rmatch_Rep. apply rep_ext. intros t.
  change (seq [Lit Pat.fence3]) with (Lit Pat.fence3). now rewrite rmatch_Lit_ci.
Qed.

Lemma rep_none_iff (s : string) (f g : string -> option (string * caps)) :
  (forall t, f t = None <-> g t = None) ->
  (rep true space s f = None <-> rep true space s g = None).
Proof.
  intros Hfg. induction s as [|c s IH]; cbn [rep]; [apply Hfg|].
  unfold space at 1 3. destruct (Str.isWhiteSpace c); [|apply Hfg].
  destruct (rep true space s f), (rep true space s g);
    try (split; intros; discriminate); try apply Hfg;
    exfalso; destruct IH as [I1 I2];
    try (specialize (I2 eq_refl); discriminate I2);
    try (specialize (I1 eq_refl); discriminate I1).
Qed.

(** Whether the closing part accepts does not depend on the captures. *)
Lemma closing_caps (s : string) (cs cs' : caps) :
  rmatch true (seq [Rep true space; Lit Pat.fence3]) s cs accept = None
  <-> rmatch true (seq [Rep true space; Lit Pat.fence3]) s cs' accept = None.
Proof.
  rewrite !closing_eq. apply rep_none_iff. intros t.
  destruct (litPrefix true Pat.fence3 t); unfold accept; split; intros H;
    try reflexivity; discriminate H.
Qed.

(** The closing part accepts a text that opens with the fence, and returns
    the captures it was given. *)
Lemma closing_at_fence (s : string) (cs : caps) :
  litPrefix true Pat.fence3 s = true ->
  rmatch true (seq [Rep true space; Lit Pat.fence3]) s cs accept <> None.
Proof.
  intros H. rewrite closing_eq. destruct s as [|c s]; [discriminate H|].
  assert (Hc : Str.isWhiteSpace c = false).
  { apply bq_not_space. cbn [Pat.fence3 litPrefix] in H.
    apply andb_true_iff in H. now destruct H. }
  cbn [rep]. unfold space at 1. rewrite Hc, H. discriminate.
Qed.

Lemma closing_trailing (w : string) (cs : caps) :
  allSpace w = true ->
  rmatch true (seq [Rep true space; Lit Pat.fence3]) (w ++ Pat.fence3) cs accept
  = Some (EmptyString, cs).
Proof.
  intros Hw. rewrite closing_eq. now apply rep_greedy_space.
Qed.

Lemma closing_captures (s : string) (cs : caps) (rest : string) (cs' : caps) :
  rmatch true (seq [Rep true space; Lit Pat.fence3]) s cs accept = Some (rest, cs') ->
  cs' = cs.
Proof.
  rewrite closing_eq. induction s as [|c s IH]; cbn [rep].
  - destruct (litPrefix true Pat.fence3 EmptyString); [|discriminate].
    unfold accept. intros H. now injection H as _ <-.
  - assert (Hk : (if litPrefix true Pat.fence3 (String c s)
                  then accept (Str.drop 3 (String c s)) cs else None) = Some (rest, cs') ->
                 cs' = cs).
    { destruct (litPrefix true Pat.fence3 (String c s)); [|discriminate].
      unfold accept. intros H. now injection H as _ <-. }
    unfold space at 1. destruct (Str.isWhiteSpace c); [|exact Hk].
    destruct (rep true space s _) as [[r c0]|] eqn:E; [|exact Hk].
    intros H. injection H as -> ->. now apply IH.
Qed.

(** What the part of the fence patterns after the opening literal captures
    on a body closed by the fence: a prefix of the trimmed body that the
    closing part accepts after, and accepts after no shorter one. *)
Lemma fence_body_result (w1 inner w2 : string) :
  allSpace w1 = true -> allSpace w2 = true ->
  exists a b s1 s2,
    w1 ++ inner ++ w2 = a ++ Str.trim inner ++ b
    /\ allSpace a = true /\ allSpace b = true
    /\ Str.trim inner ++ b ++ Pat.fence3 = s1 ++ s2
    /\ (exists rest,
          rmatch true
            (seq [Rep true space; Grp 1 (Rep false anyChar); Rep true space; Lit Pat.fence3])
            (w1 ++ inner ++ w2 ++ Pat.fence3) [] accept
          = Some (rest, [(1, s1)]))
    /\ (forall p q, s1 = p ++ q -> q <> EmptyString ->
          rmatch true (seq [Rep true space; Lit Pat.fence3]) (q ++ s2) [] accept = None).
Proof.
  intros Hw1 Hw2.
  destruct (body_split w1 inner w2 Pat.fence3 Hw1 Hw2) as (a & b & Hbody & Ha & Hb & Hhead);
    [reflexivity|].
  set (c := Str.trim inner) in *.
  set (S := c ++ b ++ Pat.fence3) in *.
  set (k := fun s' : string =>
              rmatch true (seq [Rep true space; Lit Pat.fence3]) s'
                [(1, Str.take (String.length S - String.length s') S)] accept).
  assert (Hz : k (b ++ Pat.fence3) <> None).
  { unfold k. now rewrite (closing_trailing b _ Hb). }
  destruct (rep false anyChar S k) as [[rest cs]|] eqn:Hrep.
  2:{ exfalso. now apply (rep_lazy_some c (b ++ Pat.fence3) k Hz). }
  destruct (rep_lazy_first S k (rest, cs) Hrep) as (s1 & s2 & HS & Hk & Hmin).
  assert (Hcs : cs = [(1, s1)]).
  { unfold k in Hk. apply closing_captures in Hk. rewrite Hk, HS.
    now rewrite length_append, Nat.add_sub, take_append. }
  exists a, b, s1, s2. split; [exact Hbody|]. split; [exact Ha|]. split; [exact Hb|].
  split; [exact HS|]. split.
  - exists rest.
    replace (w1 ++ inner ++ w2 ++ Pat.fence3) with (a ++ S)
      by (unfold S; rewrite <- !append_assoc, (append_assoc a), <- Hbody, !append_assoc;
          reflexivity).
    rewrite rmatch_seq, rmatch_Rep.
    apply rep_greedy_space; [exact Ha | exact Hhead |].
    rewrite rmatch_seq, rmatch_Grp, rmatch_Rep. fold k. now rewrite Hrep, Hcs.
  - intros p q E Hq. specialize (Hmin p q E Hq). unfold k in Hmin.
    now apply (closing_caps (q ++ s2) _ []) in Hmin.
Qed.

Lemma noOccurrence_app (ci : bool) (w x y : string) :
  (forall p q, x = p ++ q -> q <> EmptyString -> litPrefix ci w (q ++ y) = false) ->
  noOccurrence ci w y = true ->
  noOccurrence ci w (x ++ y) = true.
Proof.
  intros Hx Hy. induction x as [|c x IH]; [exact Hy|].
  cbn [append noOccurrence]. apply andb_true_iff. split.
  - apply negb_true_iff. apply (Hx EmptyString (String c x) eq_refl). discriminate.
  - apply IH. intros p q -> Hq. now apply (Hx (String c p) q).
Qed.

Lemma allSpace_suffix_head (w p q y : string) :
  allSpace w = true -> w = p ++ q -> q <> EmptyString ->
  litPrefix true Pat.fence3 (q ++ y) = false.
Proof.
  intros Hw -> Hq. rewrite allSpace_append in Hw. apply andb_true_iff in Hw.
  destruct Hw as [_ Hw]. destruct q as [|c q]; [contradiction|].
  unfold allSpace in Hw. cbn [Str.all] in Hw. apply andb_true_iff in Hw.
  destruct Hw as [Hc _]. cbn [append Pat.fence3 litPrefix].
  now rewrite (space_not_bq c Hc).
Qed.

(** When the group of the fence patterns is the trimmed body, the closing
    fence is the first three backquotes after the opening one. *)
Lemma fence_body_only_if (w1 inner w2 : string) (rest : string) :
  allSpace w1 = true -> allSpace w2 = true ->
  rmatch true
    (seq [Rep true space; Grp 1 (Rep false anyChar); Rep true space; Lit Pat.fence3])
    (w1 ++ inner ++ w2 ++ Pat.fence3) [] accept
  = Some (rest, [(1, Str.trim inner)]) ->
  closesFirst (w1 ++ inner ++ w2) = true.
Proof.
  intros Hw1 Hw2 Hm.
  destruct (fence_body_result w1 inner w2 Hw1 Hw2)
    as (a & b & s1 & s2 & Hbody & Ha & Hb & HS & [rest' Hm'] & Hmin).
  rewrite Hm in Hm'. injection Hm' as _ Hs1. subst s1.
  assert (Hs2 : s2 = b ++ Pat.fence3).
  { clear -HS. set (c := Str.trim inner) in *.
    revert HS. induction c as [|x c IH]; cbn [append]; intros H; [now symmetry|].
    injection H as H. now apply IH. }
  subst s2.
  unfold closesFirst. rewrite Hbody, !append_assoc.
  apply noOccurrence_app; [intros p q E Hq; now apply (allSpace_suffix_head a p q)|].
  apply noOccurrence_app.
  - intros p q E Hq.
    destruct (litPrefix true Pat.fence3 (q ++ b ++ bq2)) eqn:L; [|reflexivity].
    exfalso. specialize (Hmin p q E Hq).
    apply (closing_at_fence (q ++ b ++ Pat.fence3) []); [|exact Hmin].
    change Pat.fence3 with (bq2 ++ String bq EmptyString) at 2.
    rewrite <- !append_assoc. apply litPrefix_append. now rewrite !append_assoc.
  - apply noOccurrence_app; [intros p q E Hq; now apply (allSpace_suffix_head b p q)|].
    reflexivity.
Qed.

(** The group the fence patterns capture after the opening literal is no
    longer than the trimmed body; when its trimmed form is the trimmed body,
    the closing fence is the first three backquotes after the opening
    one. *)
Lemma fence_body_exact (w1 inner w2 : string) :
  allSpace w1 = true -> allSpace w2 = true ->
  exists rest g,
    rmatch true
      (seq [Rep true space; Grp 1 (Rep false anyChar); Rep true space; Lit Pat.fence3])
      (w1 ++ inner ++ w2 ++ Pat.fence3) [] accept
    = Some (rest, [(1, g)])
    /\ String.length g <= String.length (Str.trim inner)
    /\ (Str.trim g = Str.trim inner -> closesFirst (w1 ++ inner ++ w2) = true).
Proof.
  intros Hw1 Hw2.
  destruct (fence_body_result w1 inner w2 Hw1 Hw2)
    as (a & b & s1 & s2 & Hbody & Ha & Hb & HS & [rest Hm] & Hmin).
  exists rest, s1. split; [exact Hm|].
  assert (Hpre : exists q, Str.trim inner = s1 ++ q).
  { symmetry in HS. destruct (append_cases _ _ _ _ HS) as [(q & Hs1 & Hq)|(q & Hc & Hq)].
    - destruct q as [|x q]; [exists EmptyString; now rewrite Hs1, !append_nil_r|].
      exfalso. specialize (Hmin (Str.trim inner) (String x q) Hs1).
      rewrite <- Hq, (closing_trailing b [] Hb) in Hmin.
      assert (Hne : String x q <> EmptyString) by discriminate.
      specialize (Hmin Hne). discriminate Hmin.
    - now exists q. }
  destruct Hpre as [q Hc]. split; [rewrite Hc, length_append; lia|].
  intros Hg. apply (fence_body_only_if w1 inner w2 rest Hw1 Hw2). rewrite Hm.
  replace s1 with (Str.trim inner); [reflexivity|].
  pose proof (trim_length s1) as Hlen. rewrite Hg, Hc, length_append in Hlen.
  destruct q as [|x q]; [now rewrite append_nil_r in Hc | simpl in Hlen; lia].
Qed.

Lemma fencedJson_tagged_only_if (tag lead inner trail : string) :
  Str.map Str.lowerAscii tag = "json" ->
  allSpace lead = true -> allSpace trail = true ->
  fencedJson (fence tag (lead ++ inner ++ trail)) = Str.trim inner ->
  closesFirst (lead ++ inner ++ trail) = true.
Proof.
  intros Htag Hl Ht.
  destruct (fence_body_exact lead inner trail Hl Ht) as (rest & g & Hbody & _ & Hg).
  destruct tag as [|c1 [|c2 [|c3 [|c4 [|c5 tag]]]]]; try discriminate Htag.
  cbn [Str.map] in Htag. injection Htag as H1 H2 H3 H4.
  assert (Hm : matchAt true Pat.fencedJson
                 (fence (String c1 (String c2 (String c3 (String c4 EmptyString))))
                    (lead ++ inner ++ trail))
               = Some (rest, [(1, g)])).
  { unfold matchAt, Pat.fencedJson. change (fun s' cs => Some (s', cs)) with accept.
    rewrite rmatch_seq, rmatch_Lit_ci.
    unfold fence. cbn [Pat.fence3 append litPrefix String.length Str.drop].
    unfold sameChar. rewrite H1, H2, H3, H4. cbn.
    rewrite !append_assoc. exact Hbody. }
  unfold fencedJson. rewrite (exec_at_head _ _ _ _ _ Hm). cbn. exact Hg.
Qed.

Lemma fencedJson_untagged_only_if (lead inner trail : string) :
  noJsonFence (fence EmptyString (lead ++ inner ++ trail)) = true ->
  allSpace lead = true -> allSpace trail = true ->
  fencedJson (fence EmptyString (lead ++ inner ++ trail)) = Str.trim inner ->
  closesFirst (lead ++ inner ++ trail) = true.
Proof.
  intros Hjson Hl Ht.
  destruct (fence_body_exact lead inner trail Hl Ht) as (rest & g & Hbody & _ & Hg).
  assert (Hno : exec true Pat.fencedJson (fence EmptyString (lead ++ inner ++ trail)) = None).
  { now apply search_absent. }
  assert (Hm : matchAt true Pat.fenced (fence EmptyString (lead ++ inner ++ trail))
               = Some (rest, [(1, g)])).
  { unfold matchAt, Pat.fenced. change (fun s' cs => Some (s', cs)) with accept.
    rewrite rmatch_seq, rmatch_Lit_ci.
    unfold fence. cbn [Pat.fence3 append litPrefix String.length Str.drop].
    change (sameChar true bq bq) with true. cbn [andb].
    rewrite !append_assoc. exact Hbody. }
  unfold fencedJson. rewrite Hno, (exec_at_head _ _ _ _ _ Hm). cbn. exact Hg.
Qed.

Lemma letter_n_inside (c : ascii) : sameChar true "n" c = true -> fenceChar c = false.
Proof.
  destruct c as [[] [] [] [] [] [] [] []]; simpl; intros H; try reflexivity; discriminate H.
Qed.

Lemma all_member (p : ascii -> bool) (x : string) (c : ascii) (y : string) :
  Str.all p (x ++ String c y) = true -> p c = true.
Proof.
  induction x as [|d x IH]; cbn [append Str.all]; intros H;
    apply andb_true_iff in H; destruct H as [H1 H2]; [exact H1 | now apply IH].
Qed.

Lemma all_fenceChar_space (w : string) : allSpace w = true -> Str.all fenceChar w = true.
Proof.
  unfold allSpace. induction w as [|c w IH]; [reflexivity|]. cbn [Str.all].
  intros H. apply andb_true_iff in H. destruct H as [Hc Hw].
  unfold fenceChar at 1. now rewrite Hc, (IH Hw).
Qed.

Lemma all_fenceChar_append (a b : string) :
  Str.all fenceChar a = true -> Str.all fenceChar b = true ->
  Str.all fenceChar (a ++ b) = true.
Proof.
  intros Ha Hb. induction a as [|c a IH]; [exact Hb|]. cbn [append Str.all] in *.
  apply andb_true_iff in Ha. destruct Ha as [Hc Ha]. now rewrite Hc, (IH Ha).
Qed.

(** The last character of a text is the last character of each of its
    non-empty ends. *)
Lemma last_char (x : string) (c : ascii) (y z : string) :
  x ++ String c EmptyString = y ++ z -> z <> EmptyString ->
  exists z0, z = z0 ++ String c EmptyString.
Proof.
  revert y. induction x as [|d x IH]; intros y H Hz.
  - destruct y as [|e y].
    + cbn [append] in H. exists EmptyString. now rewrite <- H.
    + cbn [append] in H. injection H as _ H. destruct y; destruct z; try discriminate H.
      contradiction.
  - destruct y as [|e y].
    + cbn [append] in H. exists (String d x). now rewrite <- H.
    + cbn [append] in H. injection H as _ H. now apply (IH y).
Qed.

(** A character that is neither a backquote nor whitespace, in a text made
    of fence characters, a body, and fence characters, lies in the body. *)
Lemma inside_char (z : string) (c : ascii) (r u body w : string) :
  (z ++ String c EmptyString) ++ r = u ++ body ++ w ->
  Str.all fenceChar u = true -> Str.all fenceChar w = true -> fenceChar c = false ->
  exists q x, body = q ++ x /\ q <> EmptyString /\ r = x ++ w.
Proof.
  intros H Hu Hw Hc.
  assert (Hnot : forall a b, Str.all fenceChar (a ++ String c b) = true -> False).
  { intros a b Hall. apply all_member in Hall. now rewrite Hc in Hall. }
  destruct (append_cases _ _ _ _ H) as [(q1 & Hz & Hrest)|(q1 & Hu' & _)].
  2:{ exfalso. rewrite Hu', append_assoc in Hu. exact (Hnot _ _ Hu). }
  destruct (append_cases _ _ _ _ Hrest) as [(x & Hb & Hr)|(q2 & Hq1 & Hw')].
  - destruct q1 as [|d q1].
    + exfalso. rewrite append_nil_r in Hz. rewrite <- Hz in Hu. exact (Hnot _ _ Hu).
    + exists (String d q1), x. repeat split; [exact Hb | discriminate | exact Hr].
  - destruct q2 as [|d q2].
    + rewrite append_nil_r in Hq1. cbn [append] in Hw'. subst q1 r.
      exists body, EmptyString. rewrite append_nil_r. repeat split.
      intros ->. rewrite append_nil_r in Hz. rewrite <- Hz in Hu. exact (Hnot _ _ Hu).
    + exfalso. rewrite Hq1, <- append_assoc in Hz.
      destruct (last_char _ _ _ _ Hz) as [z0 Hz0]; [discriminate|].
      rewrite Hz0, append_assoc in Hw'. rewrite Hw' in Hw. exact (Hnot _ _ Hw).
Qed.

Lemma litPrefix_cons (ci : bool) (a : ascii) (w r : string) :
  litPrefix ci (String a w) r = true ->
  exists b r', r = String b r' /\ sameChar ci a b = true /\ litPrefix ci w r' = true.
Proof.
  destruct r as [|b r']; [discriminate|]. cbn [litPrefix]. intros H.
  apply andb_true_iff in H. now exists b, r'.
Qed.

(** What [search] finds for a pattern that opens with a literal is a match
    at an occurrence of the literal; and it finds something when the
    literal occurs and the pattern matches at each occurrence. *)
Lemma search_at_occurrence (ci : bool) (w : string) (l : list regex) (pre s : string)
    (m : result) :
  search ci (seq (Lit w :: l)) pre s = Some m ->
  exists p r,
    s = p ++ r /\ litPrefix ci w r = true
    /\ matchAt ci (seq (Lit w :: l)) r = Some (after m, captures m).
Proof.
  revert pre. induction s as [|c s IH]; intros pre H; cbn [search] in H.
  - destruct (matchAt ci (seq (Lit w :: l)) EmptyString) as [[s' cs]|] eqn:E; [|discriminate H].
    injection H as <-. exists EmptyString, EmptyString. repeat split; [|exact E].
    unfold matchAt in E. rewrite rmatch_seq, rmatch_Lit_ci in E.
    now destruct (litPrefix ci w EmptyString).
  - destruct (matchAt ci (seq (Lit w :: l)) (String c s)) as [[s' cs]|] eqn:E.
    + injection H as <-. exists EmptyString, (String c s). repeat split; [|exact E].
      unfold matchAt in E. rewrite rmatch_seq, rmatch_Lit_ci in E.
      now destruct (litPrefix ci w (String c s)).
    + destruct (IH _ H) as (p & r & -> & Hr & Hm). now exists (String c p), r.
Qed.

Lemma search_occurs (ci : bool) (w : string) (l : list regex) (pre s : string) :
  (forall p r, s = p ++ r -> litPrefix ci w r = true ->
     matchAt ci (seq (Lit w :: l)) r <> None) ->
  noOccurrence ci w s = false ->
  search ci (seq (Lit w :: l)) pre s <> None.
Proof.
  revert pre. induction s as [|c s IH]; intros pre Hall Hocc; cbn [noOccurrence] in Hocc;
    cbn [search].
  - rewrite andb_true_r in Hocc. apply negb_false_iff in Hocc.
    specialize (Hall EmptyString EmptyString eq_refl Hocc).
    destruct (matchAt ci (seq (Lit w :: l)) EmptyString) as [[s' cs]|]; [discriminate|].
    now contradiction Hall.
  - destruct (litPrefix ci w (String c s)) eqn:E.
    + specialize (Hall EmptyString (String c s) eq_refl E).
      destruct (matchAt ci (seq (Lit w :: l)) (String c s)) as [[s' cs]|]; [discriminate|].
      now contradiction Hall.
    + cbn [negb andb] in Hocc.
      destruct (matchAt ci (seq (Lit w :: l)) (String c s)) as [[s' cs]|]; [discriminate|].
      apply IH; [|exact Hocc]. intros p r -> Hr. now apply (Hall (String c p) r).
Qed.

(** In an untagged block, the first pattern matches at every occurrence of
    its opening literal, and its group is shorter than the trimmed
    inside. *)
Lemma tagged_inside_untagged (lead inner trail p r : string) :
  allSpace lead = true -> allSpace trail = true ->
  fence EmptyString (lead ++ inner ++ trail) = p ++ r ->
  litPrefix true (Pat.fence3 ++ "json") r = true ->
  exists rest g,
    matchAt true Pat.fencedJson r = Some (rest, [(1, g)])
    /\ String.length g < String.length (Str.trim inner).
Proof.
  intros Hl Ht Htext Hr.
  destruct (body_split lead inner trail Pat.fence3 Hl Ht) as (a & b & Hbody & Ha & Hb & _);
    [reflexivity|].
  pose proof Hr as Hlit. cbn [Pat.fence3 append] in Hr.
  destruct (litPrefix_cons _ _ _ _ Hr) as (c1 & r1 & -> & _ & H1).
  destruct (litPrefix_cons _ _ _ _ H1) as (c2 & r2 & -> & _ & H2).
  destruct (litPrefix_cons _ _ _ _ H2) as (c3 & r3 & -> & _ & H3).
  destruct (litPrefix_cons _ _ _ _ H3) as (c4 & r4 & -> & _ & H4).
  destruct (litPrefix_cons _ _ _ _ H4) as (c5 & r5 & -> & _ & H5).
  destruct (litPrefix_cons _ _ _ _ H5) as (c6 & r6 & -> & _ & H6).
  destruct (litPrefix_cons _ _ _ _ H6) as (c7 & r & -> & H7 & _).
  clear H1 H2 H3 H4 H5 H6.
  pose proof (letter_n_inside c7 H7) as Hn.
  assert (Hcut : exists q x, Str.trim inner = q ++ x /\ q <> EmptyString
                             /\ r = x ++ b ++ Pat.fence3).
  { apply (inside_char
             (p ++ String c1 (String c2 (String c3 (String c4 (String c5
                (String c6 EmptyString)))))) c7 r (Pat.fence3 ++ a)).
    - rewrite !append_assoc. cbn [append]. rewrite <- Htext. unfold fence.
      cbn [append]. now rewrite Hbody, !append_assoc.
    - apply all_fenceChar_append; [reflexivity | now apply all_fenceChar_space].
    - apply all_fenceChar_append; [now apply all_fenceChar_space | reflexivity].
    - exact Hn. }
  destruct Hcut as (q & x & Hcore & Hq & ->).
  destruct (fence_body_exact EmptyString x b eq_refl Hb) as (rest & g & Hm & Hlen & _).
  exists rest, g. split.
  - unfold matchAt, Pat.fencedJson. change (fun s' cs => Some (s', cs)) with accept.
    rewrite rmatch_seq, rmatch_Lit_ci, Hlit.
    cbn [Pat.fence3 append String.length Str.drop]. exact Hm.
  - pose proof (trim_length x) as Hx. rewrite Hcore, length_append.
    destruct q; [contradiction | simpl; lia].
Qed.

(** In an untagged block that the worker unwraps to its inside, the opening
    literal of the first pattern occurs nowhere. *)
Lemma fencedJson_untagged_no_tag (lead inner trail : string) :
  allSpace lead = true -> allSpace trail = true ->
  fencedJson (fence EmptyString (lead ++ inner ++ trail)) = Str.trim inner ->
  noJsonFence (fence EmptyString (lead ++ inner ++ trail)) = true.
Proof.
  intros Hl Ht Hres. unfold noJsonFence.
  destruct (noOccurrence true (Pat.fence3 ++ "json")
              (fence EmptyString (lead ++ inner ++ trail))) eqn:Hocc; [reflexivity|].
  exfalso.
  destruct (exec true Pat.fencedJson (fence EmptyString (lead ++ inner ++ trail)))
    as [m|] eqn:Hexec.
  - destruct (search_at_occurrence _ _ _ _ _ _ Hexec) as (p & r & Htext & Hr & Hm).
    destruct (tagged_inside_untagged lead inner trail p r Hl Ht Htext Hr)
      as (rest & g & Hm' & Hlen).
    change (seq (Lit (Pat.fence3 ++ "json") :: _)) with Pat.fencedJson in Hm.
    rewrite Hm' in Hm. injection Hm as _ Hcaps.
    unfold fencedJson in Hres. rewrite Hexec, <- Hcaps in Hres.
    change (Str.trim g = Str.trim inner) in Hres.
    pose proof (trim_length g) as Hg. rewrite Hres in Hg. lia.
  - revert Hexec. apply search_occurs; [|exact Hocc].
    intros p r Htext Hr.
    destruct (tagged_inside_untagged lead inner trail p r Hl Ht Htext Hr)
      as (rest & g & Hm' & _).
    change (seq (Lit (Pat.fence3 ++ "json") :: _)) with Pat.fencedJson. now rewrite Hm'.
Qed.

End FenceFacts.

(** ** The affiliation classifier *)

Lemma categorizeAffiliation_classify (aff : option string) :
  categorizeAffiliation aff = classify aff.
Proof.
  destruct aff as [[|c s]|]; try reflexivity.
  unfold categorizeAffiliation, classify, truthyStr. cbn [Str.nonEmpty].
  unfold Pat.academia, Pat.industry.
  rewrite !ReFacts.test_alt_Lit by discriminate.
  reflexivity.
Qed.

(** C1 (as amended).  The classifier on the battery of the specification:
    null is Other, [Google Inc] is Industry, [Springfield Researchers
    Collective] is Other, and [MIT] is Other too, since no keyword of either
    set occurs in it; and on every input the classifier is the substring
    match of the specification, the Academia keywords tried first. *)
Theorem categorizeAffiliation_battery :
  categorizeAffiliation None = Other
  /\ categorizeAffiliation (Some "MIT") = Other
  /\ categorizeAffiliation (Some "Google Inc") = Industry
  /\ categorizeAffiliation (Some "Springfield Researchers Collective") = Other
  /\ (forall aff, categorizeAffiliation aff = classify aff)
  /\ (forall text,
        List.existsb (includes (Str.toLowerCase text)) academiaKeywords = true ->
        text <> EmptyString ->
        categorizeAffiliation (Some text) = Academia).
Proof.
  repeat split; try reflexivity.
  - apply categorizeAffiliation_classify.
  - intros text H Hne. rewrite categorizeAffiliation_classify.
    destruct text as [|c s]; [contradiction|].
    unfold classify. now rewrite H.
Qed.

(** C1, the claim as stated fails: [MIT] is classified Other, not
    Academia. *)
Lemma categorizeAffiliation_MIT :
  categorizeAffiliation (Some "MIT") = Other /\ Other <> Academia.
Proof. split; [reflexivity | discriminate]. Qed.

(** An affiliation that matches both sets is Academia. *)
Example categorizeAffiliation_precedence :
  categorizeAffiliation (Some "Google Research Center") = Academia
  /\ categorizeAffiliation (Some "Princeton") = Industry.
Proof. split; reflexivity. Qed.

(** ** The collaboration type *)

Lemma isString_true (v : value) (s : string) :
  Js.isString v s = true <-> v = VStr s.
Proof.
  destruct v; simpl; split; intros H; try discriminate.
  - apply String.eqb_eq in H. now subst.
  - injection H as ->. apply String.eqb_refl.
Qed.

Lemma existsb_hasCategory (c : Category) (list : list Entry.t) :
  List.existsb (fun a => Js.isString a.(Entry.category) (Category_name c)) list = true
  <-> hasCategory c list.
Proof.
  unfold hasCategory. rewrite List.existsb_exists, List.Exists_exists.
  split; intros [a [Hin H]]; exists a; (split; [exact Hin|]); now apply isString_true.
Qed.

Lemma existsb_hasCategory_false (c : Category) (list : list Entry.t) :
  List.existsb (fun a => Js.isString a.(Entry.category) (Category_name c)) list = false
  <-> ~ hasCategory c list.
Proof.
  rewrite <- existsb_hasCategory.
  destruct (List.existsb _ list); split; intros H; try reflexivity;
    try discriminate; try (intros H'; discriminate). now contradiction H.
Qed.

(** C6.  The collaboration type of a list of classified authors: Unknown on
    the empty list; Academia-Industry when both categories occur;
    Academia-only and Industry-only when one occurs without the other;
    Unknown when the list is not empty and neither occurs. *)
Theorem inferCollabType_cases (list : list Entry.t) :
  (list = [] -> inferCollabType list = Unknown)
  /\ (hasCategory Academia list -> hasCategory Industry list ->
      inferCollabType list = AcademiaIndustry)
  /\ (hasCategory Academia list -> ~ hasCategory Industry list ->
      inferCollabType list = AcademiaOnly)
  /\ (~ hasCategory Academia list -> hasCategory Industry list ->
      inferCollabType list = IndustryOnly)
  /\ (list <> [] -> ~ hasCategory Academia list -> ~ hasCategory Industry list ->
      inferCollabType list = Unknown).
Proof.
  repeat split.
  - intros ->. reflexivity.
  - intros HA HI. destruct list as [|a l]; [inversion HA|].
    apply (existsb_hasCategory Academia) in HA. apply (existsb_hasCategory Industry) in HI.
    unfold inferCollabType. cbn [Category_name] in HA, HI. now rewrite HA, HI.
  - intros HA HI. destruct list as [|a l]; [inversion HA|].
    apply (existsb_hasCategory Academia) in HA.
    apply (existsb_hasCategory_false Industry) in HI.
    unfold inferCollabType. cbn [Category_name] in HA, HI. now rewrite HA, HI.
  - intros HA HI. destruct list as [|a l]; [inversion HI|].
    apply (existsb_hasCategory_false Academia) in HA.
    apply (existsb_hasCategory Industry) in HI.
    unfold inferCollabType. cbn [Category_name] in HA, HI. now rewrite HA, HI.
  - intros Hne HA HI. destruct list as [|a l]; [contradiction|].
    apply (existsb_hasCategory_false Academia) in HA.
    apply (existsb_hasCategory_false Industry) in HI.
    unfold inferCollabType. cbn [Category_name] in HA, HI. now rewrite HA, HI.
Qed.

(** The four lists of the specification, through [inferCollabType_cases]. *)
Lemma inferCollabType_examples :
  inferCollabType [] = Unknown
  /\ inferCollabType [entryOf Academia] = AcademiaOnly
  /\ inferCollabType [entryOf Academia; entryOf Industry] = AcademiaIndustry
  /\ inferCollabType [entryOf Other] = Unknown.
Proof.
  assert (HnoI : forall l, List.Forall (fun c => c <> Industry) l ->
                           ~ hasCategory Industry (List.map entryOf l)).
  { intros l Hl H. unfold hasCategory in H. apply List.Exists_exists in H.
    destruct H as [a [Hin Ha]]. apply List.in_map_iff in Hin.
    destruct Hin as [c [<- Hc]]. rewrite List.Forall_forall in Hl.
    specialize (Hl c Hc). destruct c; simpl in Ha; try discriminate. now apply Hl. }
  assert (HnoA : forall l, List.Forall (fun c => c <> Academia) l ->
                           ~ hasCategory Academia (List.map entryOf l)).
  { intros l Hl H. unfold hasCategory in H. apply List.Exists_exists in H.
    destruct H as [a [Hin Ha]]. apply List.in_map_iff in Hin.
    destruct Hin as [c [<- Hc]]. rewrite List.Forall_forall in Hl.
    specialize (Hl c Hc). destruct c; simpl in Ha; try discriminate. now apply Hl. }
  split; [|split; [|split]].
  - destruct (inferCollabType_cases []) as (H & _). apply H. reflexivity.
  - destruct (inferCollabType_cases [entryOf Academia]) as (_ & _ & H & _). apply H.
    + left. reflexivity.
    + apply (HnoI [Academia]). repeat constructor. discriminate.
  - destruct (inferCollabType_cases [entryOf Academia; entryOf Industry]) as (_ & H & _).
    apply H.
    + left. reflexivity.
    + right. left. reflexivity.
  - destruct (inferCollabType_cases [entryOf Other]) as (_ & _ & _ & _ & H). apply H.
    + discriminate.
    + apply (HnoA [Other]). repeat constructor. discriminate.
    + apply (HnoI [Other]). repeat constructor. discriminate.
Defined.

(** ** The metadata fetcher *)

Section FetchLaws.

Context {rt : Runtime}.

Lemma truthyStr_idem (x : option string) (s : string) :
  truthyStr x = Some s -> truthyStr (Some s) = Some s.
Proof.
  destruct x as [t|]; [|discriminate]. simpl.
  destruct t; [discriminate|]. simpl. intros H. injection H as <-. reflexivity.
Qed.

(** An extracted identifier is never empty. *)
Lemma extractArxivId_truthy (url id : string) :
  extractArxivId url = Some id -> truthyStr (Some id) = Some id.
Proof.
  unfold extractArxivId, new_URL.
  destruct (URL_parse url) as [u|]; [|discriminate]. cbn [Out.bind].
  destruct (negb (Str.endsWith (hostname u) "arxiv.org")); [discriminate|].
  apply truthyStr_idem.
Qed.

(** When no identifier is extracted the host does not end in arxiv.org, the
    address does not parse, or the last path segment is empty. *)
Lemma extractArxivId_foreign (url : string) (u : URL) :
  URL_parse url = Some u ->
  Str.endsWith (hostname u) "arxiv.org" = false ->
  extractArxivId url = None.
Proof.
  intros Hu Hhost. unfold extractArxivId, new_URL. rewrite Hu. cbn [Out.bind].
  now rewrite Hhost.
Qed.

(** C4.  When an identifier was extracted and the Atom API answers with a
    status outside 200-299, [fetchArxivMeta] throws the error that carries
    the status, having made that one request only: no scraping of the
    abstract page, no empty metadata. *)
Theorem fetchArxivMeta_api_error (net : Network) (url id : string) (res : Response) :
  extractArxivId url = Some id ->
  net (GET ("https://export.arxiv.org/api/query?id_list=" ++ encodeURIComponent id))
    = Returned res ->
  ok res = false ->
  fetchArxivMeta net url
  = ([GET ("https://export.arxiv.org/api/query?id_list=" ++ encodeURIComponent id)],
     Thrown (Error ("arXiv API error " ++ Str.ofZ res.(status)))).
Proof.
  intros Hid Hnet Hok. unfold fetchArxivMeta.
  rewrite Hid, (extractArxivId_truthy _ _ Hid).
  unfold IO.fetch, IO.bind, IO.throw. rewrite Hnet, Hok. reflexivity.
Qed.

(** C10.  For an address that parses with a host that does not end in
    arxiv.org, [fetchArxivMeta] makes no request and returns the metadata
    with [id], [title], [abstract], [absUrl] and [pdfUrl] null and every
    collection empty. *)
Theorem fetchArxivMeta_foreign_host (net : Network) (url : string) (u : URL) :
  URL_parse url = Some u ->
  Str.endsWith (hostname u) "arxiv.org" = false ->
  fetchArxivMeta net url = ([], Returned (noMeta None)).
Proof.
  intros Hu Hhost. unfold fetchArxivMeta.
  rewrite (extractArxivId_foreign _ _ Hu Hhost). cbn [truthyStr].
  unfold new_URL. rewrite Hu, Hhost. reflexivity.
Qed.

(** An address that does not parse at all fares the same. *)
Lemma fetchArxivMeta_not_a_url (net : Network) (url : string) :
  URL_parse url = None ->
  fetchArxivMeta net url = ([], Returned (noMeta None)).
Proof.
  intros Hu. unfold fetchArxivMeta, extractArxivId, new_URL. rewrite Hu. reflexivity.
Qed.

End FetchLaws.

(** HTTP 500 from the Atom API, on the reference platform. *)
Lemma fetchArxivMeta_http_500 :
  fetchArxivMeta (rt := reference) (netStatus 500 "Internal Server Error")
    "https://arxiv.org/abs/2506.01667"
  = ([GET "https://export.arxiv.org/api/query?id_list=2506.01667"],
     Thrown (Error "arXiv API error 500")).
Proof.
  apply (fetchArxivMeta_api_error (rt := reference)
           (netStatus 500 "Internal Server Error")
           "https://arxiv.org/abs/2506.01667" "2506.01667"
           (mkResponse 500 "Internal Server Error")); reflexivity.
Defined.

(** An archive-proxy address, on the reference platform and a network that
    would fail any request. *)
Lemma fetchArxivMeta_archive_proxy :
  fetchArxivMeta (rt := reference) netDown
    "https://web.archive.org/web/2/https://example.com/paper.html"
  = ([], Returned (ArxivMeta.mk None None None [] None None [] [] [] [])).
Proof.
  apply (fetchArxivMeta_foreign_host (rt := reference) netDown
           "https://web.archive.org/web/2/https://example.com/paper.html"
           (mkURL "web.archive.org" "/web/2/https://example.com/paper.html"));
    reflexivity.
Defined.

(** Every archive-proxy address parses, on the reference platform, with the
    host of the archive. *)
Module WhatwgFacts.

Lemma stripEnd_cons (c : ascii) (s : string) :
  Whatwg.isC0OrSpace c = false ->
  Whatwg.stripEnd (String c s) = String c (Whatwg.stripEnd s).
Proof.
  intros H. simpl. rewrite H. now destruct (Whatwg.stripEnd s).
Qed.

Lemma prepare_archive (t : string) :
  Whatwg.prepare ("https://web.archive.org/web/2/" ++ t)
  = "https://web.archive.org/web/2/" ++ Whatwg.removeTabNewline (Whatwg.stripEnd t).
Proof.
  unfold Whatwg.prepare.
  change (Whatwg.stripStart ("https://web.archive.org/web/2/" ++ t))
    with ("https://web.archive.org/web/2/" ++ t).
  cbn [append]. rewrite !stripEnd_cons by reflexivity. reflexivity.
Qed.

Lemma parse_archive (t : string) :
  exists p,
    Whatwg.parse ("https://web.archive.org/web/2/" ++ t)
    = Whatwg.Parsed (mkURL "web.archive.org" p).
Proof.
  unfold Whatwg.parse. rewrite prepare_archive.
  generalize (Whatwg.removeTabNewline (Whatwg.stripEnd t)) as t'. intros t'.
  eexists. cbv -[Whatwg.pathFrom]. reflexivity.
Qed.

End WhatwgFacts.

(** Whatever follows the archive prefix, the fetcher makes no request and
    returns the empty metadata. *)
Lemma fetchArxivMeta_every_archive_proxy (net : Network) (original : string) :
  fetchArxivMeta (rt := reference) net ("https://web.archive.org/web/2/" ++ original)
  = ([], Returned (noMeta None)).
Proof.
  destruct (WhatwgFacts.parse_archive original) as [p Hp].
  assert (Hu : URL_parse (Runtime := reference) ("https://web.archive.org/web/2/" ++ original)
               = Some (mkURL "web.archive.org" p)).
  { cbn [URL_parse reference]. now rewrite Hp. }
  unfold fetchArxivMeta.
  rewrite (extractArxivId_foreign (rt := reference) _ _ Hu eq_refl). cbn [truthyStr].
  unfold new_URL. rewrite Hu. reflexivity.
Qed.

(** ** The [.pdf] suffix *)

Module SuffixFacts.
Import Re StrFacts FenceFacts.

Lemma drop_nonempty (n : nat) (s : string) :
  n < String.length s -> Str.drop n s <> EmptyString.
Proof.
  revert s. induction n as [|n IH]; intros s H; destruct s as [|c s];
    simpl in *; try lia; try discriminate.
  apply IH. lia.
Qed.

(** The pattern of the [.pdf] suffix matches at the head of a text exactly
    when the text is that suffix, in any letter case. *)
Lemma matchAt_pdfSuffix (s : string) :
  matchAt true Pat.pdfSuffix s
  = if litPrefix true ".pdf" s
    then match Str.drop 4 s with
         | EmptyString => Some (EmptyString, [])
         | _ => None
         end
    else None.
Proof.
  unfold matchAt, Pat.pdfSuffix. cbn [rmatch]. rewrite rmatch_Lit_ci.
  destruct (litPrefix true ".pdf" s); [|reflexivity].
  change (String.length ".pdf") with 4. cbn [rmatch]. now destruct (Str.drop 4 s).
Qed.

Lemma search_pdfSuffix (pre id : string) :
  search true Pat.pdfSuffix pre (id ++ ".pdf")
  = Some (mkResult (pre ++ id) ".pdf" [] EmptyString).
Proof.
  revert pre. induction id as [|c id IH]; intros pre.
  - rewrite append_nil_r. reflexivity.
  - cbn [append search]. rewrite matchAt_pdfSuffix.
    assert (Hd : Str.drop 4 (String c (id ++ ".pdf")) <> EmptyString).
    { apply drop_nonempty. cbn [String.length]. rewrite length_append. simpl. lia. }
    destruct (litPrefix true ".pdf" (String c (id ++ ".pdf")));
      [destruct (Str.drop 4 (String c (id ++ ".pdf"))); [contradiction|]|];
      rewrite IH, append_assoc; reflexivity.
Qed.

(** [dropPdf] takes the suffix [.pdf] off. *)
Lemma dropPdf_suffix (id : string) : dropPdf (id ++ ".pdf") = id.
Proof.
  unfold dropPdf, replaceFirst, exec. rewrite search_pdfSuffix.
  cbn. apply append_nil_r.
Qed.

End SuffixFacts.

(** ** The input normalizer *)

Lemma prefix_exists (p s : string) :
  String.prefix p s = true <-> exists t, s = p ++ t.
Proof.
  revert s. induction p as [|c p IH]; intros s.
  - simpl. split; [intros _; now exists s | intros _; now destruct s].
  - destruct s as [|b s].
    + simpl. split; [discriminate | intros [t H]; discriminate].
    + rewrite StrFacts.prefix_cons, andb_true_iff, IH. split.
      * intros [Hc [t ->]]. apply Ascii.eqb_eq in Hc. subst. now exists t.
      * intros [t H]. simpl in H. injection H as -> ->. split.
        -- apply StrFacts.eqb_refl.
        -- now exists t.
Qed.


Section NormalizeLaws.

Context {rt : Runtime}.

Lemma pathSegments_nonEmpty (u : URL) (seg : string) :
  List.In seg (pathSegments u) -> Str.nonEmpty seg = true.
Proof. unfold pathSegments. intros H. now apply List.filter_In in H. Qed.

Lemma truthyStr_nonEmpty (s : string) :
  Str.nonEmpty s = true -> truthyStr (Some s) = Some s.
Proof. intros H. simpl. now rewrite H. Qed.


(** C5 (as amended).  The four equations of the normalizer, on the trimmed
    input [t]: when [t] parses with host arxiv.org and a path that begins
    [/abs/<id>], the result is [t]; when the path is [/pdf/<id>.pdf], the
    result is [https://arxiv.org/abs/<id>]; when [t] does not parse as a URL,
    the result is
    [https://arxiv.org/abs/<t>]; when [t] parses with another host, the
    result is [https://web.archive.org/web/2/<t>]. *)
Theorem normalizePaperInput_equations (input : string) :
  let t := Str.trim input in
  (forall u id rest,
      URL_parse t = Some u -> u.(hostname) = "arxiv.org" ->
      pathSegments u = "abs" :: id :: rest ->
      normalizePaperInput input = Returned t)
  /\ (forall u id,
      URL_parse t = Some u -> u.(hostname) = "arxiv.org" ->
      pathSegments u = ["pdf"; id ++ ".pdf"] ->
      normalizePaperInput input = Returned ("https://arxiv.org/abs/" ++ id))
  /\ (URL_parse t = None ->
      normalizePaperInput input = Returned ("https://arxiv.org/abs/" ++ t))
  /\ (forall u,
      URL_parse t = Some u -> u.(hostname) <> "arxiv.org" ->
      normalizePaperInput input = Returned ("https://web.archive.org/web/2/" ++ t)).
Proof.
  cbv zeta. unfold normalizePaperInput, new_URL. repeat split.
  - intros u id rest Hu Hhost Hsegs. rewrite Hu. cbn [Out.bind].
    rewrite Hhost, Hsegs. cbn [String.eqb List.nth_error isPart].
    rewrite (truthyStr_nonEmpty id).
    + reflexivity.
    + apply (pathSegments_nonEmpty u). rewrite Hsegs. right. now left.
  - intros u id Hu Hhost Hsegs. rewrite Hu. cbn [Out.bind].
    rewrite Hhost, Hsegs. cbn [List.nth_error].
    assert (Hne : Str.nonEmpty (id ++ ".pdf") = true).
    { apply (pathSegments_nonEmpty u). rewrite Hsegs. right. now left. }
    unfold orElse. rewrite (truthyStr_nonEmpty _ Hne).
    cbn [String.eqb Ascii.eqb Bool.eqb isPart isSome andb].
    now rewrite SuffixFacts.dropPdf_suffix.
  - intros Hu. rewrite Hu. reflexivity.
  - intros u Hu Hhost. rewrite Hu. cbn [Out.bind].
    apply String.eqb_neq in Hhost. now rewrite Hhost.
Qed.

End NormalizeLaws.


(** The last [return] of the function is reached: an arxiv.org address whose
    path is neither [abs/<id>], [pdf/<id>] nor a single segment comes back
    as it came. *)
Example normalizePaperInput_falls_through :
  normalizePaperInput (rt := reference) "https://arxiv.org/" = Returned "https://arxiv.org/"
  /\ normalizePaperInput (rt := reference) "https://arxiv.org/list/cs.AI/recent"
     = Returned "https://arxiv.org/list/cs.AI/recent".
Proof. split; reflexivity. Qed.

(** C5, the claim as stated fails: the input is trimmed first, so a bare
    string without a scheme that begins with a space does not give
    [https://arxiv.org/abs/] followed by the string. *)
Lemma normalizePaperInput_trims_bare_id :
  Str.any (Ascii.eqb ":") " 2506.01667" = false
  /\ normalizePaperInput (rt := reference) " 2506.01667"
     = Returned "https://arxiv.org/abs/2506.01667"
  /\ "https://arxiv.org/abs/2506.01667" <> "https://arxiv.org/abs/" ++ " 2506.01667".
Proof. repeat split; try reflexivity. discriminate. Qed.

(** An old-style identifier, with its slash, loses its second part in the
    [pdf] form. *)
Example normalizePaperInput_old_style_pdf :
  normalizePaperInput (rt := reference) "https://arxiv.org/pdf/hep-th/9901001.pdf"
  = Returned "https://arxiv.org/abs/hep-th".
Proof. reflexivity. Qed.

(** The four equations at work on the reference platform, through
    [normalizePaperInput_equations]. *)
Lemma normalizePaperInput_examples :
  normalizePaperInput (rt := reference) "https://arxiv.org/abs/2506.01667"
    = Returned "https://arxiv.org/abs/2506.01667"
  /\ normalizePaperInput (rt := reference) "https://arxiv.org/pdf/2506.01667.pdf"
     = Returned "https://arxiv.org/abs/2506.01667"
  /\ normalizePaperInput (rt := reference) "2506.01667"
     = Returned "https://arxiv.org/abs/2506.01667"
  /\ normalizePaperInput (rt := reference) "https://example.com/paper.html"
     = Returned "https://web.archive.org/web/2/https://example.com/paper.html".
Proof.
  split; [|split; [|split]].
  - destruct (normalizePaperInput_equations (rt := reference)
                "https://arxiv.org/abs/2506.01667") as (H & _).
    apply (H (mkURL "arxiv.org" "/abs/2506.01667") "2506.01667" []); reflexivity.
  - destruct (normalizePaperInput_equations (rt := reference)
                "https://arxiv.org/pdf/2506.01667.pdf") as (_ & H & _).
    apply (H (mkURL "arxiv.org" "/pdf/2506.01667.pdf") "2506.01667"); reflexivity.
  - destruct (normalizePaperInput_equations (rt := reference) "2506.01667")
      as (_ & _ & H & _).
    apply H. reflexivity.
  - destruct (normalizePaperInput_equations (rt := reference)
                "https://example.com/paper.html") as (_ & _ & _ & H).
    apply (H (mkURL "example.com" "/paper.html")); [reflexivity | discriminate].
Defined.


(** ** The normalizer on the reference platform *)

Module NormalizeFacts.
Import Re StrFacts TrimFacts FenceFacts.

(** *** Bare strings *)

Lemma any_trim (p : ascii -> bool) (s : string) :
  Str.any p s = false -> Str.any p (Str.trim s) = false.
Proof.
  destruct (trim_split s) as (a & b & Hs & _ & _). intros H.
  rewrite Hs, !any_append in H. apply orb_false_iff in H. destruct H as [_ H].
  apply orb_false_iff in H. now destruct H.
Qed.

Lemma any_stripStart (p : ascii -> bool) (s : string) :
  Str.any p s = false -> Str.any p (Whatwg.stripStart s) = false.
Proof.
  induction s as [|c s IH]; [reflexivity|]. cbn [Str.any Whatwg.stripStart].
  intros H. apply orb_false_iff in H. destruct H as [Hc Hs].
  destruct (Whatwg.isC0OrSpace c); [now apply IH|]. cbn [Str.any]. now rewrite Hc, Hs.
Qed.

Lemma any_stripEnd (p : ascii -> bool) (s : string) :
  Str.any p s = false -> Str.any p (Whatwg.stripEnd s) = false.
Proof.
  induction s as [|c s IH]; [reflexivity|]. cbn [Str.any Whatwg.stripEnd].
  intros H. apply orb_false_iff in H. destruct H as [Hc Hs].
  specialize (IH Hs). destruct (Whatwg.stripEnd s) as [|d u].
  - destruct (Whatwg.isC0OrSpace c); [reflexivity|]. cbn [Str.any]. now rewrite Hc.
  - cbn [Str.any] in *. now rewrite Hc, IH.
Qed.

Lemma any_removeTabNewline (p : ascii -> bool) (s : string) :
  Str.any p s = false -> Str.any p (Whatwg.removeTabNewline s) = false.
Proof.
  induction s as [|c s IH]; [reflexivity|]. cbn [Str.any Whatwg.removeTabNewline].
  intros H. apply orb_false_iff in H. destruct H as [Hc Hs].
  destruct (Whatwg.isTabOrNewline c); [now apply IH|]. cbn [Str.any]. now rewrite Hc, IH.
Qed.

Lemma schemeState_no_colon (s : string) :
  Str.any (Ascii.eqb ":") s = false -> Whatwg.schemeState s = None.
Proof.
  induction s as [|c s IH]; [reflexivity|]. cbn [Str.any Whatwg.schemeState].
  intros H. apply orb_false_iff in H. destruct H as [Hc Hs].
  rewrite (Ascii.eqb_sym c ":"), Hc, (IH Hs).
  match goal with |- (if ?b then _ else _) = _ => now destruct b end.
Qed.

(** A string without a colon has no scheme: it does not parse. *)
Lemma parse_no_colon (s : string) :
  Str.any (Ascii.eqb ":") s = false -> Whatwg.parse s = Whatwg.Failure.
Proof.
  intros H. unfold Whatwg.parse, Whatwg.schemeStart, Whatwg.prepare.
  pose proof (schemeState_no_colon _
                (any_removeTabNewline _ _ (any_stripEnd _ _ (any_stripStart _ _ H)))) as Hs.
  destruct (Whatwg.removeTabNewline (Whatwg.stripEnd (Whatwg.stripStart s))) as [|c t];
    [reflexivity|].
  destruct (Str.isAlpha c); [now rewrite Hs | reflexivity].
Qed.

(** Every bare string, a string without a colon, is taken for an
    identifier: the result is the abs address of the trimmed string. *)
Lemma normalizePaperInput_bare (s : string) :
  Str.any (Ascii.eqb ":") s = false ->
  normalizePaperInput (rt := reference) s = Returned ("https://arxiv.org/abs/" ++ Str.trim s).
Proof.
  intros H. unfold normalizePaperInput, new_URL. cbn [URL_parse reference].
  now rewrite (parse_no_colon _ (any_trim _ _ H)).
Qed.

(** *** Addresses of identifiers *)

Lemma idChar_plain (c : ascii) :
  idChar c = true ->
  Whatwg.oneOf "?#" c = false /\ Ascii.eqb c "/" = false /\ Ascii.eqb c "\" = false
  /\ Whatwg.inPathSet c = false
  /\ Ascii.eqb (Str.lowerAscii c) "%" = false
  /\ (Str.lowerAscii c = "."%char -> c = "."%char).
Proof.
  destruct c as [[] [] [] [] [] [] [] []]; intros H; try discriminate H;
    repeat split; try reflexivity; intros H'; discriminate H'.
Qed.

Lemma addressChar_plain (c : ascii) :
  addressChar c = true ->
  Str.isWhiteSpace c = false /\ Whatwg.isC0OrSpace c = false
  /\ Whatwg.isTabOrNewline c = false /\ Whatwg.oneOf "?#" c = false.
Proof.
  destruct c as [[] [] [] [] [] [] [] []]; intros H; try discriminate H;
    repeat split; reflexivity.
Qed.

Lemma idChar_addressChar (c : ascii) : idChar c = true -> addressChar c = true.
Proof. unfold addressChar. now intros ->. Qed.

Lemma all_append (p : ascii -> bool) (a b : string) :
  Str.all p (a ++ b) = Str.all p a && Str.all p b.
Proof. induction a as [|c a IH]; [reflexivity|]. simpl. now rewrite IH, andb_assoc. Qed.

Lemma all_impl (p q : ascii -> bool) (s : string) :
  (forall c, p c = true -> q c = true) -> Str.all p s = true -> Str.all q s = true.
Proof.
  intros Hpq. induction s as [|c s IH]; [reflexivity|]. cbn [Str.all].
  intros H. apply andb_true_iff in H. destruct H as [Hc Hs].
  now rewrite (Hpq c Hc), (IH Hs).
Qed.

(** On a string of address characters trimming and the preparation of the
    URL parser change nothing. *)
Lemma trim_address (s : string) : Str.all addressChar s = true -> Str.trim s = s.
Proof.
  intros H. unfold Str.trim.
  assert (Hs : Str.trimStart s = s).
  { destruct s as [|c s]; [reflexivity|]. cbn [Str.all] in H.
    apply andb_true_iff in H. destruct H as [Hc _].
    apply trimStart_nonspace. now apply addressChar_plain. }
  rewrite Hs. induction s as [|c s IH]; [reflexivity|].
  cbn [Str.all] in H. apply andb_true_iff in H. destruct H as [Hc Ht].
  cbn [Str.trimEnd]. rewrite IH.
  - destruct s; [|reflexivity].
    destruct (addressChar_plain c Hc) as (Hw & _). now rewrite Hw.
  - exact Ht.
  - destruct s as [|d s]; [reflexivity|]. cbn [Str.all] in Ht.
    apply andb_true_iff in Ht. destruct Ht as [Hd _].
    apply trimStart_nonspace. now apply addressChar_plain.
Qed.

Lemma prepare_address (s : string) :
  Str.all addressChar s = true -> Whatwg.prepare s = s.
Proof.
  intros H. unfold Whatwg.prepare.
  assert (H1 : Whatwg.stripStart s = s).
  { destruct s as [|c s]; [reflexivity|]. cbn [Str.all] in H.
    apply andb_true_iff in H. destruct H as [Hc _]. cbn [Whatwg.stripStart].
    destruct (addressChar_plain c Hc) as (_ & Hz & _). now rewrite Hz. }
  assert (H2 : Whatwg.stripEnd s = s).
  { clear H1. induction s as [|c s IH]; [reflexivity|].
    cbn [Str.all] in H. apply andb_true_iff in H. destruct H as [Hc Ht].
    cbn [Whatwg.stripEnd]. rewrite (IH Ht).
    destruct s; [|reflexivity].
    destruct (addressChar_plain c Hc) as (_ & Hz & _). now rewrite Hz. }
  rewrite H1, H2. clear H1 H2.
  induction s as [|c s IH]; [reflexivity|].
  cbn [Str.all] in H. apply andb_true_iff in H. destruct H as [Hc Ht].
  cbn [Whatwg.removeTabNewline].
  destruct (addressChar_plain c Hc) as (_ & _ & Hn & _). now rewrite Hn, (IH Ht).
Qed.

Lemma span_all (stop : ascii -> bool) (s : string) :
  Str.any stop s = false -> Whatwg.span stop s = (s, EmptyString).
Proof.
  induction s as [|c s IH]; [reflexivity|]. cbn [Str.any Whatwg.span].
  intros H. apply orb_false_iff in H. destruct H as [Hc Hs].
  now rewrite Hc, (IH Hs).
Qed.

Lemma any_all_false (p q : ascii -> bool) (s : string) :
  (forall c, q c = true -> p c = false) -> Str.all q s = true -> Str.any p s = false.
Proof.
  intros Hpq. induction s as [|c s IH]; [reflexivity|]. cbn [Str.all Str.any].
  intros H. apply andb_true_iff in H. destruct H as [Hc Hs].
  now rewrite (Hpq c Hc), (IH Hs).
Qed.

(** Splitting at the separators, by the parser and by the worker. *)
Lemma splitPath_last (b : string) :
  Str.all idChar b = true -> Whatwg.splitPath true b = [b].
Proof.
  induction b as [|c b IH]; [reflexivity|]. cbn [Str.all Whatwg.splitPath].
  intros H. apply andb_true_iff in H. destruct H as [Hc Hb].
  destruct (idChar_plain c Hc) as (_ & H1 & H2 & _).
  now rewrite H1, H2, (IH Hb).
Qed.

Lemma splitPath_segment (a rest : string) :
  Str.all idChar a = true ->
  Whatwg.splitPath true (a ++ String "/" rest) = a :: Whatwg.splitPath true rest.
Proof.
  induction a as [|c a IH]; [reflexivity|]. cbn [Str.all append Whatwg.splitPath].
  intros H. apply andb_true_iff in H. destruct H as [Hc Ha].
  destruct (idChar_plain c Hc) as (_ & H1 & H2 & _).
  rewrite H1, H2. cbn [orb andb]. now rewrite (IH Ha).
Qed.

Lemma split_last (b : string) :
  Str.all idChar b = true -> Str.split "/" b = [b].
Proof.
  induction b as [|c b IH]; [reflexivity|]. cbn [Str.all Str.split].
  intros H. apply andb_true_iff in H. destruct H as [Hc Hb].
  destruct (idChar_plain c Hc) as (_ & H1 & _).
  now rewrite H1, (IH Hb).
Qed.

Lemma split_segment (a rest : string) :
  Str.all idChar a = true ->
  Str.split "/" (a ++ String "/" rest) = a :: Str.split "/" rest.
Proof.
  induction a as [|c a IH]; [reflexivity|]. cbn [Str.all append Str.split].
  intros H. apply andb_true_iff in H. destruct H as [Hc Ha].
  destruct (idChar_plain c Hc) as (_ & H1 & _).
  now rewrite H1, (IH Ha).
Qed.

Lemma percentEncode_id (s : string) :
  Str.all idChar s = true -> Whatwg.percentEncode Whatwg.inPathSet s = s.
Proof.
  unfold Whatwg.percentEncode.
  induction s as [|c s IH]; [reflexivity|]. cbn [Str.all Str.concatMap].
  intros H. apply andb_true_iff in H. destruct H as [Hc Hs].
  destruct (idChar_plain c Hc) as (_ & _ & _ & H1 & _).
  now rewrite H1, (IH Hs).
Qed.

Lemma lower_no_percent (s : string) :
  Str.all idChar s = true ->
  Str.any (fun c => Ascii.eqb c "%") (Str.map Str.lowerAscii s) = false.
Proof.
  induction s as [|c s IH]; [reflexivity|]. cbn [Str.all Str.map Str.any].
  intros H. apply andb_true_iff in H. destruct H as [Hc Hs].
  destruct (idChar_plain c Hc) as (_ & _ & _ & _ & H1 & _).
  now rewrite H1, (IH Hs).
Qed.

Lemma lower_dot (s : string) :
  Str.all idChar s = true -> Str.map Str.lowerAscii s = "." -> s = ".".
Proof.
  destruct s as [|c [|d s]]; try discriminate. cbn [Str.all Str.map].
  intros H E. injection E as E. apply andb_true_iff in H. destruct H as [Hc _].
  destruct (idChar_plain c Hc) as (_ & _ & _ & _ & _ & H1). now rewrite (H1 E).
Qed.

Lemma lower_dotdot (s : string) :
  Str.all idChar s = true -> Str.map Str.lowerAscii s = ".." -> s = "..".
Proof.
  destruct s as [|c [|d [|e s]]]; try discriminate. cbn [Str.all Str.map].
  intros H E. injection E as E1 E2. apply andb_true_iff in H. destruct H as [Hc H].
  apply andb_true_iff in H. destruct H as [Hd _].
  destruct (idChar_plain c Hc) as (_ & _ & _ & _ & _ & H1).
  destruct (idChar_plain d Hd) as (_ & _ & _ & _ & _ & H2).
  now rewrite (H1 E1), (H2 E2).
Qed.

(** An identifier segment is not a dot segment of the URL Standard. *)
Lemma idSegment_not_dot (s : string) :
  idSegment s = true -> Whatwg.isSingleDot s = false /\ Whatwg.isDoubleDot s = false.
Proof.
  unfold idSegment. intros H.
  apply andb_true_iff in H. destruct H as [H Hdd].
  apply andb_true_iff in H. destruct H as [H Hd].
  apply andb_true_iff in H. destruct H as [_ Hall].
  apply negb_true_iff in Hd, Hdd.
  pose proof (lower_no_percent s Hall) as Hp.
  assert (Hne : forall t, Str.any (fun c => Ascii.eqb c "%") t = true ->
                          String.eqb (Str.map Str.lowerAscii s) t = false).
  { intros t Ht. destruct (String.eqb (Str.map Str.lowerAscii s) t) eqn:E; [|reflexivity].
    apply String.eqb_eq in E. rewrite E in Hp. now rewrite Hp in Ht. }
  unfold Whatwg.isSingleDot, Whatwg.isDoubleDot.
  rewrite (Hne "%2e"), (Hne ".%2e"), (Hne "%2e."), (Hne "%2e%2e") by reflexivity.
  rewrite !orb_false_r. split.
  - destruct (String.eqb (Str.map Str.lowerAscii s) ".") eqn:E; [|reflexivity].
    apply String.eqb_eq in E. apply (lower_dot s Hall) in E. subst s. discriminate Hd.
  - destruct (String.eqb (Str.map Str.lowerAscii s) "..") eqn:E; [|reflexivity].
    apply String.eqb_eq in E. apply (lower_dotdot s Hall) in E. subst s. discriminate Hdd.
Qed.

Lemma idSegment_all (s : string) : idSegment s = true -> Str.all idChar s = true.
Proof.
  unfold idSegment. intros H.
  apply andb_true_iff in H. destruct H as [H _].
  apply andb_true_iff in H. destruct H as [H _].
  apply andb_true_iff in H. now destruct H.
Qed.

Lemma idSegment_nonEmpty (s : string) : idSegment s = true -> Str.nonEmpty s = true.
Proof.
  unfold idSegment. intros H.
  apply andb_true_iff in H. destruct H as [H _].
  apply andb_true_iff in H. destruct H as [H _].
  apply andb_true_iff in H. now destruct H.
Qed.

(** The path of two identifier segments is kept as it is. *)
Lemma pathFrom_two (a b : string) :
  idSegment a = true -> idSegment b = true ->
  Whatwg.pathFrom true ("/" ++ a ++ "/" ++ b) = "/" ++ a ++ "/" ++ b.
Proof.
  intros Ha Hb.
  pose proof (idSegment_all a Ha) as Haa. pose proof (idSegment_all b Hb) as Hbb.
  destruct (idSegment_not_dot a Ha) as [Ha1 Ha2].
  destruct (idSegment_not_dot b Hb) as [Hb1 Hb2].
  unfold Whatwg.pathFrom. rewrite span_all.
  - cbn [append]. cbn [Ascii.eqb Bool.eqb orb andb].
    change (if (("/" =? "/")%char || true && ("/" =? "\")%char) then a ++ "/" ++ b
            else String "/" (a ++ "/" ++ b)) with (a ++ "/" ++ b).
    rewrite splitPath_segment, splitPath_last by assumption.
    cbn [Whatwg.pathState]. rewrite Ha1, Ha2, Hb1, Hb2.
    rewrite !percentEncode_id by assumption.
    unfold Whatwg.serializePath. cbn [List.app List.map String.concat append].
    reflexivity.
  - change ("/" ++ a ++ "/" ++ b) with (String "/" (a ++ String "/" b)).
    cbn [Str.any]. rewrite any_append. cbn [Str.any].
    rewrite !(any_all_false (Whatwg.oneOf "?#") idChar) by
      (try assumption; intros c Hc; now apply idChar_plain).
    reflexivity.
Qed.

(** An arxiv.org address over address characters parses with that host. *)
Lemma parse_arxiv (t : string) :
  Str.all addressChar t = true ->
  Whatwg.parse ("https://arxiv.org/" ++ t)
  = Whatwg.Parsed (mkURL "arxiv.org" (Whatwg.pathFrom true ("/" ++ t))).
Proof.
  intros H. unfold Whatwg.parse. rewrite prepare_address.
  - cbv -[Whatwg.pathFrom]. reflexivity.
  - rewrite all_append. now rewrite H.
Qed.

Lemma pathSegments_two (a b : string) :
  idSegment a = true -> idSegment b = true ->
  pathSegments (mkURL "arxiv.org" ("/" ++ a ++ "/" ++ b)) = [a; b].
Proof.
  intros Ha Hb. unfold pathSegments. cbn [pathname].
  change (Str.split "/" ("/" ++ a ++ "/" ++ b))
    with (EmptyString :: Str.split "/" (a ++ String "/" b)).
  rewrite split_segment, split_last by now apply idSegment_all.
  cbn [List.filter Str.nonEmpty].
  now rewrite (idSegment_nonEmpty a Ha), (idSegment_nonEmpty b Hb).
Qed.

Lemma all_address_two (a b : string) :
  idSegment a = true -> idSegment b = true ->
  Str.all addressChar (a ++ "/" ++ b) = true.
Proof.
  intros Ha Hb. rewrite all_append. cbn [append Str.all].
  rewrite !(all_impl idChar addressChar) by
    (try (now apply idSegment_all); apply idChar_addressChar).
  reflexivity.
Qed.

(** The reference platform on the address of two identifier segments. *)
Lemma URL_parse_two (a b : string) :
  idSegment a = true -> idSegment b = true ->
  URL_parse (Runtime := reference) (Str.trim ("https://arxiv.org/" ++ a ++ "/" ++ b))
  = Some (mkURL "arxiv.org" ("/" ++ a ++ "/" ++ b)).
Proof.
  intros Ha Hb. pose proof (all_address_two a b Ha Hb) as Hall.
  rewrite trim_address by (rewrite all_append; now rewrite Hall).
  cbn [URL_parse reference]. rewrite (parse_arxiv _ Hall).
  now rewrite pathFrom_two.
Qed.

(** Every abs address of an identifier comes back as it is. *)
Lemma normalizePaperInput_abs_id (id : string) :
  idSegment id = true ->
  normalizePaperInput (rt := reference) ("https://arxiv.org/abs/" ++ id)
  = Returned ("https://arxiv.org/abs/" ++ id).
Proof.
  intros Hid. unfold normalizePaperInput, new_URL.
  change ("https://arxiv.org/abs/" ++ id) with ("https://arxiv.org/" ++ "abs" ++ "/" ++ id).
  rewrite (URL_parse_two "abs" id eq_refl Hid). cbn [Out.bind hostname].
  rewrite (pathSegments_two "abs" id eq_refl Hid).
  cbn [String.eqb Ascii.eqb Bool.eqb List.nth_error isPart truthyStr].
  rewrite (idSegment_nonEmpty id Hid). cbn [isSome andb].
  rewrite trim_address; [reflexivity|].
  rewrite all_append. now rewrite (all_address_two "abs" id eq_refl Hid).
Qed.

Lemma idSegment_pdf (id : string) :
  Str.all idChar id = true -> idSegment (id ++ ".pdf") = true.
Proof.
  intros H. unfold idSegment. rewrite all_append, H.
  destruct id as [|c [|d [|e id]]]; cbn [append Str.nonEmpty Str.all andb String.eqb];
    repeat match goal with |- context [Ascii.eqb ?x "."] => destruct (Ascii.eqb x ".") end;
    reflexivity.
Qed.

(** Every pdf address of an identifier gives its abs address. *)
Lemma normalizePaperInput_pdf_id (id : string) :
  Str.all idChar id = true ->
  normalizePaperInput (rt := reference) ("https://arxiv.org/pdf/" ++ id ++ ".pdf")
  = Returned ("https://arxiv.org/abs/" ++ id).
Proof.
  intros Hid. pose proof (idSegment_pdf id Hid) as Hseg.
  unfold normalizePaperInput, new_URL.
  change ("https://arxiv.org/pdf/" ++ id ++ ".pdf")
    with ("https://arxiv.org/" ++ "pdf" ++ "/" ++ (id ++ ".pdf")).
  rewrite (URL_parse_two "pdf" (id ++ ".pdf") eq_refl Hseg). cbn [Out.bind hostname].
  rewrite (pathSegments_two "pdf" (id ++ ".pdf") eq_refl Hseg).
  cbn [String.eqb Ascii.eqb Bool.eqb List.nth_error isPart truthyStr orElse].
  rewrite (idSegment_nonEmpty _ Hseg). cbn [isSome andb].
  unfold orElse. cbn [truthyStr]. rewrite (idSegment_nonEmpty _ Hseg).
  now rewrite SuffixFacts.dropPdf_suffix.
Qed.

End NormalizeFacts.

(** ** The summary resolver *)

Ltac step_bind H :=
  match type of H with
  | Out.bind ?m _ = Returned _ =>
      let E := fresh "E" in
      destruct m eqn:E; cbn [Out.bind] in H; [|discriminate H]
  end.

Section ResolveLaws.

Context {rt : Runtime}.

(** The tally of authors classified by the worker never throws: its keys are
    the three own keys of the accumulator. *)
Lemma tally_of_authors (l : list Author.t) :
  exists a i o,
    tally (List.map Entry.ofAuthor l)
    = Returned (VObj [("Academia", VNum a); ("Industry", VNum i); ("Other", VNum o)]).
Proof.
  unfold tally.
  assert (H : forall a i o,
             exists a' i' o',
               Out.foldM
                 (fun acc x =>
                    (key <- toStringValue x.(Entry.category) ;; Returned (bump acc key))%outcome)
                 [("Academia", CNum a); ("Industry", CNum i); ("Other", CNum o)]
                 (List.map Entry.ofAuthor l)
               = Returned [("Academia", CNum a'); ("Industry", CNum i'); ("Other", CNum o')]).
  { induction l as [|x l IH]; intros a i o.
    - now exists a, i, o.
    - cbn [List.map Out.foldM]. destruct x as [n af c]. destruct c; cbn; apply IH. }
  destruct (H 0%float 0%float 0%float) as (a & i & o & E).
  rewrite E. now exists a, i, o.
Qed.

(** The handler of the [catch] always returns. *)
Lemma fallbackSummary_returns (paperMeta : ArxivMeta.t) :
  exists s, fallbackSummary paperMeta = Returned s.
Proof.
  unfold fallbackSummary.
  destruct (tally_of_authors paperMeta.(ArxivMeta.authorsDetailed)) as (a & i & o & E).
  rewrite E. cbn [Out.bind]. eexists. reflexivity.
Qed.

(** What the degraded summary holds. *)
Lemma fallbackSummary_fields (paperMeta : ArxivMeta.t) (s : Summary.t) :
  fallbackSummary paperMeta = Returned s ->
  s.(Summary.one_liner) = VStr "Summary generation failed, but paper metadata was retrieved."
  /\ s.(Summary.notes) = VArr [VStr "Summary generation failed - please try again"]
  /\ s.(Summary.problems_solved) = VArr []
  /\ s.(Summary.key_innovations) = VArr []
  /\ s.(Summary.takeaways) = VArr []
  /\ s.(Summary.benchmarks) = VArr []
  /\ s.(Summary.resources)
     = Resources.mk (Js.ofStrings paperMeta.(ArxivMeta.codeLinks))
         (Js.ofStrings paperMeta.(ArxivMeta.videoLinks))
         (Js.ofStrings paperMeta.(ArxivMeta.modelLinks))
  /\ s.(Summary.collaboration_type)
     = VStr (CollabType_name
               (inferCollabType (List.map Entry.ofAuthor paperMeta.(ArxivMeta.authorsDetailed))))
  /\ s.(Summary.total_authors) = VNum (Num.ofNat (List.length paperMeta.(ArxivMeta.authors))).
Proof.
  unfold fallbackSummary. intros H. step_bind H. injection H as <-.
  repeat split.
Qed.

(** On a text that is a string the resolver never throws. *)
Lemma resolveText_returns (paperMeta : ArxivMeta.t) (text : string) :
  exists s, resolveText paperMeta (VStr text) = Returned s.
Proof.
  unfold resolveText. cbn [trimValue Out.bind].
  destruct (fallbackSummary_returns paperMeta) as [f Hf].
  destruct (parseJson (fencedJson (Str.trim text))) as [parsed|e]; cbn [Out.bind Out.catch].
  - destruct (buildSummary paperMeta parsed) as [s|e]; cbn [Out.catch].
    + now exists s.
    + now exists f.
  - now exists f.
Qed.

(** C3.  When the metadata was fetched, the model endpoint answered with
    success and a JSON body, and the text handed to [JSON.parse] (the text of
    the first candidate, trimmed, without its fence) is not valid JSON,
    [summarizeWithGemini] returns, without throwing and without a further
    request, the summary built from the metadata alone: the fixed one-liner,
    the one fallback note, empty [problems_solved], [key_innovations],
    [takeaways] and [benchmarks], the resources from the scraped links, the
    collaboration type from the classified authors. *)
Theorem summarizeWithGemini_parse_failure
    (net : Network) (apiKey paperUrl : string) (requests : list Request)
    (paperMeta : ArxivMeta.t) (res : Response) (data : value) (text : string) :
  fetchArxivMeta net paperUrl = (requests, Returned paperMeta) ->
  net (geminiRequest apiKey paperMeta) = Returned res ->
  ok res = true ->
  JSON_parse res.(body) = Some data ->
  extractText data = VStr text ->
  JSON_parse (fencedJson (Str.trim text)) = None ->
  exists s,
    summarizeWithGemini net apiKey paperUrl
    = ((requests ++ [geminiRequest apiKey paperMeta])%list, Returned s)
    /\ fallbackSummary paperMeta = Returned s
    /\ s.(Summary.one_liner)
       = VStr "Summary generation failed, but paper metadata was retrieved."
    /\ s.(Summary.notes) = VArr [VStr "Summary generation failed - please try again"]
    /\ s.(Summary.problems_solved) = VArr []
    /\ s.(Summary.key_innovations) = VArr []
    /\ s.(Summary.takeaways) = VArr []
    /\ s.(Summary.benchmarks) = VArr []
    /\ s.(Summary.resources)
       = Resources.mk (Js.ofStrings paperMeta.(ArxivMeta.codeLinks))
           (Js.ofStrings paperMeta.(ArxivMeta.videoLinks))
           (Js.ofStrings paperMeta.(ArxivMeta.modelLinks))
    /\ s.(Summary.collaboration_type)
       = VStr (CollabType_name
                 (inferCollabType
                    (List.map Entry.ofAuthor paperMeta.(ArxivMeta.authorsDetailed)))).
Proof.
  intros Hmeta Hnet Hok Hdata Htext Hparse.
  destruct (fallbackSummary_returns paperMeta) as [s Hs].
  exists s.
  destruct (fallbackSummary_fields paperMeta s Hs)
    as (H1 & H2 & H3 & H4 & H5 & H6 & H7 & H8 & _).
  repeat split; try assumption.
  unfold summarizeWithGemini. rewrite Hmeta.
  unfold IO.bind at 1. unfold IO.fetch. cbn [IO.bind]. rewrite Hnet, Hok. cbn [negb].
  unfold res_json. rewrite Hdata. unfold IO.lift. cbn [IO.bind]. rewrite Htext.
  unfold resolveText. cbn [trimValue Out.bind]. unfold parseJson. rewrite Hparse.
  cbn [Out.bind Out.catch]. rewrite Hs.
  reflexivity.
Qed.

(** C7 (as amended).  When the parsed output has numeric [reliability_score]
    and [applicability_score], its [overall_score] is missing or not a
    number, and the summary is built from it without an exception, the
    resolver returns that summary and its [overall_score] is
    [Math.round(reliability * 0.6 + applicability * 0.4)]. *)
Theorem overall_score_from_components
    (paperMeta : ArxivMeta.t) (text : string) (parsed : value) (rel app : float)
    (s : Summary.t) :
  JSON_parse (fencedJson (Str.trim text)) = Some parsed ->
  Js.get parsed "reliability_score" = Returned (VNum rel) ->
  Js.get parsed "applicability_score" = Returned (VNum app) ->
  (forall n, Js.get parsed "overall_score" <> Returned (VNum n)) ->
  buildSummary paperMeta parsed = Returned s ->
  resolveText paperMeta (VStr text) = Returned s
  /\ s.(Summary.overall_score) = VNum (Num.round (rel * 0.6 + app * 0.4)%float).
Proof.
  intros Hparse Hrel Happ Hover Hbuild. split.
  - unfold resolveText. cbn [trimValue Out.bind]. unfold parseJson.
    rewrite Hparse. cbn [Out.bind]. rewrite Hbuild. reflexivity.
  - unfold buildSummary in Hbuild. rewrite Hrel, Happ in Hbuild.
    cbn [Out.bind Js.numberOrNull] in Hbuild.
    step_bind Hbuild.
    assert (Hnot : forall n, a <> VNum n).
    { intros n ->. now apply (Hover n). }
    repeat step_bind Hbuild.
    injection Hbuild as <-. cbn [Summary.overall_score].
    destruct a; try reflexivity. now contradiction (Hnot n).
Qed.

(** The five fields that are present whatever the model wrote. *)
Lemma buildSummary_present (paperMeta : ArxivMeta.t) (parsed : value) (s : Summary.t) :
  buildSummary paperMeta parsed = Returned s ->
  Js.present s.(Summary.one_liner) = true
  /\ Js.isArray s.(Summary.problems_solved) = true
  /\ Js.isArray s.(Summary.key_innovations) = true
  /\ Js.present s.(Summary.collaboration_type) = true
  /\ Js.isArray s.(Summary.takeaways) = true.
Proof.
  intros H. unfold buildSummary in H. repeat step_bind H. injection H as <-.
  cbn [Summary.one_liner Summary.problems_solved Summary.key_innovations
       Summary.collaboration_type Summary.takeaways].
  assert (Hor : forall a b, Js.present b = true -> Js.present (Js.or a b) = true).
  { intros x y Hy. unfold Js.or. destruct (Js.truthy x) eqn:T; [|exact Hy].
    now destruct x. }
  assert (Harr : forall a, Js.isArray (Js.arrayOr a) = true).
  { intros x. now destruct x. }
  repeat split; try apply Harr; apply Hor; reflexivity.
Qed.

(** All six fields are present in the degraded summary. *)
Lemma fallbackSummary_present (paperMeta : ArxivMeta.t) (s : Summary.t) :
  fallbackSummary paperMeta = Returned s ->
  Js.present s.(Summary.one_liner) = true
  /\ Js.isArray s.(Summary.problems_solved) = true
  /\ Js.isArray s.(Summary.key_innovations) = true
  /\ Js.present s.(Summary.collaboration_type) = true
  /\ Js.present s.(Summary.total_authors) = true
  /\ Js.isArray s.(Summary.takeaways) = true.
Proof.
  intros H. destruct (fallbackSummary_fields paperMeta s H)
    as (H1 & _ & H3 & H4 & H5 & _ & _ & H8 & H9).
  rewrite H1, H3, H4, H5, H8, H9. repeat split.
Qed.

(** Of the six fields the specification calls always present, five are, on
    both branches of the resolver. *)
Lemma resolveText_present (paperMeta : ArxivMeta.t) (text : string) (s : Summary.t) :
  resolveText paperMeta (VStr text) = Returned s ->
  Js.present s.(Summary.one_liner) = true
  /\ Js.isArray s.(Summary.problems_solved) = true
  /\ Js.isArray s.(Summary.key_innovations) = true
  /\ Js.present s.(Summary.collaboration_type) = true
  /\ Js.isArray s.(Summary.takeaways) = true.
Proof.
  unfold resolveText. cbn [trimValue Out.bind].
  assert (Hf : fallbackSummary paperMeta = Returned s ->
               Js.present s.(Summary.one_liner) = true
               /\ Js.isArray s.(Summary.problems_solved) = true
               /\ Js.isArray s.(Summary.key_innovations) = true
               /\ Js.present s.(Summary.collaboration_type) = true
               /\ Js.isArray s.(Summary.takeaways) = true).
  { intros H. destruct (fallbackSummary_present paperMeta s H) as (A & B & C & D & _ & F).
    repeat split; assumption. }
  destruct (parseJson (fencedJson (Str.trim text))) as [parsed|e]; cbn [Out.bind Out.catch].
  - destruct (buildSummary paperMeta parsed) as [s'|e] eqn:E; cbn [Out.catch].
    + intros H. injection H as <-. now apply (buildSummary_present paperMeta parsed).
    + exact Hf.
  - exact Hf.
Qed.

End ResolveLaws.

(** *** Concrete runs on the reference platform *)

(** The model answers with prose: the degraded summary, through
    [summarizeWithGemini_parse_failure]. *)
Lemma summarizeWithGemini_prose :
  exists s,
    summarizeWithGemini (rt := reference) (netFixture "Sorry, I cannot help.")
      "KEY" "https://arxiv.org/abs/2506.01667"
    = ([GET "https://export.arxiv.org/api/query?id_list=2506.01667";
        geminiRequest "KEY"
          (ArxivMeta.mk (Some "2506.01667") (Some "A Sample Paper") (Some "An abstract.")
             ["Ada Lovelace"] (Some "https://arxiv.org/abs/2506.01667")
             (Some "https://arxiv.org/pdf/2506.01667.pdf")
             [Author.mk "Ada Lovelace" (Some "University of London") Academia] [] [] [])],
       Returned s)
    /\ s.(Summary.one_liner)
       = VStr "Summary generation failed, but paper metadata was retrieved."
    /\ s.(Summary.notes) = VArr [VStr "Summary generation failed - please try again"]
    /\ s.(Summary.collaboration_type) = VStr "Academia-only"
    /\ s.(Summary.total_authors) = VNum 1%float.
Proof.
  pose (meta :=
          ArxivMeta.mk (Some "2506.01667") (Some "A Sample Paper") (Some "An abstract.")
            ["Ada Lovelace"] (Some "https://arxiv.org/abs/2506.01667")
            (Some "https://arxiv.org/pdf/2506.01667.pdf")
            [Author.mk "Ada Lovelace" (Some "University of London") Academia] [] [] []).
  destruct (summarizeWithGemini_parse_failure (rt := reference)
              (netFixture "Sorry, I cannot help.") "KEY" "https://arxiv.org/abs/2506.01667"
              [GET "https://export.arxiv.org/api/query?id_list=2506.01667"]
              meta (mkResponse 200 (geminiReply "Sorry, I cannot help."))
              (VObj [("candidates",
                      VArr [VObj [("content",
                                   VObj [("parts",
                                          VArr [VObj [("text", VStr "Sorry, I cannot help.")]])])]])])
              "Sorry, I cannot help.")
    as (s & Hrun & Hfall & Hone & Hnotes & _ & _ & _ & _ & _ & Hcollab);
    try (vm_compute; reflexivity).
  exists s. split; [exact Hrun|]. split; [exact Hone|]. split; [exact Hnotes|].
  split; [exact Hcollab|].
  vm_compute in Hfall. injection Hfall as <-. reflexivity.
Defined.

(** Reliability 80 and applicability 50 without an overall score give 68,
    through [overall_score_from_components]. *)
Lemma overall_score_68 :
  exists s,
    resolveText (rt := reference) (noMeta None) (VStr scoresText) = Returned s
    /\ s.(Summary.overall_score) = VNum 68%float.
Proof.
  destruct (buildSummary (rt := reference) (noMeta None)
              (VObj [("reliability_score", VNum 80%float);
                     ("applicability_score", VNum 50%float)])) as [s|e] eqn:E;
    [|vm_compute in E; discriminate E].
  exists s.
  destruct (overall_score_from_components (rt := reference) (noMeta None) scoresText
              (VObj [("reliability_score", VNum 80%float);
                     ("applicability_score", VNum 50%float)])
              80%float 50%float s) as [Hrun Hscore].
  - vm_compute. reflexivity.
  - reflexivity.
  - reflexivity.
  - intros n. vm_compute. discriminate.
  - exact E.
  - split; [exact Hrun|]. rewrite Hscore. vm_compute. reflexivity.
Defined.

(** C7, the claim as stated fails: with both components given and no
    overall score, a null element in [authors_affiliations] makes the map
    throw, the degraded summary is returned, and it has no overall score. *)
Lemma overall_score_lost_to_the_catch :
  exists parsed s,
    JSON_parse (Runtime := reference) scoresNullAuthorText = Some parsed
    /\ Js.get parsed "reliability_score" = Returned (VNum 80%float)
    /\ Js.get parsed "applicability_score" = Returned (VNum 50%float)
    /\ Js.get parsed "overall_score" = Returned VUndefined
    /\ resolveText (rt := reference) (noMeta None) (VStr scoresNullAuthorText) = Returned s
    /\ s.(Summary.overall_score) = VUndefined.
Proof.
  eexists. eexists.
  split; [vm_compute; reflexivity|].
  split; [reflexivity|]. split; [reflexivity|]. split; [reflexivity|].
  split; [vm_compute; reflexivity|]. reflexivity.
Qed.

(** C9, the failing input: the model writes an object under [authors] and
    no [total_authors]; the summary is built on the success branch and its
    [total_authors] is [undefined], so the response has no such field. *)
Lemma total_authors_undefined :
  exists s,
    resolveText (rt := reference) (noMeta None) (VStr authorsObjectText) = Returned s
    /\ s.(Summary.total_authors) = VUndefined
    /\ Js.present s.(Summary.total_authors) = false
    /\ s.(Summary.one_liner) = VStr EmptyString
    /\ s.(Summary.authors) = VArr [].
Proof.
  eexists. split; [vm_compute; reflexivity|]. repeat split.
Qed.

(** C8 (as amended).  For a text that is a fenced block, tagged [json] in
    any letter case, or untagged in a text where the opening literal of the
    first pattern occurs nowhere, and whose closing fence is the first run of
    three backquotes after the opening one, the fence and the whitespace
    around the inside are stripped before parsing, and the resolver returns
    what it returns for the inside alone.  Single and double backquotes
    inside are no obstacle; that the conditions are necessary as well is
    [fenced_json_exact]. *)
Theorem fenced_json_unwrapped {rt : Runtime}
    (paperMeta : ArxivMeta.t) (tag lead inner trail : string) :
  Str.map Str.lowerAscii tag = "json"
  \/ (tag = EmptyString
      /\ noJsonFence (fence EmptyString (lead ++ inner ++ trail)) = true) ->
  allSpace lead = true -> allSpace trail = true ->
  closesFirst (lead ++ inner ++ trail) = true ->
  fencedJson (Str.trim (fence tag (lead ++ inner ++ trail))) = Str.trim inner
  /\ fencedJson (Str.trim inner) = Str.trim inner
  /\ resolveText paperMeta (VStr (fence tag (lead ++ inner ++ trail)))
     = resolveText paperMeta (VStr inner).
Proof.
  intros Htag Hl Ht Hclose.
  assert (H1 : fencedJson (Str.trim (fence tag (lead ++ inner ++ trail))) = Str.trim inner).
  { rewrite FenceFacts.trim_fence. destruct Htag as [Htag | [-> Hjson]].
    - now apply FenceFacts.fencedJson_tagged.
    - now apply FenceFacts.fencedJson_untagged. }
  assert (H2 : fencedJson (Str.trim inner) = Str.trim inner).
  { apply FenceFacts.fencedJson_plain.
    now apply (FenceFacts.closesFirst_inside lead inner trail). }
  split; [exact H1|]. split; [exact H2|].
  unfold resolveText. cbn [trimValue Out.bind]. now rewrite H1, H2.
Qed.

(** A block tagged [json] around a one-line object, and an untagged block
    around an object with single and double backquotes in a string, on the
    reference platform, through [fenced_json_unwrapped]. *)
Lemma fenced_json_example :
  (fencedJson (Str.trim (fence "JSON" (newline ++ oneLinerText ++ newline))) = oneLinerText
   /\ resolveText (rt := reference) (noMeta None)
        (VStr (fence "JSON" (newline ++ oneLinerText ++ newline)))
      = resolveText (rt := reference) (noMeta None) (VStr oneLinerText)
   /\ exists s,
        resolveText (rt := reference) (noMeta None) (VStr oneLinerText) = Returned s
        /\ s.(Summary.one_liner) = VStr "hi")
  /\ (fencedJson (Str.trim (fence EmptyString (newline ++ backquoteText ++ newline)))
      = backquoteText
      /\ exists s,
           resolveText (rt := reference) (noMeta None)
             (VStr (fence EmptyString (newline ++ backquoteText ++ newline))) = Returned s
           /\ s.(Summary.one_liner) = VStr "use `map` and ``fold``").
Proof.
  split.
  - destruct (fenced_json_unwrapped (rt := reference) (noMeta None)
                "JSON" newline oneLinerText newline) as (H1 & _ & H3);
      try reflexivity.
    + left. reflexivity.
    + split; [exact H1|]. split; [exact H3|].
      eexists. split; [vm_compute; reflexivity | reflexivity].
  - destruct (fenced_json_unwrapped (rt := reference) (noMeta None)
                EmptyString newline backquoteText newline) as (H1 & _ & H3);
      try reflexivity.
    + right. split; reflexivity.
    + split; [exact H1|]. rewrite H3.
      eexists. split; [vm_compute; reflexivity | reflexivity].
Defined.

(** C8, the claim as stated fails: under a language tag other than [json]
    the tag stays in the text handed to [JSON.parse], the parse fails and the
    degraded summary is returned, not the summary of the JSON inside. *)
Lemma fenced_other_tag_degrades :
  exists inside unfenced,
    JSON_parse (Runtime := reference) "{}" = Some (VObj [])
    /\ resolveText (rt := reference) (noMeta None)
         (VStr (fence "js" (newline ++ "{}" ++ newline))) = Returned inside
    /\ resolveText (rt := reference) (noMeta None) (VStr "{}") = Returned unfenced
    /\ inside.(Summary.one_liner)
       = VStr "Summary generation failed, but paper metadata was retrieved."
    /\ unfenced.(Summary.one_liner) = VStr EmptyString.
Proof.
  eexists. eexists. split; [reflexivity|].
  split; [vm_compute; reflexivity|]. split; [vm_compute; reflexivity|].
  split; reflexivity.
Qed.

(** A fence inside a string of the JSON closes the block early. *)
Example fence_inside_string_degrades :
  exists s,
    resolveText (rt := reference) (noMeta None)
      (VStr (fence "json" ("{" ++ q "one_liner" ++ ":" ++ q ("use " ++ Pat.fence3) ++ "}")))
    = Returned s
    /\ s.(Summary.one_liner)
       = VStr "Summary generation failed, but paper metadata was retrieved.".
Proof. eexists. split; [vm_compute; reflexivity | reflexivity]. Qed.

(** A backquote that touches the closing fence is taken for its first
    character: the block is cut one character short, and what is parsed is
    not the inside. *)
Example fence_after_backquote_cuts_short :
  closesFirst ("{}" ++ String bq EmptyString) = false
  /\ fencedJson (Str.trim (fence "json" ("{}" ++ String bq EmptyString))) = "{}"
  /\ exists fenced unfenced,
       resolveText (rt := reference) (noMeta None)
         (VStr (fence "json" ("{}" ++ String bq EmptyString))) = Returned fenced
       /\ resolveText (rt := reference) (noMeta None)
            (VStr ("{}" ++ String bq EmptyString)) = Returned unfenced
       /\ fenced.(Summary.one_liner) = VStr EmptyString
       /\ unfenced.(Summary.one_liner)
          = VStr "Summary generation failed, but paper metadata was retrieved.".
Proof.
  split; [reflexivity|]. split; [vm_compute; reflexivity|].
  eexists. eexists. split; [vm_compute; reflexivity|].
  split; [vm_compute; reflexivity|]. split; reflexivity.
Qed.

(** In an untagged block whose inside begins with a backquote and the word
    [json], the first pattern finds its literal one character in, and what
    is parsed is not the inside. *)
Example fence_untagged_json_literal :
  noJsonFence (fence EmptyString (String bq "json {}")) = false
  /\ closesFirst (String bq "json {}") = true
  /\ fencedJson (Str.trim (fence EmptyString (String bq "json {}"))) = "{}".
Proof. split; [reflexivity|]. split; [reflexivity|]. vm_compute. reflexivity. Qed.

(** The conditions are exact: a block tagged [json] in any letter case, or
    an untagged one, is unwrapped to its inside exactly when its closing
    fence is the first run of three backquotes after the opening one and,
    for an untagged block, the opening literal of the first pattern occurs
    nowhere in the text. *)
Lemma fenced_json_exact (tag lead inner trail : string) :
  Str.map Str.lowerAscii tag = "json" \/ tag = EmptyString ->
  allSpace lead = true -> allSpace trail = true ->
  (fencedJson (Str.trim (fence tag (lead ++ inner ++ trail))) = Str.trim inner
   <-> (Str.map Str.lowerAscii tag = "json"
        \/ (tag = EmptyString
            /\ noJsonFence (fence EmptyString (lead ++ inner ++ trail)) = true))
       /\ closesFirst (lead ++ inner ++ trail) = true).
Proof.
  intros Htag Hl Ht. rewrite FenceFacts.trim_fence. split.
  - intros H. destruct Htag as [Htag| ->].
    + split; [now left|].
      now apply (FenceFacts.fencedJson_tagged_only_if tag lead inner trail).
    + pose proof (FenceFacts.fencedJson_untagged_no_tag lead inner trail Hl Ht H) as Hjson.
      split; [now right|]. now apply FenceFacts.fencedJson_untagged_only_if.
  - intros [[Hjson|[-> Hjson]] Hclose].
    + now apply FenceFacts.fencedJson_tagged.
    + now apply FenceFacts.fencedJson_untagged.
Qed.


(** *** Further concrete runs *)

(** An old-style identifier, with its slash, in the abs form. *)
Example normalizePaperInput_old_style_abs :
  normalizePaperInput (rt := reference) "https://arxiv.org/abs/hep-th/9901001v2"
  = Returned "https://arxiv.org/abs/hep-th/9901001v2".
Proof. reflexivity. Qed.

(** The citation form [arXiv:<id>] has a scheme: it goes to the archive. *)
Example normalizePaperInput_citation_form :
  normalizePaperInput (rt := reference) "arXiv:2506.01667"
  = Returned "https://web.archive.org/web/2/arXiv:2506.01667".
Proof. reflexivity. Qed.

(** A host that merely ends in arxiv.org is not arxiv.org for the
    normalizer. *)
Example normalizePaperInput_www :
  normalizePaperInput (rt := reference) "https://www.arxiv.org/abs/2506.01667"
  = Returned "https://web.archive.org/web/2/https://www.arxiv.org/abs/2506.01667".
Proof. reflexivity. Qed.

(** A text of the model that is not a string has no [trim]: the TypeError
    is thrown before the [try]. *)
Example resolveText_not_a_string :
  resolveText (rt := reference) (noMeta None) (VNum 42%float) = Thrown TypeError.
Proof. reflexivity. Qed.

(** The pipeline from a bare identifier: one author, classified Academia,
    and a model that answers with a minimal object. *)
Example pipeline_bare_identifier :
  normalizePaperInput (rt := reference) "2506.01667"
  = Returned "https://arxiv.org/abs/2506.01667"
  /\ exists s,
       IO.result (summarizeWithGemini (rt := reference) (netFixture oneLinerText)
                    "KEY" "https://arxiv.org/abs/2506.01667") = Returned s
       /\ s.(Summary.arxiv_id) = VStr "2506.01667"
       /\ s.(Summary.title) = VStr "A Sample Paper"
       /\ s.(Summary.one_liner) = VStr "hi".
Proof.
  split; [reflexivity|]. eexists. split; [vm_compute; reflexivity|]. repeat split.
Qed.

(* ===================================================================== *)
(** * Further properties of the worker *)
(* ===================================================================== *)

(** ** Path segments and the [.pdf] suffix *)

Module SegmentFacts.
Import Re StrFacts.

Lemma split_no_sep (sep : ascii) (s p : string) :
  List.In p (Str.split sep s) -> Str.any (fun c => Ascii.eqb c sep) p = false.
Proof.
  revert p. induction s as [|c s IH]; intros p Hin.
  - destruct Hin as [<-|[]]. reflexivity.
  - cbn [Str.split] in Hin. destruct (Ascii.eqb c sep) eqn:E.
    + destruct Hin as [<-|Hin]; [reflexivity | now apply IH].
    + destruct (Str.split sep s) as [|p0 ps] eqn:Es.
      * destruct Hin as [<-|[]]. simpl. now rewrite E.
      * destruct Hin as [<-|Hin].
        -- simpl. rewrite E. apply IH. now left.
        -- apply IH. now right.
Qed.

Lemma last_in {A} (l : list A) (d : A) : l <> [] -> List.In (List.last l d) l.
Proof.
  induction l as [|a l IH]; intros Hne; [contradiction|].
  destruct l as [|b l]; [now left|]. right. apply IH. discriminate.
Qed.

(** Every path segment is non-empty and holds no slash. *)
Lemma pathSegments_spec (u : URL) (p : string) :
  List.In p (pathSegments u) -> p <> EmptyString /\ noSlash p = true.
Proof.
  unfold pathSegments. intros Hin. apply List.filter_In in Hin. destruct Hin as [Hin Hne].
  split; [now intros -> |].
  unfold noSlash. now rewrite (split_no_sep _ _ _ Hin).
Qed.

(** What [search] for the [.pdf] suffix finds: nothing, or the text split
    into what is before the suffix and the suffix. *)
Lemma search_pdfSuffix_cases (pre s : string) :
  search true Pat.pdfSuffix pre s = None
  \/ exists a ext,
       s = a ++ ext /\ ext <> EmptyString
       /\ search true Pat.pdfSuffix pre s = Some (mkResult (pre ++ a) ext [] EmptyString).
Proof.
  revert pre. induction s as [|c s IH]; intros pre.
  - left. reflexivity.
  - cbn [search]. rewrite SuffixFacts.matchAt_pdfSuffix.
    destruct (litPrefix true ".pdf" (String c s)) eqn:E.
    + destruct (Str.drop 4 (String c s)) as [|d0 ds] eqn:D.
      * right. exists EmptyString, (String c s). rewrite append_nil_r.
        split; [reflexivity|]. split; [discriminate|].
        f_equal. f_equal. cbn [String.length]. rewrite Nat.sub_0_r.
        change (S (String.length s)) with (String.length (String c s)).
        rewrite <- (append_nil_r (String c s)) at 2. apply take_append.
      * destruct (IH (pre ++ String c EmptyString)) as [H|(a & ext & Hs & Hne & H)].
        -- left. exact H.
        -- right. exists (String c a), ext. split; [simpl; now rewrite Hs|].
           split; [exact Hne|]. rewrite H, append_assoc. reflexivity.
    + destruct (IH (pre ++ String c EmptyString)) as [H|(a & ext & Hs & Hne & H)].
      * left. exact H.
      * right. exists (String c a), ext. split; [simpl; now rewrite Hs|].
        split; [exact Hne|]. rewrite H, append_assoc. reflexivity.
Qed.

(** [dropPdf] returns its argument or a proper prefix of it. *)
Lemma dropPdf_prefix (s : string) :
  dropPdf s = s \/ exists ext, s = dropPdf s ++ ext /\ ext <> EmptyString.
Proof.
  unfold dropPdf, replaceFirst, exec.
  destruct (search_pdfSuffix_cases EmptyString s) as [H|(a & ext & Hs & Hne & H)]; rewrite H.
  - now left.
  - right. exists ext. cbn. rewrite append_nil_r. split; assumption.
Qed.

Lemma dropPdf_noSlash (s : string) : noSlash s = true -> noSlash (dropPdf s) = true.
Proof.
  intros H. destruct (dropPdf_prefix s) as [->|(ext & Hs & _)]; [exact H|].
  unfold noSlash in *. rewrite Hs, TrimFacts.any_append in H.
  destruct (Str.any _ (dropPdf s)); [discriminate H | reflexivity].
Qed.

End SegmentFacts.

(** ** Whitespace runs *)

Module CollapseFacts.
Import Re StrFacts.

(** A greedy iteration before a continuation that accepts whatever is left
    takes every character of the class. *)
Lemma rep_greedy_all {A} (s : string) (f : string -> A) :
  rep true space s (fun s' => Some (f s')) = Some (f (Str.trimStart s)).
Proof.
  induction s as [|c s IH]; [reflexivity|].
  cbn [rep Str.trimStart]. unfold space at 1.
  destruct (Str.isWhiteSpace c); [now rewrite IH | reflexivity].
Qed.

Lemma matchAt_spaces (s : string) :
  matchAt false Pat.spaces s
  = match s with
    | String c s' =>
        if Str.isWhiteSpace c then Some (Str.trimStart s', []) else None
    | EmptyString => None
    end.
Proof.
  unfold matchAt, Pat.spaces, Plus. cbn [rmatch].
  destruct s as [|c s]; [reflexivity|]. unfold space at 1.
  destruct (Str.isWhiteSpace c); [|reflexivity].
  apply (rep_greedy_all s (fun s' => (s', []))).
Qed.

Lemma trimStart_length (s : string) : String.length (Str.trimStart s) <= String.length s.
Proof.
  induction s as [|c s IH]; [apply Nat.le_refl|].
  cbn [Str.trimStart]. destruct (Str.isWhiteSpace c); simpl; lia.
Qed.

Lemma squeeze_run (s : string) : squeeze true s = squeeze false (Str.trimStart s).
Proof.
  induction s as [|c s IH]; [reflexivity|].
  cbn [squeeze Str.trimStart]. destruct (Str.isWhiteSpace c) eqn:E; [exact IH|].
  cbn [squeeze]. now rewrite E.
Qed.

Lemma replaceAll_step (fuel : nat)
    (IH : forall t, String.length t < fuel ->
                    replaceAllFuel fuel false Pat.spaces " " t = squeeze false t)
    (s pre : string) :
  String.length s <= fuel ->
  match search false Pat.spaces pre s with
  | None => pre ++ s
  | Some m =>
      m.(before) ++ " " ++
      match m.(matched), m.(after) with
      | EmptyString, EmptyString => EmptyString
      | EmptyString, String c rest => String c (replaceAllFuel fuel false Pat.spaces " " rest)
      | _, rest => replaceAllFuel fuel false Pat.spaces " " rest
      end
  end = pre ++ squeeze false s.
Proof.
  revert pre. induction s as [|c s IHs]; intros pre Hlen.
  - reflexivity.
  - cbn [search]. rewrite matchAt_spaces. cbn [squeeze String.length] in *.
    destruct (Str.isWhiteSpace c) eqn:E.
    + cbn [before matched after].
      pose proof (trimStart_length s) as Hts.
      replace (S (String.length s) - String.length (Str.trimStart s))
        with (S (String.length s - String.length (Str.trimStart s))) by lia.
      cbn [Str.take]. rewrite IH by lia. now rewrite squeeze_run.
    + assert (Hs : String.length s <= fuel) by lia.
      specialize (IHs (pre ++ String c EmptyString) Hs).
      rewrite !append_assoc in IHs. cbn [append] in IHs.
      destruct (search false Pat.spaces (pre ++ String c EmptyString) s) as [m|];
        exact IHs.
Qed.

(** [.replace(/\s+/g, ' ')] squeezes every run of whitespace to one space. *)
Lemma replaceAll_spaces (s : string) :
  replaceAll false Pat.spaces " " s = squeeze false s.
Proof.
  unfold replaceAll.
  assert (H : forall fuel t, String.length t < fuel ->
                replaceAllFuel fuel false Pat.spaces " " t = squeeze false t).
  { induction fuel as [|fuel IH]; intros t Hlen; [lia|].
    cbn [replaceAllFuel]. unfold exec.
    apply (replaceAll_step fuel IH t EmptyString). lia. }
  apply H. lia.
Qed.

Lemma collapse_squeeze (s : string) : collapse s = Str.trim (squeeze false s).
Proof. unfold collapse. now rewrite replaceAll_spaces. Qed.

Lemma squeeze_true_head (s : string) :
  match squeeze true s with
  | String d _ => negb (Str.isWhiteSpace d)
  | EmptyString => true
  end = true.
Proof.
  induction s as [|c s IH]; [reflexivity|].
  cbn [squeeze]. destruct (Str.isWhiteSpace c) eqn:E; [exact IH|]. now rewrite E.
Qed.

Lemma squeeze_loose (b : bool) (s : string) : loose (squeeze b s) = true.
Proof.
  revert b. induction s as [|c s IH]; intros b; [reflexivity|].
  cbn [squeeze]. destruct (Str.isWhiteSpace c) eqn:E.
  - destruct b; [apply IH|].
    cbn [loose]. change (Str.isWhiteSpace " ") with true. cbn [Ascii.eqb].
    rewrite IH, squeeze_true_head. reflexivity.
  - cbn [loose]. rewrite E, IH. reflexivity.
Qed.

Lemma loose_trimStart (s : string) : loose s = true -> loose (Str.trimStart s) = true.
Proof.
  induction s as [|c s IH]; intros H; [reflexivity|].
  cbn [Str.trimStart]. destruct (Str.isWhiteSpace c); [|exact H].
  apply IH. cbn [loose] in H. apply andb_true_iff in H. apply H.
Qed.

Lemma loose_trimEnd (s : string) : loose s = true -> spaced (Str.trimEnd s) = true.
Proof.
  induction s as [|c s IH]; intros H; [reflexivity|].
  cbn [loose] in H. apply andb_true_iff in H. destruct H as [Hc Hs].
  specialize (IH Hs). cbn [Str.trimEnd].
  destruct (Str.trimEnd s) as [|d r] eqn:Et.
  - destruct (Str.isWhiteSpace c) eqn:E; [reflexivity|]. cbn [spaced]. now rewrite E.
  - destruct (FenceFacts.trimEnd_head _ _ _ Et) as [t' ->].
    cbn [spaced] in *. rewrite IH, andb_true_r.
    destruct (Str.isWhiteSpace c); [|reflexivity]. exact Hc.
Qed.

(** A collapsed text is tidy. *)
Lemma collapse_tidy (s : string) : tidy (collapse s) = true.
Proof.
  rewrite collapse_squeeze. unfold tidy. apply andb_true_iff. split.
  - destruct (Str.trim (squeeze false s)) as [|c t] eqn:E; [reflexivity|].
    now rewrite (FenceFacts.trim_head _ _ _ E).
  - unfold Str.trim. apply loose_trimEnd, loose_trimStart, squeeze_loose.
Qed.

Lemma squeeze_spaced (s : string) : spaced s = true -> squeeze false s = s.
Proof.
  induction s as [|c s IH]; intros H; [reflexivity|].
  cbn [spaced] in H. apply andb_true_iff in H. destruct H as [Hc Hs].
  specialize (IH Hs). cbn [squeeze].
  destruct (Str.isWhiteSpace c) eqn:E.
  - apply andb_true_iff in Hc. destruct Hc as [Hsp Hnext].
    apply Ascii.eqb_eq in Hsp. subst c.
    destruct s as [|d s]; [discriminate Hnext|].
    apply negb_true_iff in Hnext. cbn [squeeze] in *. rewrite Hnext in *.
    now rewrite IH.
  - now rewrite IH.
Qed.

Lemma trimEnd_spaced (s : string) : spaced s = true -> Str.trimEnd s = s.
Proof.
  induction s as [|c s IH]; intros H; [reflexivity|].
  cbn [spaced] in H. apply andb_true_iff in H. destruct H as [Hc Hs].
  cbn [Str.trimEnd]. rewrite (IH Hs).
  destruct s as [|d s]; [|reflexivity].
  destruct (Str.isWhiteSpace c); [|reflexivity].
  apply andb_true_iff in Hc. destruct Hc as [_ Hc]. discriminate Hc.
Qed.

(** On a tidy text [collapse] changes nothing. *)
Lemma collapse_fixed (s : string) : tidy s = true -> collapse s = s.
Proof.
  unfold tidy. intros H. apply andb_true_iff in H. destruct H as [Hh Hs].
  rewrite collapse_squeeze, (squeeze_spaced s Hs). unfold Str.trim.
  destruct s as [|c s]; [reflexivity|].
  apply negb_true_iff in Hh. rewrite (TrimFacts.trimStart_nonspace _ _ Hh).
  now apply trimEnd_spaced.
Qed.

End CollapseFacts.

(** X1.  [.replace(/\s+/g, ' ').trim()] makes a text tidy: one line, single
    spaces between words, no whitespace at either end; it changes nothing in a
    text that is tidy already, and so applying it twice is applying it once. *)
Theorem collapse_spec (s : string) :
  tidy (collapse s) = true
  /\ (tidy s = true -> collapse s = s)
  /\ collapse (collapse s) = collapse s.
Proof.
  split; [apply CollapseFacts.collapse_tidy|].
  split; [apply CollapseFacts.collapse_fixed|].
  apply CollapseFacts.collapse_fixed, CollapseFacts.collapse_tidy.
Qed.

(** ** The identifier and the metadata fetcher *)

Section FetchFacts.

Context {rt : Runtime}.

Lemma extractArxivId_inv (url id : string) :
  extractArxivId url = Some id ->
  exists u,
    URL_parse url = Some u
    /\ Str.endsWith u.(hostname) "arxiv.org" = true
    /\ id = dropPdf (List.last (pathSegments u) EmptyString)
    /\ id <> EmptyString.
Proof.
  unfold extractArxivId, new_URL.
  destruct (URL_parse url) as [u|]; [|discriminate]. cbn [Out.bind].
  destruct (Str.endsWith (hostname u) "arxiv.org") eqn:E; [|discriminate].
  cbn [negb]. unfold truthyStr.
  destruct (dropPdf (List.last (pathSegments u) EmptyString)) as [|c s] eqn:D;
    [discriminate|].
  cbn [Str.nonEmpty]. intros H. injection H as <-.
  exists u. split; [reflexivity|]. split; [exact E|]. split; [now rewrite D|discriminate].
Qed.

(** When no identifier is extracted from an address of arxiv.org, the last
    path segment without its [.pdf] is empty. *)
Lemma extractArxivId_none_last (url : string) (u : URL) :
  extractArxivId url = None ->
  URL_parse url = Some u ->
  Str.endsWith u.(hostname) "arxiv.org" = true ->
  dropPdf (List.last (pathSegments u) EmptyString) = EmptyString.
Proof.
  unfold extractArxivId, new_URL. intros H Hu Hh. rewrite Hu in H.
  cbn [Out.bind] in H. rewrite Hh in H. cbn [negb] in H. unfold truthyStr in H.
  destruct (dropPdf (List.last (pathSegments u) EmptyString)); [reflexivity|].
  discriminate H.
Qed.

(** X2.  An extracted identifier is not empty, holds no slash, and is the last
    path segment, without a final [.pdf], of an address whose host ends in
    arxiv.org. *)
Theorem extractArxivId_shape (url id : string) :
  extractArxivId url = Some id ->
  id <> EmptyString
  /\ noSlash id = true
  /\ exists u,
       URL_parse url = Some u
       /\ Str.endsWith u.(hostname) "arxiv.org" = true
       /\ id = dropPdf (List.last (pathSegments u) EmptyString).
Proof.
  intros H. destruct (extractArxivId_inv url id H) as (u & Hu & Hh & Hid & Hne).
  split; [exact Hne|]. split; [|now exists u].
  rewrite Hid. apply SegmentFacts.dropPdf_noSlash.
  destruct (pathSegments u) as [|p ps] eqn:Ep.
  - exfalso. apply Hne. rewrite Hid. reflexivity.
  - apply (SegmentFacts.pathSegments_spec u). rewrite Ep.
    apply SegmentFacts.last_in. discriminate.
Qed.

(** The authors of the Atom feed, as names and as records, go together. *)
Lemma atomAuthors_spec (xml : string) :
  fst (atomAuthors xml) = List.map Author.name (snd (atomAuthors xml))
  /\ List.Forall authorOk (snd (atomAuthors xml)).
Proof.
  unfold atomAuthors.
  generalize (Re.allMatches true Pat.author xml) as blocks.
  assert (H : forall blocks (acc : list string * list Author.t),
             fst acc = List.map Author.name (snd acc) /\ List.Forall authorOk (snd acc) ->
             let r :=
               List.fold_left
                 (fun (acc : list string * list Author.t) (block : Re.result) =>
                    let raw := match Re.group 1 block.(Re.captures) with
                               | Some g => g
                               | None => EmptyString
                               end in
                    let nameMatch := Re.capture1 true Pat.name raw in
                    let affMatch := Re.capture1 true Pat.affiliation raw in
                    let name := match nameMatch with
                                | Some n => Some (collapse n)
                                | None => None
                                end in
                    match truthyStr name with
                    | Some name =>
                        let affiliation :=
                          match affMatch with Some a => Some (collapse a) | None => None end in
                        (fst acc ++ [name],
                         snd acc ++ [Author.mk name affiliation (categorizeAffiliation affiliation)])%list
                    | None => acc
                    end) blocks acc in
             fst r = List.map Author.name (snd r) /\ List.Forall authorOk (snd r)).
  { induction blocks as [|b bs IH]; intros acc Hacc; [exact Hacc|].
    cbn [List.fold_left]. apply IH.
    set (raw := match Re.group 1 (Re.captures b) with Some g => g | None => EmptyString end).
    destruct (Re.capture1 true Pat.name raw) as [n|]; [|exact Hacc].
    unfold truthyStr. destruct (Str.nonEmpty (collapse n)) eqn:En; [|exact Hacc].
    destruct Hacc as [Hn Hok]. cbn [fst snd]. split.
    - rewrite List.map_app, Hn. reflexivity.
    - apply List.Forall_app. split; [exact Hok|]. constructor; [|constructor].
      unfold authorOk. cbn [Author.name Author.affiliation Author.category].
      split; [exact En|]. split; [apply CollapseFacts.collapse_tidy|].
      split; [|reflexivity].
      destruct (Re.capture1 true Pat.affiliation raw); [|exact I].
      apply CollapseFacts.collapse_tidy. }
  intros blocks. apply (H blocks ([], [])). split; [reflexivity | constructor].
Qed.

Lemma stripTags_tidy (s : string) : tidy (stripTags s) = true.
Proof. unfold stripTags. apply CollapseFacts.collapse_tidy. Qed.

(** The authors scraped from the abstract page. *)
Lemma htmlAuthors_spec {A} (g : A -> string) (ms : list A) :
  List.Forall authorOk
    (List.map (fun name => Author.mk name None Other)
       (List.filter Str.nonEmpty (List.map (fun m => stripTags (g m)) ms)))
  /\ List.Forall (fun a => a.(Author.affiliation) = None /\ a.(Author.category) = Other)
       (List.map (fun name => Author.mk name None Other)
          (List.filter Str.nonEmpty (List.map (fun m => stripTags (g m)) ms))).
Proof.
  split; apply List.Forall_forall; intros a Ha; apply List.in_map_iff in Ha;
    destruct Ha as (n & <- & Hn); [|split; reflexivity].
  apply List.filter_In in Hn. destruct Hn as [Hin Hne].
  apply List.in_map_iff in Hin. destruct Hin as (t & <- & _).
  unfold authorOk. cbn. repeat split; [exact Hne | apply stripTags_tidy].
Qed.

Lemma map_name_mk (names : list string) :
  List.map Author.name (List.map (fun name => Author.mk name None Other) names) = names.
Proof. induction names as [|n ns IH]; [reflexivity|]. cbn. now rewrite IH. Qed.

End FetchFacts.

Section FetchTheorems.

Context {rt : Runtime}.

Lemma unclassified_unknown (l : list Author.t) :
  List.Forall (fun a => a.(Author.affiliation) = None /\ a.(Author.category) = Other) l ->
  inferCollabType (List.map Entry.ofAuthor l) = Unknown.
Proof.
  intros H. unfold inferCollabType.
  assert (Hno : forall w, String.eqb "Other" w = false ->
                  List.existsb (fun a => Js.isString a.(Entry.category) w)
                    (List.map Entry.ofAuthor l) = false).
  { intros w Hw. induction H as [|a l [_ Hc] _ IH]; [reflexivity|].
    cbn. rewrite Hc. cbn [Category_name]. now rewrite Hw. }
  rewrite (Hno "Academia" eq_refl), (Hno "Industry" eq_refl).
  now destruct (List.map Entry.ofAuthor l).
Qed.

Ltac fallback_cases Hid net url :=
  unfold fetchArxivMeta; rewrite Hid; cbn [truthyStr]; unfold new_URL;
  let u := fresh "u" in
  let Hu := fresh "Hu" in
  let Hh := fresh "Hh" in
  destruct (URL_parse url) as [u|] eqn:Hu;
  [ destruct (Str.endsWith u.(hostname) "arxiv.org") eqn:Hh;
    [ rewrite (extractArxivId_none_last _ _ Hid Hu Hh);
      unfold IO.catch, IO.bind, IO.fetch, IO.ret;
      let res := fresh "res" in
      let e := fresh "e" in
      destruct (net (GET ("https://arxiv.org/abs/" ++ EmptyString))) as [res|e];
      [ let c := fresh "c" in
        let v := fresh "v" in
        let m := fresh "m" in
        destruct (htmlLinks res.(body)) as [[c v] m] | ]
    | ]
  | ].

(** Without an identifier the fetcher returns, after at most the request
    for the bare abstract page. *)
Lemma fetchArxivMeta_fallback (net : Network) (url : string) :
  extractArxivId url = None ->
  exists log meta,
    fetchArxivMeta net url = (log, Returned meta)
    /\ (log = [] \/ log = [GET "https://arxiv.org/abs/"]).
Proof.
  intros Hid. fallback_cases Hid net url; cbv beta iota zeta; eexists; eexists;
    (split; [reflexivity|]); cbn [app append]; auto.
Qed.

(** X3.  Without an identifier the fetcher never throws; the one page it may
    request is the bare [/abs/] address of arxiv.org, and the addresses it
    records are the ones of the empty identifier. *)
Theorem fetchArxivMeta_without_id (net : Network) (url : string) :
  extractArxivId url = None ->
  exists log meta,
    fetchArxivMeta net url = (log, Returned meta)
    /\ (log = [] \/ log = [GET "https://arxiv.org/abs/"])
    /\ meta.(ArxivMeta.id) = None
    /\ ((meta.(ArxivMeta.absUrl) = None /\ meta.(ArxivMeta.pdfUrl) = None)
        \/ (meta.(ArxivMeta.absUrl) = Some "https://arxiv.org/abs/"
            /\ meta.(ArxivMeta.pdfUrl) = Some "https://arxiv.org/pdf/.pdf")).
Proof.
  intros Hid. fallback_cases Hid net url; cbv beta iota zeta; eexists; eexists;
    (split; [reflexivity|]); cbn [ArxivMeta.id ArxivMeta.absUrl ArxivMeta.pdfUrl app append];
    auto.
Qed.

(** X4.  Without an identifier no author is classified: every author scraped
    from the page has no affiliation and the category Other, and the
    collaboration type derived from them is Unknown. *)
Theorem fetchArxivMeta_without_id_unclassified
    (net : Network) (url : string) (log : list Request) (meta : ArxivMeta.t) :
  extractArxivId url = None ->
  fetchArxivMeta net url = (log, Returned meta) ->
  List.Forall (fun a => a.(Author.affiliation) = None /\ a.(Author.category) = Other)
    meta.(ArxivMeta.authorsDetailed)
  /\ inferCollabType (List.map Entry.ofAuthor meta.(ArxivMeta.authorsDetailed)) = Unknown.
Proof.
  intros Hid H.
  assert (HF : List.Forall
                 (fun a => a.(Author.affiliation) = None /\ a.(Author.category) = Other)
                 meta.(ArxivMeta.authorsDetailed)).
  { revert H. fallback_cases Hid net url; cbv beta iota zeta; intros H;
      injection H as _ <-; cbn [ArxivMeta.authorsDetailed]; try constructor.
    destruct (Re.allMatches true Pat.htmlAuthor (body res)) as [|a0 al]; [constructor|].
    apply htmlAuthors_spec. }
  split; [exact HF | now apply unclassified_unknown].
Qed.

(** X5.  With an identifier, a reachable Atom API and a status in 200-299 the
    fetcher returns after that one request; the metadata carries the
    identifier and the two addresses built from it, a tidy title and abstract
    when the feed has them, and no resource link: the links are looked for on
    the abstract page only. *)
Theorem fetchArxivMeta_api_success
    (net : Network) (url id : string) (res : Response) :
  extractArxivId url = Some id ->
  net (GET (apiUrl id)) = Returned res ->
  ok res = true ->
  exists meta,
    fetchArxivMeta net url = ([GET (apiUrl id)], Returned meta)
    /\ meta.(ArxivMeta.id) = Some id
    /\ meta.(ArxivMeta.absUrl) = Some ("https://arxiv.org/abs/" ++ id)
    /\ meta.(ArxivMeta.pdfUrl) = Some ("https://arxiv.org/pdf/" ++ id ++ ".pdf")
    /\ tidyOpt meta.(ArxivMeta.title)
    /\ tidyOpt meta.(ArxivMeta.abstract)
    /\ meta.(ArxivMeta.codeLinks) = []
    /\ meta.(ArxivMeta.videoLinks) = []
    /\ meta.(ArxivMeta.modelLinks) = [].
Proof.
  intros Hid Hnet Hok. unfold fetchArxivMeta.
  destruct (extractArxivId_inv url id Hid) as (_ & _ & _ & _ & Hne).
  rewrite Hid. unfold truthyStr. destruct id as [|c id]; [contradiction|].
  cbn [Str.nonEmpty]. unfold IO.bind, IO.fetch, IO.throw, IO.ret.
  fold (apiUrl (String c id)). rewrite Hnet, Hok. cbn [negb].
  destruct (atomAuthors (body res)) as [authors authorsDetailed].
  eexists. split; [reflexivity|].
  cbn [ArxivMeta.id ArxivMeta.absUrl ArxivMeta.pdfUrl ArxivMeta.title ArxivMeta.abstract
       ArxivMeta.codeLinks ArxivMeta.videoLinks ArxivMeta.modelLinks].
  repeat split.
  - destruct (Re.capture1 true Pat.entryTitle (body res)); [|exact I].
    apply CollapseFacts.collapse_tidy.
  - destruct (Re.capture1 true Pat.summary (body res)); [|exact I].
    apply CollapseFacts.collapse_tidy.
Qed.

(** X6.  The only ways the fetcher fails: an identifier was extracted and the
    request to the Atom API was rejected, or answered with a status outside
    200-299. Whatever happens on the abstract page is swallowed. *)
Theorem fetchArxivMeta_failures
    (net : Network) (url : string) (log : list Request) (e : exn) :
  fetchArxivMeta net url = (log, Thrown e) ->
  exists id,
    extractArxivId url = Some id
    /\ log = [GET (apiUrl id)]
    /\ (net (GET (apiUrl id)) = Thrown e
        \/ exists res,
             net (GET (apiUrl id)) = Returned res
             /\ ok res = false
             /\ e = Error ("arXiv API error " ++ Str.ofZ res.(status))).
Proof.
  destruct (extractArxivId url) as [id|] eqn:Hid.
  - intros H. exists id. split; [reflexivity|]. revert H.
    destruct (extractArxivId_inv url id Hid) as (_ & _ & _ & _ & Hne).
    unfold fetchArxivMeta. rewrite Hid. unfold truthyStr.
    destruct id as [|c id]; [contradiction|].
    cbn [Str.nonEmpty]. unfold IO.bind, IO.fetch, IO.throw, IO.ret.
    fold (apiUrl (String c id)).
    destruct (net (GET (apiUrl (String c id)))) as [res|e'] eqn:Hnet.
    + destruct (ok res) eqn:Hok; cbn [negb].
      * destruct (atomAuthors (body res)). discriminate.
      * intros H. injection H as <- <-. split; [reflexivity|].
        right. exists res. repeat split. exact Hok.
    + intros H. injection H as <- <-. split; [reflexivity|]. now left.
  - intros H. exfalso.
    destruct (fetchArxivMeta_fallback net url Hid) as (log' & meta & H' & _).
    rewrite H' in H. discriminate H.
Qed.

(** X7.  In every metadata the fetcher returns, the list of names is the list
    of the detailed authors' names, in order; every name is non-empty and
    tidy, and every category is the one the classifier gives the affiliation. *)
Theorem fetchArxivMeta_authors
    (net : Network) (url : string) (log : list Request) (meta : ArxivMeta.t) :
  fetchArxivMeta net url = (log, Returned meta) ->
  meta.(ArxivMeta.authors) = List.map Author.name meta.(ArxivMeta.authorsDetailed)
  /\ List.Forall authorOk meta.(ArxivMeta.authorsDetailed).
Proof.
  destruct (extractArxivId url) as [id|] eqn:Hid.
  - destruct (extractArxivId_inv url id Hid) as (_ & _ & _ & _ & Hne).
    unfold fetchArxivMeta. rewrite Hid. unfold truthyStr.
    destruct id as [|c id]; [contradiction|].
    cbn [Str.nonEmpty]. unfold IO.bind, IO.fetch, IO.throw, IO.ret.
    destruct (net _) as [res|e']; [|discriminate].
    destruct (negb (ok res)); [discriminate|].
    pose proof (atomAuthors_spec (body res)) as Hspec.
    destruct (atomAuthors (body res)) as [authors authorsDetailed].
    intros H. injection H as _ <-. exact Hspec.
  - fallback_cases Hid net url; cbv beta iota zeta; intros H; injection H as _ <-;
      cbn [ArxivMeta.authors ArxivMeta.authorsDetailed];
      try (split; [reflexivity | constructor]).
    destruct (Re.allMatches true Pat.htmlAuthor (body res)) as [|a0 al];
      [split; [reflexivity | constructor]|].
    split; [now rewrite map_name_mk | apply htmlAuthors_spec].
Qed.

End FetchTheorems.

(** ** Resource links *)

Lemma htmlLinks_sorted (html : string) :
  List.forallb isCodeLink (fst (fst (htmlLinks html))) = true
  /\ List.forallb isVideoLink (snd (fst (htmlLinks html))) = true
  /\ List.forallb isModelLink (snd (htmlLinks html)) = true.
Proof.
  unfold htmlLinks.
  generalize (Re.allMatches true Pat.htmlLink html) as ms.
  assert (H : forall ms (acc : list string * list string * list string),
             List.forallb isCodeLink (fst (fst acc)) = true
             /\ List.forallb isVideoLink (snd (fst acc)) = true
             /\ List.forallb isModelLink (snd acc) = true ->
             let r :=
               List.fold_left
                 (fun (acc : list string * list string * list string) (m : Re.result) =>
                    let '(codeLinks, videoLinks, modelLinks) := acc in
                    let raw := match Re.group 1 m.(Re.captures) with
                               | Some g => g
                               | None => EmptyString
                               end in
                    let link :=
                      Re.replaceFirst false Pat.fragment EmptyString
                        (Str.trim (Re.replaceAll false Pat.amp "&" raw)) in
                    if Re.test true Pat.github link
                    then (codeLinks ++ [link], videoLinks, modelLinks)%list
                    else if Re.test true Pat.videoHost link
                    then (codeLinks, videoLinks ++ [link], modelLinks)%list
                    else if Re.test true Pat.huggingface link
                    then (codeLinks, videoLinks, modelLinks ++ [link])%list
                    else acc) ms acc in
             List.forallb isCodeLink (fst (fst r)) = true
             /\ List.forallb isVideoLink (snd (fst r)) = true
             /\ List.forallb isModelLink (snd r) = true).
  { induction ms as [|m ms IH]; intros acc Hacc; [exact Hacc|].
    cbn [List.fold_left]. apply IH. destruct acc as [[c v] md].
    cbn [fst snd] in Hacc. destruct Hacc as (Hc & Hv & Hm).
    set (link := Re.replaceFirst false Pat.fragment EmptyString _).
    destruct (Re.test true Pat.github link) eqn:G.
    { cbn [fst snd]. rewrite List.forallb_app, Hc. cbn [List.forallb].
      unfold isCodeLink at 1. rewrite G. auto. }
    destruct (Re.test true Pat.videoHost link) eqn:V.
    { cbn [fst snd]. rewrite List.forallb_app, Hv. cbn [List.forallb].
      unfold isVideoLink at 1. rewrite G, V. auto. }
    destruct (Re.test true Pat.huggingface link) eqn:M.
    { cbn [fst snd]. rewrite List.forallb_app, Hm. cbn [List.forallb].
      unfold isModelLink at 1. rewrite G, V, M. auto. }
    cbn [fst snd]. auto. }
  intros ms. apply (H ms ([], [], [])). cbn. auto.
Qed.

Section LinkTheorems.

Context {rt : Runtime}.

(** X8.  In every metadata the fetcher returns, each code link names
    github.com, each video link names a video host and not github.com, each
    model link names huggingface.co and neither of the others: a link is filed
    under the first kind it fits. *)
Theorem fetchArxivMeta_links
    (net : Network) (url : string) (log : list Request) (meta : ArxivMeta.t) :
  fetchArxivMeta net url = (log, Returned meta) ->
  List.forallb isCodeLink meta.(ArxivMeta.codeLinks) = true
  /\ List.forallb isVideoLink meta.(ArxivMeta.videoLinks) = true
  /\ List.forallb isModelLink meta.(ArxivMeta.modelLinks) = true.
Proof.
  unfold fetchArxivMeta.
  destruct (truthyStr (extractArxivId url)) as [id|].
  - unfold IO.bind, IO.fetch, IO.throw, IO.ret.
    destruct (net _) as [res|e']; [|discriminate].
    destruct (negb (ok res)); [discriminate|].
    destruct (atomAuthors (body res)) as [authors authorsDetailed].
    intros H. injection H as _ <-. cbn. auto.
  - unfold new_URL. destruct (URL_parse url) as [u|];
      [|intros H; injection H as _ <-; cbn; auto].
    destruct (Str.endsWith (hostname u) "arxiv.org");
      [|intros H; injection H as _ <-; cbn; auto].
    unfold IO.catch, IO.bind, IO.fetch, IO.ret.
    destruct (net _) as [res|e']; [|intros H; injection H as _ <-; cbn; auto].
    pose proof (htmlLinks_sorted (body res)) as Hs.
    destruct (htmlLinks (body res)) as [[c v] m].
    cbv beta iota zeta. intros H. injection H as _ <-.
    cbn [ArxivMeta.codeLinks ArxivMeta.videoLinks ArxivMeta.modelLinks]. exact Hs.
Qed.

End LinkTheorems.

(** ** The requests and the failures of [summarizeWithGemini] *)

Section SummarizeTheorems.

Context {rt : Runtime}.

Lemma prefix_append (p s : string) : String.prefix p (p ++ s) = true.
Proof. apply prefix_exists. now exists s. Qed.

(** The fetcher makes no request, or one [GET] to the Atom API or to the
    bare abstract page. *)
Lemma fetchArxivMeta_log (net : Network) (url : string) :
  IO.requests (fetchArxivMeta net url) = []
  \/ IO.requests (fetchArxivMeta net url) = [GET "https://arxiv.org/abs/"]
  \/ exists id, IO.requests (fetchArxivMeta net url) = [GET (apiUrl id)].
Proof.
  destruct (extractArxivId url) as [id|] eqn:Hid.
  - right. right. exists id.
    destruct (extractArxivId_inv url id Hid) as (_ & _ & _ & _ & Hne).
    unfold fetchArxivMeta. rewrite Hid. unfold truthyStr.
    destruct id as [|c id]; [contradiction|].
    cbn [Str.nonEmpty]. unfold IO.bind, IO.fetch, IO.throw, IO.ret.
    fold (apiUrl (String c id)).
    destruct (net (GET (apiUrl (String c id)))) as [res|e']; [|reflexivity].
    destruct (negb (ok res)); [reflexivity|].
    destruct (atomAuthors (body res)). reflexivity.
  - destruct (fetchArxivMeta_fallback net url Hid) as (log & meta & H & [->| ->]);
      rewrite H; auto.
Qed.

Lemma summarizeWithGemini_log (net : Network) (apiKey paperUrl : string) :
  IO.requests (summarizeWithGemini net apiKey paperUrl)
  = (IO.requests (fetchArxivMeta net paperUrl)
     ++ match IO.result (fetchArxivMeta net paperUrl) with
        | Returned paperMeta => [geminiRequest apiKey paperMeta]
        | Thrown _ => []
        end)%list.
Proof.
  unfold summarizeWithGemini, IO.requests, IO.result.
  destruct (fetchArxivMeta net paperUrl) as [mlog [paperMeta|e]];
    cbn [IO.bind fst snd]; [|now rewrite List.app_nil_r].
  unfold IO.fetch. cbn [IO.bind].
  destruct (net (geminiRequest apiKey paperMeta)) as [res|e]; [|reflexivity].
  destruct (negb (ok res)); unfold IO.throw, IO.lift; cbn [IO.bind fst].
  - now rewrite List.app_nil_r.
  - destruct (res_json res); cbn [IO.bind fst]; now rewrite !List.app_nil_r.
Qed.

(** A request to one of the three addresses of the worker is not a request
    to the archive proxy. *)
Lemma knownEndpoint_not_archive (r : Request) :
  knownEndpoint r = true -> toArchive r = false.
Proof.
  unfold knownEndpoint, toArchive. intros H.
  apply orb_true_iff in H. destruct H as [H|H]; [apply orb_true_iff in H; destruct H as [H|H]|].
  - apply prefix_exists in H. destruct H as [t ->]. reflexivity.
  - apply String.eqb_eq in H. now rewrite H.
  - apply prefix_exists in H. destruct H as [t ->]. reflexivity.
Qed.

(** X9.  Whatever the address it is given and whatever the network answers,
    [summarizeWithGemini] makes at most two requests, each to the Atom API,
    to the bare abstract page of arxiv.org or to the model endpoint; at most
    one of them carries a body, and none goes to the archive proxy. *)
Theorem summarizeWithGemini_requests (net : Network) (apiKey paperUrl : string) :
  let log := IO.requests (summarizeWithGemini net apiKey paperUrl) in
  List.length log <= 2
  /\ List.forallb knownEndpoint log = true
  /\ List.length (List.filter hasBody log) <= 1
  /\ List.existsb toArchive log = false.
Proof.
  cbv zeta. rewrite summarizeWithGemini_log.
  assert (Hg : forall paperMeta,
             knownEndpoint (geminiRequest apiKey paperMeta) = true
             /\ hasBody (geminiRequest apiKey paperMeta) = true).
  { intros paperMeta. unfold knownEndpoint, geminiRequest, geminiEndpoint, hasBody.
    cbn [req_url req_body isSome]. rewrite prefix_append.
    now rewrite !orb_true_r. }
  assert (Ha : forall id, knownEndpoint (GET (apiUrl id)) = true).
  { intros id. unfold knownEndpoint, GET, apiUrl. cbn [req_url].
    now rewrite prefix_append. }
  destruct (fetchArxivMeta_log net paperUrl) as [H|[H|[id H]]]; rewrite H;
    destruct (IO.result (fetchArxivMeta net paperUrl)) as [paperMeta|e];
    cbn [app List.length List.forallb List.filter List.existsb];
    try rewrite (knownEndpoint_not_archive _ (Ha id));
    try rewrite (knownEndpoint_not_archive _ (proj1 (Hg paperMeta)));
    try rewrite Ha; try rewrite (proj1 (Hg paperMeta)); try rewrite (proj2 (Hg paperMeta));
    cbn [hasBody GET req_body isSome List.length andb];
    repeat split; try lia; reflexivity.
Qed.

End SummarizeTheorems.

Section SummarizeFailures.

Context {rt : Runtime}.

(** X10.  The only ways [summarizeWithGemini] fails: the metadata fetcher
    failed, and then the model was not contacted; or the model request was
    rejected, was answered with a status outside 200-299, was answered with a
    body that is not JSON, or carried a first candidate whose text is not a
    string. Nothing the model writes in a text makes it fail. *)
Theorem summarizeWithGemini_failures
    (net : Network) (apiKey paperUrl : string) (log : list Request) (e : exn) :
  summarizeWithGemini net apiKey paperUrl = (log, Thrown e) ->
  fetchArxivMeta net paperUrl = (log, Thrown e)
  \/ exists mlog paperMeta,
       fetchArxivMeta net paperUrl = (mlog, Returned paperMeta)
       /\ log = (mlog ++ [geminiRequest apiKey paperMeta])%list
       /\ (net (geminiRequest apiKey paperMeta) = Thrown e
           \/ exists res,
                net (geminiRequest apiKey paperMeta) = Returned res
                /\ ((ok res = false
                     /\ e = Error ("Gemini error " ++ Str.ofZ res.(status) ++ ": "
                                   ++ res.(body)))
                    \/ (ok res = true /\ JSON_parse res.(body) = None /\ e = SyntaxError)
                    \/ (ok res = true
                        /\ exists data,
                             JSON_parse res.(body) = Some data
                             /\ (forall text, extractText data <> VStr text)
                             /\ e = TypeError))).
Proof.
  unfold summarizeWithGemini.
  destruct (fetchArxivMeta net paperUrl) as [mlog [paperMeta|e']]; cbn [IO.bind].
  2:{ intros H. injection H as <- <-. now left. }
  unfold IO.fetch. cbn [IO.bind].
  destruct (net (geminiRequest apiKey paperMeta)) as [res|e'] eqn:Hnet.
  2:{ intros H. injection H as <- <-. right. exists mlog, paperMeta.
      split; [reflexivity|]. split; [reflexivity|]. left. exact Hnet. }
  destruct (ok res) eqn:Hok; cbn [negb]; unfold IO.throw, IO.lift; cbn [IO.bind].
  2:{ intros H. injection H as <- <-. right. exists mlog, paperMeta.
      split; [reflexivity|]. split; [reflexivity|].
      right. exists res. split; [exact Hnet|]. left. now split. }
  unfold res_json. destruct (JSON_parse (body res)) as [data|] eqn:Hdata; cbn [IO.bind].
  2:{ intros H. injection H as <- <-. right. exists mlog, paperMeta.
      split; [reflexivity|]. split; [reflexivity|].
      right. exists res. split; [exact Hnet|]. right. left. now repeat split. }
  destruct (extractText data) as [| |b|n|text|items|fields] eqn:Htext;
    cbn [app];
    try (unfold resolveText; cbn [trimValue Out.bind];
         intros H; injection H as <- <-; right; exists mlog, paperMeta;
         split; [reflexivity|]; split; [reflexivity|];
         right; exists res; split; [exact Hnet|]; right; right;
         split; [exact Hok|]; exists data; split; [exact Hdata|];
         split; [intros t; rewrite Htext; discriminate | reflexivity]).
  destruct (resolveText_returns paperMeta text) as [s Hs]. rewrite Hs. discriminate.
Qed.

(** X11.  When the metadata was fetched and the model request was answered, a
    status outside 200-299 is the error [Gemini error <status>: <body>], and a
    body that is not JSON under a status in 200-299 is a SyntaxError: both are
    thrown outside the [try], so neither gives the degraded summary. *)
Theorem summarizeWithGemini_model_error
    (net : Network) (apiKey paperUrl : string) (mlog : list Request)
    (paperMeta : ArxivMeta.t) (res : Response) :
  fetchArxivMeta net paperUrl = (mlog, Returned paperMeta) ->
  net (geminiRequest apiKey paperMeta) = Returned res ->
  (ok res = false ->
   summarizeWithGemini net apiKey paperUrl
   = ((mlog ++ [geminiRequest apiKey paperMeta])%list,
      Thrown (Error ("Gemini error " ++ Str.ofZ res.(status) ++ ": " ++ res.(body)))))
  /\ (ok res = true -> JSON_parse res.(body) = None ->
      summarizeWithGemini net apiKey paperUrl
      = ((mlog ++ [geminiRequest apiKey paperMeta])%list, Thrown SyntaxError)).
Proof.
  intros Hmeta Hnet. unfold summarizeWithGemini. rewrite Hmeta.
  unfold IO.fetch. cbn [IO.bind]. rewrite Hnet. split.
  - intros Hok. rewrite Hok. reflexivity.
  - intros Hok Hbody. rewrite Hok. cbn [negb]. unfold res_json. rewrite Hbody.
    reflexivity.
Qed.

(** X12.  A reply of the model without a first candidate, or whose first
    candidate has no text, is not an error: the empty text is not JSON, and
    the summary is the degraded one, built from the metadata. *)
Theorem summarizeWithGemini_no_candidate
    (net : Network) (apiKey paperUrl : string) (mlog : list Request)
    (paperMeta : ArxivMeta.t) (res : Response) (data : value) :
  JSON_parse EmptyString = None ->
  fetchArxivMeta net paperUrl = (mlog, Returned paperMeta) ->
  net (geminiRequest apiKey paperMeta) = Returned res ->
  ok res = true ->
  JSON_parse res.(body) = Some data ->
  Js.getOpt0 (Js.getOpt data "candidates") = VUndefined
  \/ Js.getOpt0
       (Js.getOpt (Js.getOpt (Js.getOpt0 (Js.getOpt data "candidates")) "content") "parts")
     = VUndefined ->
  summarizeWithGemini net apiKey paperUrl
  = ((mlog ++ [geminiRequest apiKey paperMeta])%list, fallbackSummary paperMeta).
Proof.
  intros Hempty Hmeta Hnet Hok Hdata Hmissing.
  assert (Htext : extractText data = VStr EmptyString).
  { unfold extractText. destruct Hmissing as [H|H]; rewrite H; reflexivity. }
  unfold summarizeWithGemini. rewrite Hmeta. unfold IO.fetch. cbn [IO.bind].
  rewrite Hnet, Hok. cbn [negb]. unfold res_json. rewrite Hdata.
  unfold IO.lift. cbn [IO.bind]. rewrite Htext.
  unfold resolveText. cbn [trimValue Out.bind Str.trim Str.trimStart Str.trimEnd].
  change (fencedJson EmptyString) with EmptyString.
  unfold parseJson. rewrite Hempty. cbn [Out.bind Out.catch].
  now rewrite !List.app_nil_r.
Qed.

(** X13.  For an address whose host does not end in arxiv.org, or that is no
    address at all, the model is asked about nothing: the one request made is
    the model request for the empty metadata, and the outcome is the same
    whatever the address. *)
Theorem summarizeWithGemini_foreign
    (net : Network) (apiKey url url' : string) :
  (forall u, URL_parse url = Some u -> Str.endsWith u.(hostname) "arxiv.org" = false) ->
  (forall u, URL_parse url' = Some u -> Str.endsWith u.(hostname) "arxiv.org" = false) ->
  IO.requests (summarizeWithGemini net apiKey url) = [geminiRequest apiKey (noMeta None)]
  /\ summarizeWithGemini net apiKey url = summarizeWithGemini net apiKey url'.
Proof.
  assert (H : forall a,
             (forall u, URL_parse a = Some u ->
                        Str.endsWith u.(hostname) "arxiv.org" = false) ->
             fetchArxivMeta net a = ([], Returned (noMeta None))).
  { intros a Ha. destruct (URL_parse a) as [u|] eqn:Hu.
    - unfold fetchArxivMeta.
      rewrite (extractArxivId_foreign _ _ Hu (Ha u eq_refl)). cbn [truthyStr].
      unfold new_URL. rewrite Hu, (Ha u eq_refl). reflexivity.
    - now apply fetchArxivMeta_not_a_url. }
  intros Hu Hu'. split.
  - rewrite summarizeWithGemini_log, (H url Hu). reflexivity.
  - unfold summarizeWithGemini. now rewrite (H url Hu), (H url' Hu').
Qed.

End SummarizeFailures.

(** ** The summary resolver, further *)

Section ResolveTheorems.

Context {rt : Runtime}.

Lemma arrayOr_isArray (v : value) : Js.isArray (Js.arrayOr v) = true.
Proof. now destruct v. Qed.

Lemma or_present (a b : value) : Js.present b = true -> Js.present (Js.or a b) = true.
Proof.
  intros Hb. unfold Js.or. destruct (Js.truthy a) eqn:T; [|exact Hb]. now destruct a.
Qed.

Lemma or_truthy (a b : value) : Js.truthy b = true -> Js.truthy (Js.or a b) = true.
Proof. intros Hb. unfold Js.or. now destruct (Js.truthy a) eqn:T. Qed.

Lemma numOrUndefined_ok (x : option float) : isNumberOrUndefined (Js.numOrUndefined x) = true.
Proof. now destruct x. Qed.

Lemma arrayOr_ok (v : value) : isArrayOrUndefined (Js.arrayOr v) = true.
Proof. now destruct v. Qed.

Lemma buildSummary_shaped (paperMeta : ArxivMeta.t) (parsed : value) (s : Summary.t) :
  buildSummary paperMeta parsed = Returned s -> shaped s.
Proof.
  intros H. unfold buildSummary in H. repeat step_bind H. injection H as <-.
  unfold shaped.
  cbn [Summary.problems_solved Summary.key_innovations Summary.benchmarks Summary.takeaways
       Summary.notes Summary.authors Summary.resources Resources.code Resources.video
       Resources.checkpoints Summary.impact_potential Summary.use_cases
       Summary.reliability_score Summary.applicability_score Summary.overall_score
       Summary.one_liner Summary.collaboration_type List.forallb].
  rewrite !arrayOr_isArray, !numOrUndefined_ok, !arrayOr_ok.
  repeat split.
  - now apply or_present.
  - apply or_truthy. now destruct (inferCollabType _).
Qed.

Lemma ofStrings_isArray (l : list string) : Js.isArray (Js.ofStrings l) = true.
Proof. reflexivity. Qed.

Lemma fallbackSummary_shaped (paperMeta : ArxivMeta.t) (s : Summary.t) :
  fallbackSummary paperMeta = Returned s -> shaped s.
Proof.
  unfold fallbackSummary. intros H. step_bind H. injection H as <-.
  unfold shaped. cbn. repeat split. now destruct (inferCollabType _).
Qed.

(** X14.  On a text that is a string the resolver never throws, and on either
    branch the summary is well typed where the branches agree: the lists
    [problems_solved], [key_innovations], [benchmarks], [takeaways], [notes],
    [authors] and the three lists of [resources] are arrays;
    [impact_potential] and [use_cases] are arrays or absent; the three scores
    are Numbers or absent; [one_liner] is present and [collaboration_type] is
    truthy. *)
Theorem resolveText_shape (paperMeta : ArxivMeta.t) (text : string) :
  exists s, resolveText paperMeta (VStr text) = Returned s /\ shaped s.
Proof.
  unfold resolveText. cbn [trimValue Out.bind].
  destruct (fallbackSummary_returns paperMeta) as [f Hf].
  pose proof (fallbackSummary_shaped paperMeta f Hf) as Hfs.
  destruct (parseJson (fencedJson (Str.trim text))) as [parsed|e]; cbn [Out.bind Out.catch].
  - destruct (buildSummary paperMeta parsed) as [s|e] eqn:E; cbn [Out.catch].
    + exists s. split; [reflexivity|]. now apply (buildSummary_shaped paperMeta parsed).
    + exists f. now split.
  - exists f. now split.
Qed.

End ResolveTheorems.

Section ResolveBranches.

Context {rt : Runtime}.

Lemma get_getOpt (v : value) (k : string) (x : value) :
  Js.get v k = Returned x -> Js.getOpt v k = x.
Proof. unfold Js.getOpt. now intros ->. Qed.

Lemma get_returns (v : value) (k : string) :
  v <> VNull -> v <> VUndefined -> Js.get v k = Returned (Js.getOpt v k).
Proof. intros H1 H2. destruct v; try reflexivity; contradiction. Qed.

Lemma tally_nil : tally [] = Returned (VObj [("Academia", VNum 0%float);
                                            ("Industry", VNum 0%float);
                                            ("Other", VNum 0%float)]).
Proof. reflexivity. Qed.

(** X15.  A parsed text that is not null and has no array under
    [authors_affiliations] is always summarized on the success branch,
    whatever else it holds, be it a number, a string or an array: no author
    entry is listed, and what the text lacks is defaulted, the one-liner to
    the empty string, the collaboration type to Unknown, the breakdown to
    three zeros. *)
Theorem resolveText_without_affiliations
    (paperMeta : ArxivMeta.t) (text : string) (parsed : value) :
  JSON_parse (fencedJson (Str.trim text)) = Some parsed ->
  parsed <> VNull -> parsed <> VUndefined ->
  (forall items, Js.getOpt parsed "authors_affiliations" <> VArr items) ->
  exists s,
    resolveText paperMeta (VStr text) = Returned s
    /\ buildSummary paperMeta parsed = Returned s
    /\ s.(Summary.authors_affiliations) = []
    /\ s.(Summary.one_liner) = Js.or (Js.getOpt parsed "one_liner") (VStr EmptyString)
    /\ s.(Summary.collaboration_type)
       = Js.or (Js.getOpt parsed "collaboration_type") (VStr "Unknown")
    /\ s.(Summary.notes) = Js.arrayOr (Js.getOpt parsed "notes")
    /\ s.(Summary.affiliation_breakdown)
       = Js.or (Js.getOpt parsed "affiliation_breakdown")
           (VObj [("Academia", VNum 0%float); ("Industry", VNum 0%float);
                  ("Other", VNum 0%float)]).
Proof.
  intros Hparse Hnull Hundef Hnoarr.
  assert (Hget : forall k, Js.get parsed k = Returned (Js.getOpt parsed k)).
  { intros k. now apply get_returns. }
  assert (Hbuild : exists s,
             buildSummary paperMeta parsed = Returned s
             /\ s.(Summary.authors_affiliations) = []
             /\ s.(Summary.one_liner) = Js.or (Js.getOpt parsed "one_liner") (VStr EmptyString)
             /\ s.(Summary.collaboration_type)
                = Js.or (Js.getOpt parsed "collaboration_type") (VStr "Unknown")
             /\ s.(Summary.notes) = Js.arrayOr (Js.getOpt parsed "notes")
             /\ s.(Summary.affiliation_breakdown)
                = Js.or (Js.getOpt parsed "affiliation_breakdown")
                    (VObj [("Academia", VNum 0%float); ("Industry", VNum 0%float);
                           ("Other", VNum 0%float)])).
  { unfold buildSummary. rewrite !Hget. cbn [Out.bind].
    assert (Hauth : match Js.getOpt parsed "authors_affiliations" with
                    | VArr items =>
                        Out.mapM
                          (fun a =>
                             (name <- Js.get a "name" ;;
                              affiliation <- Js.get a "affiliation" ;;
                              category <- Js.get a "category" ;;
                              Returned (Entry.mk name affiliation category))%outcome)
                          items
                    | _ => Returned []
                    end = Returned []).
    { destruct (Js.getOpt parsed "authors_affiliations") as [| | | | |items|] eqn:E;
        try reflexivity. now contradiction (Hnoarr items). }
    rewrite Hauth. cbn [Out.bind]. rewrite tally_nil.
    assert (Hlen : exists n,
               (if Js.truthy (Js.getOpt parsed "authors")
                then Js.get (Js.getOpt parsed "authors") "length"
                else Returned (VNum 0%float)) = Returned n).
    { destruct (Js.getOpt parsed "authors") as [| |[|]|n|s|items|fields];
        cbn [Js.truthy Js.get]; try destruct (Num.truthy n);
        try destruct (Str.nonEmpty s); eexists; reflexivity. }
    destruct Hlen as [n Hn].
    destruct (Js.truthy (Js.getOpt parsed "affiliation_breakdown")) eqn:T;
      cbn [Out.bind]; rewrite Hn; cbn [Out.bind]; eexists; (split; [reflexivity|]);
      cbn [Summary.authors_affiliations Summary.one_liner Summary.collaboration_type
           Summary.notes Summary.affiliation_breakdown inferCollabType CollabType_name];
      repeat split; unfold Js.or; now rewrite T. }
  destruct Hbuild as (s & Hs & Hrest). exists s. split; [|split; [exact Hs | exact Hrest]].
  unfold resolveText. cbn [trimValue Out.bind]. unfold parseJson. rewrite Hparse.
  cbn [Out.bind]. rewrite Hs. reflexivity.
Qed.

Lemma mapM_null {B} (f : value -> outcome B) (items : list value) :
  (forall v, v = VNull \/ v = VUndefined -> exists e, f v = Thrown e) ->
  List.Exists (fun v => v = VNull \/ v = VUndefined) items ->
  exists e, Out.mapM f items = Thrown e.
Proof.
  intros Hf H. induction H as [v items Hv|v items _ IH].
  - destruct (Hf v Hv) as [e He]. exists e. cbn [Out.mapM]. now rewrite He.
  - destruct IH as [e He]. cbn [Out.mapM]. destruct (f v) as [b|e0].
    + exists e. cbn [Out.bind]. now rewrite He.
    + now exists e0.
Qed.

(** X16.  Valid JSON is not enough for the success branch: when the parsed
    text is [null], or lists a [null] among its [authors_affiliations], a
    property of [null] is read inside the [try], and the summary is the
    degraded one. *)
Theorem resolveText_null_degrades
    (paperMeta : ArxivMeta.t) (text : string) (parsed : value) :
  JSON_parse (fencedJson (Str.trim text)) = Some parsed ->
  parsed = VNull
  \/ (exists items,
        Js.getOpt parsed "authors_affiliations" = VArr items /\ List.In VNull items) ->
  resolveText paperMeta (VStr text) = fallbackSummary paperMeta.
Proof.
  intros Hparse Hcase.
  assert (Hthrow : exists e, buildSummary paperMeta parsed = Thrown e).
  { destruct Hcase as [->|(items & Hitems & Hin)].
    - now exists TypeError.
    - assert (Hnn : parsed <> VNull /\ parsed <> VUndefined).
      { split; intros ->; discriminate Hitems. }
      destruct Hnn as [H1 H2].
      unfold buildSummary. rewrite !(get_returns parsed _ H1 H2). cbn [Out.bind].
      rewrite Hitems.
      destruct (mapM_null
                  (fun a =>
                     (name <- Js.get a "name" ;;
                      affiliation <- Js.get a "affiliation" ;;
                      category <- Js.get a "category" ;;
                      Returned (Entry.mk name affiliation category))%outcome)
                  items) as [e He].
      + intros v [->| ->]; now exists TypeError.
      + apply List.Exists_exists. exists VNull. split; [exact Hin | now left].
      + exists e. now rewrite He. }
  destruct Hthrow as [e He].
  unfold resolveText. cbn [trimValue Out.bind]. unfold parseJson. rewrite Hparse.
  cbn [Out.bind]. rewrite He. reflexivity.
Qed.

(** X17.  The tally of the authors the worker classified: three counts under
    the three category names, in that order, each the count reached after one
    increment for every author of the category. *)
Theorem tally_counts (l : list Author.t) :
  tally (List.map Entry.ofAuthor l)
  = Returned (VObj [("Academia", VNum (counted (authorsOf Academia l)));
                    ("Industry", VNum (counted (authorsOf Industry l)));
                    ("Other", VNum (counted (authorsOf Other l)))]).
Proof.
  unfold tally.
  assert (H : forall a i o,
             Out.foldM
               (fun acc x =>
                  (key <- toStringValue x.(Entry.category) ;; Returned (bump acc key))%outcome)
               [("Academia", CNum (counted a)); ("Industry", CNum (counted i));
                ("Other", CNum (counted o))]
               (List.map Entry.ofAuthor l)
             = Returned [("Academia", CNum (counted (authorsOf Academia l + a)));
                         ("Industry", CNum (counted (authorsOf Industry l + i)));
                         ("Other", CNum (counted (authorsOf Other l + o)))]).
  { induction l as [|x l IH]; intros a i o; [reflexivity|].
    cbn [List.map Out.foldM]. destruct x as [n af c].
    unfold authorsOf. cbn [List.filter Author.category].
    destruct c; cbn [Entry.ofAuthor Entry.category Author.category Category_name
                     toStringValue Out.bind String.eqb Ascii.eqb Bool.eqb List.length];
      unfold bump; cbn [countAssoc String.eqb Ascii.eqb Bool.eqb countSet];
      fold (increment (counted a)); fold (increment (counted i));
      fold (increment (counted o));
      [ change (increment (counted a)) with (counted (S a))
      | change (increment (counted i)) with (counted (S i))
      | change (increment (counted o)) with (counted (S o)) ];
      rewrite IH; fold (authorsOf Academia l); fold (authorsOf Industry l);
      fold (authorsOf Other l); rewrite <- ?Nat.add_succ_comm; reflexivity. }
  specialize (H 0 0 0). change (counted 0) with 0%float in H. rewrite H.
  cbn [Out.bind List.map fst snd count_value]. now rewrite !Nat.add_0_r.
Qed.

End ResolveBranches.

(** ** The request handler *)

Section HandlerTheorems.

Context {rt : Runtime} {host : Host}.

(** X18.  Whenever the address of the request parses, the handler returns a
    reply and never throws; the status is 200, 400, 403 or 500; the reply
    carries the four CORS headers, and its [access-control-allow-origin] is
    the literal [null] or the origin of the request, the latter only for a
    non-empty origin that the list of allowed origins holds or that meets an
    empty list. *)
Theorem fetch_replies (net : Network) (request : Incoming) (env : Env) (u : URL) :
  URL_parse request.(in_url) = Some u ->
  exists log reply,
    Handler.fetch net request env = (log, Returned reply)
    /\ List.In reply.(reply_status) [200; 400; 403; 500]%Z
    /\ header "access-control-allow-headers" reply.(reply_headers) = Some "content-type"
    /\ header "access-control-allow-methods" reply.(reply_headers) = Some "GET,OPTIONS"
    /\ header "vary" reply.(reply_headers) = Some "origin"
    /\ (header "access-control-allow-origin" reply.(reply_headers) = Some "null"
        \/ (header "access-control-allow-origin" reply.(reply_headers)
            = Some (originOf request)
            /\ originOf request <> EmptyString
            /\ (allowedOrigins env = []
                \/ List.In (originOf request) (allowedOrigins env)))).
Proof.
  intros Hu.
  assert (Hcors : forall extra,
             let hs := (extra ++ corsBase (allowedOrigins env) (originOf request))%list in
             extra = [] \/ extra = [("content-type", "application/json")] ->
             header "access-control-allow-headers" hs = Some "content-type"
             /\ header "access-control-allow-methods" hs = Some "GET,OPTIONS"
             /\ header "vary" hs = Some "origin"
             /\ (header "access-control-allow-origin" hs = Some "null"
                 \/ (header "access-control-allow-origin" hs = Some (originOf request)
                     /\ originOf request <> EmptyString
                     /\ (allowedOrigins env = []
                         \/ List.In (originOf request) (allowedOrigins env))))).
  { intros extra hs Hextra. subst hs.
    assert (Hh : forall name,
               String.eqb "content-type" name = false ->
               header name (extra ++ corsBase (allowedOrigins env) (originOf request))%list
               = header name (corsBase (allowedOrigins env) (originOf request))).
    { intros name Hn. destruct Hextra as [->| ->]; [reflexivity|].
      cbn [app header]. now rewrite Hn. }
    rewrite !Hh by reflexivity. unfold corsBase.
    split; [reflexivity|]. split; [reflexivity|]. split; [reflexivity|].
    cbn [header String.eqb Ascii.eqb Bool.eqb].
    destruct (isAllowed (allowedOrigins env) (originOf request)) eqn:A; [|now left].
    destruct (originOf request) as [|c o] eqn:O; [now left|].
    right. cbn [andb Str.nonEmpty]. split; [reflexivity|]. split; [discriminate|].
    unfold isAllowed in A. apply orb_true_iff in A. destruct A as [A|A].
    - left. apply Nat.eqb_eq in A. now destruct (allowedOrigins env).
    - right. apply List.existsb_exists in A. destruct A as (x & Hin & Hx).
      apply String.eqb_eq in Hx. now subst x. }
  unfold Handler.fetch, new_URL. rewrite Hu. unfold IO.lift. cbn [IO.bind].
  fold (originOf request).
  destruct (String.eqb (pathname u) "/api/summarize").
  - destruct (String.eqb (in_method request) "OPTIONS").
    { eexists. eexists. split; [reflexivity|]. cbn [reply_status reply_headers].
      split; [now left|]. apply (Hcors []). now left. }
    destruct (negb (isAllowed (allowedOrigins env) (originOf request))).
    { eexists. eexists. split; [reflexivity|]. cbn [reply_status reply_headers].
      split; [right; right; now left|].
      apply (Hcors [("content-type", "application/json")]). now right. }
    destruct (truthyStr (searchParams_get (in_url request) "paper")) as [paper|].
    2:{ eexists. eexists. split; [reflexivity|]. cbn [reply_status reply_headers].
        split; [right; now left|].
        apply (Hcors [("content-type", "application/json")]). now right. }
    unfold IO.catch, IO.bind, IO.lift, IO.ret.
    destruct (normalizePaperInput paper) as [normalizedPaper|e].
    2:{ eexists. eexists. split; [reflexivity|]. cbn [reply_status reply_headers].
        split; [right; right; right; now left|].
        apply (Hcors [("content-type", "application/json")]). now right. }
    destruct (summarizeWithGemini net (GOOGLE_API_KEY env) normalizedPaper)
      as [slog [structured|e]].
    + eexists. eexists. split; [reflexivity|]. cbn [reply_status reply_headers].
      split; [now left|].
      apply (Hcors [("content-type", "application/json")]). now right.
    + eexists. eexists. split; [reflexivity|]. cbn [reply_status reply_headers].
      split; [right; right; right; now left|].
      apply (Hcors [("content-type", "application/json")]). now right.
  - destruct (String.eqb (in_method request) "OPTIONS");
      eexists; eexists; (split; [reflexivity|]); cbn [reply_status reply_headers];
      (split; [now left|]); apply (Hcors []); now left.
Qed.

(** X19.  With a list of allowed origins that is not empty, a request to the
    summarize route whose origin is not on the list, or that has no origin
    header at all, is refused with 403 before anything else is looked at: no
    outbound request is made and the key is not used. *)
Theorem fetch_forbidden (net : Network) (request : Incoming) (env : Env) (u : URL) :
  URL_parse request.(in_url) = Some u ->
  u.(pathname) = "/api/summarize" ->
  request.(in_method) <> "OPTIONS" ->
  allowedOrigins env <> [] ->
  ~ List.In (originOf request) (allowedOrigins env) ->
  Handler.fetch net request env
  = ([], Returned (mkReply 403
                     (jsonHeaders (corsBase (allowedOrigins env) (originOf request)))
                     (ErrorJson "Forbidden")))
  /\ header "access-control-allow-origin"
       (jsonHeaders (corsBase (allowedOrigins env) (originOf request))) = Some "null".
Proof.
  intros Hu Hpath Hmethod Hlist Hnot.
  assert (A : isAllowed (allowedOrigins env) (originOf request) = false).
  { unfold isAllowed. apply orb_false_iff. split.
    - destruct (allowedOrigins env); [contradiction | reflexivity].
    - destruct (List.existsb _ _) eqn:E; [|reflexivity]. exfalso. apply Hnot.
      apply List.existsb_exists in E. destruct E as (x & Hin & Hx).
      apply String.eqb_eq in Hx. now subst x. }
  split.
  - unfold Handler.fetch, new_URL. rewrite Hu. unfold IO.lift. cbn [IO.bind].
    fold (originOf request). rewrite Hpath. cbn [String.eqb Ascii.eqb Bool.eqb].
    destruct (String.eqb (in_method request) "OPTIONS") eqn:M.
    + apply String.eqb_eq in M. contradiction.
    + rewrite A. reflexivity.
  - unfold jsonHeaders, corsBase. cbn [header String.eqb Ascii.eqb Bool.eqb].
    now rewrite A.
Qed.

(** X20.  The handler makes an outbound request only on the summarize route,
    for a method other than [OPTIONS], an allowed origin and a [paper]
    parameter that is there and not empty: a preflight, a refused origin, a
    missing parameter and every other path leave the network alone. *)
Theorem fetch_requests_only_when (net : Network) (request : Incoming) (env : Env) :
  IO.requests (Handler.fetch net request env) <> [] ->
  exists u paper,
    URL_parse request.(in_url) = Some u
    /\ u.(pathname) = "/api/summarize"
    /\ request.(in_method) <> "OPTIONS"
    /\ isAllowed (allowedOrigins env) (originOf request) = true
    /\ searchParams_get request.(in_url) "paper" = Some paper
    /\ paper <> EmptyString.
Proof.
  unfold Handler.fetch, new_URL.
  destruct (URL_parse request.(in_url)) as [u|]; [|intros H; now contradiction H].
  unfold IO.lift. cbn [IO.bind]. fold (originOf request).
  destruct (String.eqb (pathname u) "/api/summarize") eqn:P.
  2:{ destruct (String.eqb (in_method request) "OPTIONS"); intros H; now contradiction H. }
  destruct (String.eqb (in_method request) "OPTIONS") eqn:M;
    [intros H; now contradiction H|].
  destruct (isAllowed (allowedOrigins env) (originOf request)) eqn:A;
    [|intros H; now contradiction H].
  cbn [negb]. unfold truthyStr.
  destruct (searchParams_get (in_url request) "paper") as [[|c paper]|] eqn:Q;
    try (intros H; now contradiction H).
  intros _. exists u, (String c paper). apply String.eqb_eq in P.
  repeat split; try assumption; try discriminate.
  intros Hm. rewrite Hm in M. discriminate M.
Qed.

(** The handler on the summarize route, past the checks on the method, the
    origin and the parameter. *)
Ltac past_checks Hu Hpath Hmethod A Hq Hne Hnorm :=
  unfold Handler.fetch, new_URL; rewrite Hu; unfold IO.lift; cbn [IO.bind];
  match goal with
  | |- context [orElse (in_origin ?r) EmptyString] => fold (originOf r)
  end;
  rewrite Hpath; cbn [String.eqb Ascii.eqb Bool.eqb];
  match goal with
  | |- context [String.eqb (in_method ?r) "OPTIONS"] =>
      let M := fresh "M" in
      destruct (String.eqb (in_method r) "OPTIONS") eqn:M;
      [apply String.eqb_eq in M; contradiction|]
  end;
  rewrite A, Hq; cbn [negb]; unfold truthyStr;
  match goal with
  | |- context [Str.nonEmpty ?paper] =>
      destruct paper; [contradiction|]; cbn [Str.nonEmpty]
  end;
  rewrite Hnorm; unfold IO.catch, IO.bind, IO.ret.

(** X21.  On the summarize route, past the checks, the reply mirrors the
    pipeline: 200 with the summary when [summarizeWithGemini] returns on the
    normalized reference, 500 with the message of the error when it throws,
    [Failed to summarize] standing in for an empty message; the requests are
    those of the pipeline. *)
Theorem fetch_mirrors_pipeline
    (net : Network) (request : Incoming) (env : Env) (u : URL)
    (paper normalizedPaper : string) :
  URL_parse request.(in_url) = Some u ->
  u.(pathname) = "/api/summarize" ->
  request.(in_method) <> "OPTIONS" ->
  isAllowed (allowedOrigins env) (originOf request) = true ->
  searchParams_get request.(in_url) "paper" = Some paper ->
  paper <> EmptyString ->
  normalizePaperInput paper = Returned normalizedPaper ->
  Handler.fetch net request env
  = (IO.requests (summarizeWithGemini net env.(GOOGLE_API_KEY) normalizedPaper),
     Returned
       (match IO.result (summarizeWithGemini net env.(GOOGLE_API_KEY) normalizedPaper) with
        | Returned structured =>
            mkReply 200 (jsonHeaders (corsBase (allowedOrigins env) (originOf request)))
              (SummaryJson structured)
        | Thrown e =>
            mkReply 500 (jsonHeaders (corsBase (allowedOrigins env) (originOf request)))
              (ErrorJson (orElse (Some (message e)) "Failed to summarize"))
        end)).
Proof.
  intros Hu Hpath Hmethod A Hq Hne Hnorm.
  past_checks Hu Hpath Hmethod A Hq Hne Hnorm.
  unfold IO.requests, IO.result.
  destruct (summarizeWithGemini net (GOOGLE_API_KEY env) normalizedPaper)
    as [slog [structured|e]]; cbn [fst snd app]; now rewrite ?List.app_nil_r.
Qed.

(** X22.  From the Atom API to the reply: when the identifier of the
    normalized reference is extracted and the Atom API answers with a status
    outside 200-299, the reply is 500 with the error [arXiv API error
    <status>], and the model was never contacted. *)
Theorem fetch_upstream_error
    (net : Network) (request : Incoming) (env : Env) (u : URL)
    (paper normalizedPaper id : string) (res : Response) :
  URL_parse request.(in_url) = Some u ->
  u.(pathname) = "/api/summarize" ->
  request.(in_method) <> "OPTIONS" ->
  isAllowed (allowedOrigins env) (originOf request) = true ->
  searchParams_get request.(in_url) "paper" = Some paper ->
  paper <> EmptyString ->
  normalizePaperInput paper = Returned normalizedPaper ->
  extractArxivId normalizedPaper = Some id ->
  net (GET (apiUrl id)) = Returned res ->
  ok res = false ->
  Handler.fetch net request env
  = ([GET (apiUrl id)],
     Returned
       (mkReply 500 (jsonHeaders (corsBase (allowedOrigins env) (originOf request)))
          (ErrorJson ("arXiv API error " ++ Str.ofZ res.(status))))).
Proof.
  intros Hu Hpath Hmethod A Hq Hne Hnorm Hid Hnet Hok.
  past_checks Hu Hpath Hmethod A Hq Hne Hnorm.
  assert (Hmeta : fetchArxivMeta net normalizedPaper
                  = ([GET (apiUrl id)],
                     Thrown (Error ("arXiv API error " ++ Str.ofZ res.(status))))).
  { unfold fetchArxivMeta. rewrite Hid, (extractArxivId_truthy _ _ Hid).
    unfold IO.fetch, IO.bind, IO.throw. fold (apiUrl id). rewrite Hnet, Hok. reflexivity. }
  unfold summarizeWithGemini. rewrite Hmeta. cbn [IO.bind message app].
  unfold orElse, truthyStr. reflexivity.
Qed.

(** X30.  What the handler answers without running the pipeline, whenever the
    address of the request parses: a preflight gets 200 without a body, on
    any path and from any origin; a method other than [OPTIONS] on a path
    other than the summarize route gets 200 with the text [OK]; and on the
    summarize route an allowed origin whose [paper] parameter is missing
    or empty gets 400 with the error [Missing paper param].  None of them
    makes a request. *)
Theorem fetch_routes (net : Network) (request : Incoming) (env : Env) (u : URL) :
  URL_parse request.(in_url) = Some u ->
  let cors := corsBase (allowedOrigins env) (originOf request) in
  (request.(in_method) = "OPTIONS" ->
   Handler.fetch net request env = ([], Returned (mkReply 200 cors NoBody)))
  /\ (request.(in_method) <> "OPTIONS" -> u.(pathname) <> "/api/summarize" ->
      Handler.fetch net request env = ([], Returned (mkReply 200 cors (Text "OK"))))
  /\ (request.(in_method) <> "OPTIONS" -> u.(pathname) = "/api/summarize" ->
      isAllowed (allowedOrigins env) (originOf request) = true ->
      searchParams_get request.(in_url) "paper" = None
      \/ searchParams_get request.(in_url) "paper" = Some EmptyString ->
      Handler.fetch net request env
      = ([], Returned (mkReply 400 (jsonHeaders cors) (ErrorJson "Missing paper param")))).
Proof.
  intros Hu cors. subst cors.
  unfold Handler.fetch, new_URL. rewrite Hu. unfold IO.lift. cbn [IO.bind].
  fold (originOf request). split; [|split].
  - intros ->. cbn [String.eqb Ascii.eqb Bool.eqb].
    now destruct (String.eqb (pathname u) "/api/summarize").
  - intros Hm Hp.
    destruct (String.eqb (pathname u) "/api/summarize") eqn:P;
      [apply String.eqb_eq in P; contradiction|].
    destruct (String.eqb (in_method request) "OPTIONS") eqn:M;
      [apply String.eqb_eq in M; contradiction | reflexivity].
  - intros Hm Hp A Hq. rewrite Hp. cbn [String.eqb Ascii.eqb Bool.eqb].
    destruct (String.eqb (in_method request) "OPTIONS") eqn:M;
      [apply String.eqb_eq in M; contradiction|].
    rewrite A. cbn [negb]. destruct Hq as [-> | ->]; reflexivity.
Qed.

End HandlerTheorems.

(** ** The list of allowed origins *)

Module OriginFacts.

Lemma trim_space (p : string) : allSpace p = true -> Str.trim p = EmptyString.
Proof.
  intros H. unfold Str.trim.
  assert (Hs : Str.trimStart p = EmptyString).
  { induction p as [|c p IH]; [reflexivity|]. unfold allSpace in *. cbn [Str.all] in H.
    apply andb_true_iff in H. destruct H as [Hc Hp]. cbn [Str.trimStart].
    rewrite Hc. now apply IH. }
  now rewrite Hs.
Qed.

Lemma split_blank (text : string) :
  blankList text = true -> List.Forall (fun p => allSpace p = true) (Str.split "," text).
Proof.
  unfold blankList. induction text as [|c text IH]; intros H.
  - repeat constructor.
  - cbn [Str.all] in H. apply andb_true_iff in H. destruct H as [Hc Ht].
    specialize (IH Ht). cbn [Str.split].
    destruct (Ascii.eqb c ",") eqn:E.
    + constructor; [reflexivity | exact IH].
    + rewrite orb_false_r in Hc.
      destruct (Str.split "," text) as [|p ps]; [repeat constructor; cbn; now rewrite Hc|].
      inversion IH as [|? ? Hp Hps]; subst. constructor; [|exact Hps].
      unfold allSpace in *. cbn [Str.all]. now rewrite Hc, Hp.
Qed.

Lemma allowed_blank (pieces : list string) :
  List.Forall (fun p => allSpace p = true) pieces ->
  List.filter Str.nonEmpty (List.map Str.trim pieces) = [].
Proof.
  induction 1 as [|p ps Hp _ IH]; [reflexivity|].
  cbn [List.map List.filter]. now rewrite (trim_space p Hp).
Qed.

End OriginFacts.

(** X23.  Every entry of the list of allowed origins is non-empty, has no
    whitespace at either end and holds no comma. *)
Theorem allowedOrigins_clean (env : Env) :
  List.Forall
    (fun o => o <> EmptyString /\ Str.trim o = o /\ Str.any (fun c => Ascii.eqb c ",") o = false)
    (allowedOrigins env).
Proof.
  apply List.Forall_forall. intros o Ho. unfold allowedOrigins in Ho.
  apply List.filter_In in Ho. destruct Ho as [Hin Hne].
  apply List.in_map_iff in Hin. destruct Hin as (p & <- & Hp).
  split; [intros E; rewrite E in Hne; discriminate Hne|].
  split; [apply FenceFacts.trim_idem|].
  apply NormalizeFacts.any_trim. exact (SegmentFacts.split_no_sep _ _ _ Hp).
Qed.

(** X24.  A binding [ALLOWED_ORIGINS] that is unset, empty, or made of commas
    and whitespace only gives the empty list, and the empty list allows every
    origin. *)
Theorem allowedOrigins_blank (env : Env) :
  env.(ALLOWED_ORIGINS) = None
  \/ (exists text, env.(ALLOWED_ORIGINS) = Some text /\ blankList text = true) ->
  allowedOrigins env = []
  /\ forall origin, isAllowed (allowedOrigins env) origin = true.
Proof.
  intros H.
  assert (He : allowedOrigins env = []).
  { unfold allowedOrigins. destruct H as [->|(text & -> & Hb)]; [reflexivity|].
    apply OriginFacts.allowed_blank, OriginFacts.split_blank.
    unfold orElse, truthyStr. destruct text; [reflexivity | exact Hb]. }
  split; [exact He|]. intros origin. now rewrite He.
Qed.

(** ** Addresses of the outbound requests *)

Module EncodeFacts.

Lemma escape_safe (c : ascii) :
  Str.all uriSafe (if uriUnreserved c then String c EmptyString else Str.percentUtf8 c) = true.
Proof. destruct c as [[] [] [] [] [] [] [] []]; vm_compute; reflexivity. Qed.

Lemma encodeURIComponent_safe (s : string) : Str.all uriSafe (encodeURIComponent s) = true.
Proof.
  unfold encodeURIComponent. induction s as [|c s IH]; [reflexivity|].
  cbn [Str.concatMap]. now rewrite NormalizeFacts.all_append, escape_safe, IH.
Qed.

Lemma encodeURIComponent_unreserved (s : string) :
  Str.all uriUnreserved s = true -> encodeURIComponent s = s.
Proof.
  unfold encodeURIComponent. induction s as [|c s IH]; [reflexivity|].
  cbn [Str.all Str.concatMap]. intros H. apply andb_true_iff in H. destruct H as [Hc Hs].
  now rewrite Hc, (IH Hs).
Qed.

Lemma idChar_unreserved (c : ascii) : idChar c = true -> uriUnreserved c = true.
Proof. destruct c as [[] [] [] [] [] [] [] []]; vm_compute; intros H; congruence. Qed.

End EncodeFacts.

(** X25.  The identifier and the key enter the addresses of the outbound
    requests percent-encoded: after the fixed prefix an address holds
    unreserved characters and percent escapes only, so neither can add a
    parameter, a fragment or a path; an identifier or a key of unreserved
    characters is embedded as it is. *)
Theorem request_addresses_encoded (text : string) :
  (exists t, apiUrl text = "https://export.arxiv.org/api/query?id_list=" ++ t
             /\ Str.all uriSafe t = true
             /\ (Str.all uriUnreserved text = true -> t = text))
  /\ (exists t,
        geminiEndpoint text
        = "https://generativelanguage.googleapis.com/v1beta/models/gemini-2.5-flash:generateContent?key="
          ++ t
        /\ Str.all uriSafe t = true
        /\ (Str.all uriUnreserved text = true -> t = text)).
Proof.
  split; exists (encodeURIComponent text);
    (split; [reflexivity|]);
    (split; [apply EncodeFacts.encodeURIComponent_safe
            | apply EncodeFacts.encodeURIComponent_unreserved]).
Qed.

(** ** The prompt *)

(** X26.  The prompt reads the title, the identifier, the abstract, the names
    of the authors and the two addresses, and nothing else: the affiliations,
    the categories and the resource links of the metadata never reach the
    model. *)
Theorem buildPrompt_reads (apiKey : string) (m m' : ArxivMeta.t) :
  promptFields m = promptFields m' ->
  buildPrompt m = buildPrompt m' /\ geminiRequest apiKey m = geminiRequest apiKey m'.
Proof.
  intros H. assert (Hp : buildPrompt m = buildPrompt m').
  { destruct m, m'. unfold promptFields in H. cbn in H. injection H as -> -> -> -> -> ->.
    reflexivity. }
  split; [exact Hp|]. unfold geminiRequest. now rewrite Hp.
Qed.

(** ** The collaboration type *)

(** X27.  The collaboration type depends on which entries occur in the list,
    not on their order nor on how often they occur. *)
Theorem inferCollabType_set (l l' : list Entry.t) :
  (forall a, List.In a l <-> List.In a l') ->
  inferCollabType l = inferCollabType l'.
Proof.
  intros H.
  assert (He : forall f, List.existsb f l = List.existsb f l').
  { intros f. destruct (List.existsb f l) eqn:E; symmetry.
    - apply List.existsb_exists in E. destruct E as (a & Ha & Hf).
      apply List.existsb_exists. exists a. split; [now apply H | exact Hf].
    - destruct (List.existsb f l') eqn:E'; [|reflexivity].
      apply List.existsb_exists in E'. destruct E' as (a & Ha & Hf).
      assert (Hex : List.existsb f l = true).
      { apply List.existsb_exists. exists a. split; [now apply H | exact Hf]. }
      rewrite Hex in E. discriminate E. }
  unfold inferCollabType. rewrite !He.
  destruct l as [|a l], l' as [|a' l']; try reflexivity.
  exfalso. apply (proj2 (H a')). now left.
Qed.

(** ** From a reference to the request, on the reference platform *)

Module PipelineFacts.
Import StrFacts TrimFacts FenceFacts NormalizeFacts.

Lemma idSegment_no_colon (id : string) :
  idSegment id = true -> Str.any (Ascii.eqb ":") id = false.
Proof.
  intros H. apply (any_all_false _ idChar); [|now apply idSegment_all].
  intros c Hc. destruct c as [[] [] [] [] [] [] [] []]; try reflexivity; discriminate Hc.
Qed.

Lemma idSegment_address (id : string) : idSegment id = true -> Str.all addressChar id = true.
Proof.
  intros H. apply (all_impl idChar addressChar); [apply idChar_addressChar|].
  now apply idSegment_all.
Qed.

Lemma URL_parse_abs (id : string) :
  idSegment id = true ->
  URL_parse (Runtime := reference) ("https://arxiv.org/abs/" ++ id)
  = Some (mkURL "arxiv.org" ("/abs/" ++ id)).
Proof.
  intros Hid. pose proof (URL_parse_two "abs" id eq_refl Hid) as H.
  rewrite trim_address in H; [exact H|].
  rewrite all_append. now rewrite (all_address_two "abs" id eq_refl Hid).
Qed.

Lemma extractArxivId_abs (id : string) :
  idSegment id = true -> dropPdf id = id ->
  extractArxivId (rt := reference) ("https://arxiv.org/abs/" ++ id) = Some id.
Proof.
  intros Hid Hdrop. unfold extractArxivId, new_URL. rewrite (URL_parse_abs id Hid).
  cbn [Out.bind hostname].
  change (Str.endsWith "arxiv.org" "arxiv.org") with true. cbn [negb].
  change ("/abs/" ++ id) with ("/" ++ "abs" ++ "/" ++ id).
  rewrite (pathSegments_two "abs" id eq_refl Hid). cbn [List.last]. rewrite Hdrop.
  unfold truthyStr. now rewrite (idSegment_nonEmpty id Hid).
Qed.

Lemma trimEnd_archive (original : string) :
  Str.trim ("https://web.archive.org/web/2/" ++ original)
  = "https://web.archive.org/web/2/" ++ Str.trimEnd original.
Proof.
  unfold Str.trim.
  change (Str.trimStart ("https://web.archive.org/web/2/" ++ original))
    with ("https://web.archive.org/web/2/" ++ original).
  destruct (trimEnd_split original) as (b & Hb & Hsp & _).
  rewrite Hb at 1. rewrite <- append_assoc, (trimEnd_append_space _ _ Hsp).
  destruct (Str.trimEnd original) as [|c t] eqn:E.
  - reflexivity.
  - apply trimEnd_append_fixed; [|discriminate].
    rewrite <- E. apply trimEnd_idem.
Qed.

End PipelineFacts.

(** X28.  The three spellings of a paper, the bare identifier, the abs address
    and the pdf address, are normalized to the same abs address, which the
    normalizer leaves as it is; the identifier extracted from it is the one
    that was given, and the one request of the fetcher is the query of the
    Atom API for it. *)
Theorem pipeline_same_request (net : Network) (id : string) :
  idSegment id = true ->
  dropPdf id = id ->
  normalizePaperInput (rt := reference) id = Returned ("https://arxiv.org/abs/" ++ id)
  /\ normalizePaperInput (rt := reference) ("https://arxiv.org/abs/" ++ id)
     = Returned ("https://arxiv.org/abs/" ++ id)
  /\ normalizePaperInput (rt := reference) ("https://arxiv.org/pdf/" ++ id ++ ".pdf")
     = Returned ("https://arxiv.org/abs/" ++ id)
  /\ extractArxivId (rt := reference) ("https://arxiv.org/abs/" ++ id) = Some id
  /\ IO.requests (fetchArxivMeta (rt := reference) net ("https://arxiv.org/abs/" ++ id))
     = [GET ("https://export.arxiv.org/api/query?id_list=" ++ id)].
Proof.
  intros Hid Hdrop.
  pose proof (PipelineFacts.extractArxivId_abs id Hid Hdrop) as Hex.
  split; [|split; [|split; [|split]]].
  - rewrite (NormalizeFacts.normalizePaperInput_bare id
               (PipelineFacts.idSegment_no_colon id Hid)).
    now rewrite (NormalizeFacts.trim_address id (PipelineFacts.idSegment_address id Hid)).
  - now apply NormalizeFacts.normalizePaperInput_abs_id.
  - apply NormalizeFacts.normalizePaperInput_pdf_id. now apply NormalizeFacts.idSegment_all.
  - exact Hex.
  - unfold fetchArxivMeta. rewrite Hex, (extractArxivId_truthy _ _ Hex).
    rewrite EncodeFacts.encodeURIComponent_unreserved.
    + unfold IO.bind, IO.fetch, IO.throw, IO.ret.
      destruct (net _) as [res|e]; [|reflexivity].
      destruct (negb (ok res)); [reflexivity|].
      destruct (atomAuthors (body res)). reflexivity.
    + apply (NormalizeFacts.all_impl idChar uriUnreserved);
        [apply EncodeFacts.idChar_unreserved | now apply NormalizeFacts.idSegment_all].
Qed.

(** X29.  The normalizer is not idempotent on what it builds for a foreign
    reference: an archive-proxy address is itself a foreign address, and is
    wrapped again. *)
Theorem normalizePaperInput_wraps_again (original : string) :
  normalizePaperInput (rt := reference) ("https://web.archive.org/web/2/" ++ original)
  = Returned ("https://web.archive.org/web/2/https://web.archive.org/web/2/"
              ++ Str.trimEnd original).
Proof.
  unfold normalizePaperInput, new_URL. rewrite PipelineFacts.trimEnd_archive.
  destruct (WhatwgFacts.parse_archive (Str.trimEnd original)) as [p Hp].
  cbn [URL_parse reference]. rewrite Hp. reflexivity.
Qed.

(** ** Concrete runs of the further properties, on the reference platform *)

Lemma extractArxivId_shape_pdf :
  "2506.01667" <> EmptyString
  /\ noSlash "2506.01667" = true
  /\ exists u,
       URL_parse (Runtime := reference) "https://arxiv.org/pdf/2506.01667.pdf" = Some u
       /\ Str.endsWith u.(hostname) "arxiv.org" = true
       /\ "2506.01667" = dropPdf (List.last (pathSegments u) EmptyString).
Proof.
  apply (extractArxivId_shape (rt := reference)
           "https://arxiv.org/pdf/2506.01667.pdf" "2506.01667").
  vm_compute. reflexivity.
Defined.

Lemma fetchArxivMeta_without_id_root :
  exists log meta,
    fetchArxivMeta (rt := reference) netDown "https://arxiv.org/" = (log, Returned meta)
    /\ (log = [] \/ log = [GET "https://arxiv.org/abs/"])
    /\ meta.(ArxivMeta.id) = None
    /\ ((meta.(ArxivMeta.absUrl) = None /\ meta.(ArxivMeta.pdfUrl) = None)
        \/ (meta.(ArxivMeta.absUrl) = Some "https://arxiv.org/abs/"
            /\ meta.(ArxivMeta.pdfUrl) = Some "https://arxiv.org/pdf/.pdf")).
Proof.
  apply (fetchArxivMeta_without_id (rt := reference) netDown "https://arxiv.org/").
  vm_compute. reflexivity.
Defined.

Lemma fetchArxivMeta_without_id_page :
  List.Forall (fun a => a.(Author.affiliation) = None /\ a.(Author.category) = Other)
    [Author.mk "Ada Lovelace" None Other]
  /\ inferCollabType (List.map Entry.ofAuthor [Author.mk "Ada Lovelace" None Other]) = Unknown.
Proof.
  apply (fetchArxivMeta_without_id_unclassified (rt := reference)
           (netStatus 200 authorsPage) "https://arxiv.org/"
           [GET "https://arxiv.org/abs/"]
           (ArxivMeta.mk None None None ["Ada Lovelace"] (Some "https://arxiv.org/abs/")
              (Some "https://arxiv.org/pdf/.pdf") [Author.mk "Ada Lovelace" None Other]
              ["https://github.com/ada/engine"] [] []));
    vm_compute; reflexivity.
Defined.

Lemma fetchArxivMeta_api_success_fixture :
  exists meta,
    fetchArxivMeta (rt := reference) (netFixture EmptyString) "https://arxiv.org/abs/2506.01667"
    = ([GET (apiUrl "2506.01667")], Returned meta)
    /\ meta.(ArxivMeta.id) = Some "2506.01667"
    /\ meta.(ArxivMeta.absUrl) = Some ("https://arxiv.org/abs/" ++ "2506.01667")
    /\ meta.(ArxivMeta.pdfUrl) = Some ("https://arxiv.org/pdf/" ++ "2506.01667" ++ ".pdf")
    /\ tidyOpt meta.(ArxivMeta.title)
    /\ tidyOpt meta.(ArxivMeta.abstract)
    /\ meta.(ArxivMeta.codeLinks) = []
    /\ meta.(ArxivMeta.videoLinks) = []
    /\ meta.(ArxivMeta.modelLinks) = [].
Proof.
  apply (fetchArxivMeta_api_success (rt := reference) (netFixture EmptyString)
           "https://arxiv.org/abs/2506.01667" "2506.01667" (mkResponse 200 atomFixture));
    vm_compute; reflexivity.
Defined.

Lemma fetchArxivMeta_failures_503 :
  exists id,
    extractArxivId (rt := reference) "https://arxiv.org/abs/2506.01667" = Some id
    /\ [GET (apiUrl "2506.01667")] = [GET (apiUrl id)]
    /\ (netStatus 503 "busy" (GET (apiUrl id)) = Thrown (Error "arXiv API error 503")
        \/ exists res,
             netStatus 503 "busy" (GET (apiUrl id)) = Returned res
             /\ ok res = false
             /\ Error "arXiv API error 503"
                = Error ("arXiv API error " ++ Str.ofZ res.(status))).
Proof.
  apply (fetchArxivMeta_failures (rt := reference) (netStatus 503 "busy")
           "https://arxiv.org/abs/2506.01667").
  vm_compute. reflexivity.
Defined.

Lemma fetchArxivMeta_authors_fixture :
  ["Ada Lovelace"]
  = List.map Author.name [Author.mk "Ada Lovelace" (Some "University of London") Academia]
  /\ List.Forall authorOk [Author.mk "Ada Lovelace" (Some "University of London") Academia].
Proof.
  apply (fetchArxivMeta_authors (rt := reference) (netFixture EmptyString)
           "https://arxiv.org/abs/2506.01667"
           [GET (apiUrl "2506.01667")]
           (ArxivMeta.mk (Some "2506.01667") (Some "A Sample Paper") (Some "An abstract.")
              ["Ada Lovelace"] (Some "https://arxiv.org/abs/2506.01667")
              (Some "https://arxiv.org/pdf/2506.01667.pdf")
              [Author.mk "Ada Lovelace" (Some "University of London") Academia] [] [] [])).
  vm_compute. reflexivity.
Defined.

Lemma fetchArxivMeta_links_page :
  List.forallb isCodeLink ["https://github.com/ada/engine"] = true
  /\ List.forallb isVideoLink [] = true
  /\ List.forallb isModelLink [] = true.
Proof.
  apply (fetchArxivMeta_links (rt := reference)
           (netStatus 200 authorsPage) "https://arxiv.org/"
           [GET "https://arxiv.org/abs/"]
           (ArxivMeta.mk None None None ["Ada Lovelace"] (Some "https://arxiv.org/abs/")
              (Some "https://arxiv.org/pdf/.pdf") [Author.mk "Ada Lovelace" None Other]
              ["https://github.com/ada/engine"] [] [])).
  vm_compute. reflexivity.
Defined.

Lemma summarizeWithGemini_failures_503 :
  fetchArxivMeta (rt := reference) (netStatus 503 "busy") "https://arxiv.org/abs/2506.01667"
  = ([GET (apiUrl "2506.01667")], Thrown (Error "arXiv API error 503"))
  \/ exists mlog paperMeta,
       fetchArxivMeta (rt := reference) (netStatus 503 "busy")
         "https://arxiv.org/abs/2506.01667" = (mlog, Returned paperMeta)
       /\ [GET (apiUrl "2506.01667")] = (mlog ++ [geminiRequest "KEY" paperMeta])%list
       /\ (netStatus 503 "busy" (geminiRequest "KEY" paperMeta)
           = Thrown (Error "arXiv API error 503")
           \/ exists res,
                netStatus 503 "busy" (geminiRequest "KEY" paperMeta) = Returned res
                /\ ((ok res = false
                     /\ Error "arXiv API error 503"
                        = Error ("Gemini error " ++ Str.ofZ res.(status) ++ ": "
                                 ++ res.(body)))
                    \/ (ok res = true
                        /\ JSON_parse (Runtime := reference) res.(body) = None
                        /\ Error "arXiv API error 503" = SyntaxError)
                    \/ (ok res = true
                        /\ exists data,
                             JSON_parse (Runtime := reference) res.(body) = Some data
                             /\ (forall text, extractText data <> VStr text)
                             /\ Error "arXiv API error 503" = TypeError))).
Proof.
  apply (summarizeWithGemini_failures (rt := reference) (netStatus 503 "busy")
           "KEY" "https://arxiv.org/abs/2506.01667").
  vm_compute. reflexivity.
Defined.

Lemma summarizeWithGemini_no_candidate_fixture :
  summarizeWithGemini (rt := reference)
    (netModelBody ("{" ++ q "candidates" ++ ":[]}")) "KEY" "https://arxiv.org/abs/2506.01667"
  = (([GET (apiUrl "2506.01667")]
      ++ [geminiRequest "KEY"
            (ArxivMeta.mk (Some "2506.01667") (Some "A Sample Paper") (Some "An abstract.")
               ["Ada Lovelace"] (Some "https://arxiv.org/abs/2506.01667")
               (Some "https://arxiv.org/pdf/2506.01667.pdf")
               [Author.mk "Ada Lovelace" (Some "University of London") Academia] [] [] [])])%list,
     fallbackSummary (rt := reference)
       (ArxivMeta.mk (Some "2506.01667") (Some "A Sample Paper") (Some "An abstract.")
          ["Ada Lovelace"] (Some "https://arxiv.org/abs/2506.01667")
          (Some "https://arxiv.org/pdf/2506.01667.pdf")
          [Author.mk "Ada Lovelace" (Some "University of London") Academia] [] [] [])).
Proof.
  apply (summarizeWithGemini_no_candidate (rt := reference)
           (netModelBody ("{" ++ q "candidates" ++ ":[]}")) "KEY"
           "https://arxiv.org/abs/2506.01667" [GET (apiUrl "2506.01667")]
           (ArxivMeta.mk (Some "2506.01667") (Some "A Sample Paper") (Some "An abstract.")
              ["Ada Lovelace"] (Some "https://arxiv.org/abs/2506.01667")
              (Some "https://arxiv.org/pdf/2506.01667.pdf")
              [Author.mk "Ada Lovelace" (Some "University of London") Academia] [] [] [])
           (mkResponse 200 ("{" ++ q "candidates" ++ ":[]}"))
           (VObj [("candidates", VArr [])]));
    try (vm_compute; reflexivity).
  left. reflexivity.
Defined.

Lemma summarizeWithGemini_foreign_archive :
  IO.requests
    (summarizeWithGemini (rt := reference) netDown "KEY"
       "https://web.archive.org/web/2/https://example.com/paper.html")
  = [geminiRequest "KEY" (noMeta None)]
  /\ summarizeWithGemini (rt := reference) netDown "KEY"
       "https://web.archive.org/web/2/https://example.com/paper.html"
     = summarizeWithGemini (rt := reference) netDown "KEY" "not an address".
Proof.
  apply (summarizeWithGemini_foreign (rt := reference) netDown "KEY"
           "https://web.archive.org/web/2/https://example.com/paper.html" "not an address").
  - intros u H. vm_compute in H. injection H as <-. reflexivity.
  - intros u H. vm_compute in H. discriminate H.
Defined.

Lemma resolveText_without_affiliations_one_liner :
  exists s,
    resolveText (rt := reference) (noMeta None) (VStr oneLinerText) = Returned s
    /\ buildSummary (rt := reference) (noMeta None) (VObj [("one_liner", VStr "hi")])
       = Returned s
    /\ s.(Summary.authors_affiliations) = []
    /\ s.(Summary.one_liner)
       = Js.or (Js.getOpt (VObj [("one_liner", VStr "hi")]) "one_liner") (VStr EmptyString)
    /\ s.(Summary.collaboration_type)
       = Js.or (Js.getOpt (VObj [("one_liner", VStr "hi")]) "collaboration_type")
           (VStr "Unknown")
    /\ s.(Summary.notes) = Js.arrayOr (Js.getOpt (VObj [("one_liner", VStr "hi")]) "notes")
    /\ s.(Summary.affiliation_breakdown)
       = Js.or (Js.getOpt (VObj [("one_liner", VStr "hi")]) "affiliation_breakdown")
           (VObj [("Academia", VNum 0%float); ("Industry", VNum 0%float);
                  ("Other", VNum 0%float)]).
Proof.
  apply (resolveText_without_affiliations (rt := reference) (noMeta None) oneLinerText
           (VObj [("one_liner", VStr "hi")])).
  - vm_compute. reflexivity.
  - discriminate.
  - discriminate.
  - intros items. vm_compute. discriminate.
Defined.

Lemma resolveText_null_degrades_text :
  resolveText (rt := reference) (noMeta None) (VStr "null")
  = fallbackSummary (rt := reference) (noMeta None).
Proof.
  apply (resolveText_null_degrades (rt := reference) (noMeta None) "null" VNull).
  - vm_compute. reflexivity.
  - left. reflexivity.
Defined.

Lemma summarizeWithGemini_model_error_429 :
  summarizeWithGemini (rt := reference) (netStatus 429 "quota") "KEY"
    "https://example.com/paper.html"
  = ([geminiRequest "KEY" (noMeta None)], Thrown (Error "Gemini error 429: quota")).
Proof.
  destruct (summarizeWithGemini_model_error (rt := reference) (netStatus 429 "quota") "KEY"
              "https://example.com/paper.html" [] (noMeta None) (mkResponse 429 "quota"))
    as [H _].
  - vm_compute. reflexivity.
  - reflexivity.
  - exact (H eq_refl).
Defined.

Lemma fetch_replies_preflight :
  exists log reply,
    Handler.fetch (rt := reference) (host := hostFixture (Some "2506.01667")) netDown
      (summarizeRequest "OPTIONS" (Some "https://evil.example")) envFixture
    = (log, Returned reply)
    /\ List.In reply.(reply_status) [200; 400; 403; 500]%Z
    /\ header "access-control-allow-headers" reply.(reply_headers) = Some "content-type"
    /\ header "access-control-allow-methods" reply.(reply_headers) = Some "GET,OPTIONS"
    /\ header "vary" reply.(reply_headers) = Some "origin"
    /\ (header "access-control-allow-origin" reply.(reply_headers) = Some "null"
        \/ (header "access-control-allow-origin" reply.(reply_headers)
            = Some (originOf (summarizeRequest "OPTIONS" (Some "https://evil.example")))
            /\ originOf (summarizeRequest "OPTIONS" (Some "https://evil.example"))
               <> EmptyString
            /\ (allowedOrigins envFixture = []
                \/ List.In (originOf (summarizeRequest "OPTIONS" (Some "https://evil.example")))
                     (allowedOrigins envFixture)))).
Proof.
  apply (fetch_replies (rt := reference) (host := hostFixture (Some "2506.01667")) netDown
           (summarizeRequest "OPTIONS" (Some "https://evil.example")) envFixture
           (mkURL "worker.example" "/api/summarize")).
  vm_compute. reflexivity.
Defined.

Lemma fetch_forbidden_no_origin :
  Handler.fetch (rt := reference) (host := hostFixture (Some "2506.01667")) netDown
    (summarizeRequest "GET" None) envFixture
  = ([], Returned (mkReply 403
                     (jsonHeaders (corsBase (allowedOrigins envFixture)
                                     (originOf (summarizeRequest "GET" None))))
                     (ErrorJson "Forbidden")))
  /\ header "access-control-allow-origin"
       (jsonHeaders (corsBase (allowedOrigins envFixture)
                       (originOf (summarizeRequest "GET" None)))) = Some "null".
Proof.
  apply (fetch_forbidden (rt := reference) (host := hostFixture (Some "2506.01667")) netDown
           (summarizeRequest "GET" None) envFixture (mkURL "worker.example" "/api/summarize")).
  - vm_compute. reflexivity.
  - reflexivity.
  - discriminate.
  - vm_compute. discriminate.
  - vm_compute. intros [H|[H|[]]]; discriminate H.
Defined.

Lemma fetch_requests_only_when_allowed :
  exists u paper,
    URL_parse (Runtime := reference)
      (summarizeRequest "GET" (Some "https://app.example")).(in_url) = Some u
    /\ u.(pathname) = "/api/summarize"
    /\ (summarizeRequest "GET" (Some "https://app.example")).(in_method) <> "OPTIONS"
    /\ isAllowed (allowedOrigins envFixture)
         (originOf (summarizeRequest "GET" (Some "https://app.example"))) = true
    /\ searchParams_get (Host := hostFixture (Some "2506.01667"))
         (summarizeRequest "GET" (Some "https://app.example")).(in_url) "paper" = Some paper
    /\ paper <> EmptyString.
Proof.
  apply (fetch_requests_only_when (rt := reference) (host := hostFixture (Some "2506.01667"))
           (netStatus 503 "busy") (summarizeRequest "GET" (Some "https://app.example"))
           envFixture).
  vm_compute. discriminate.
Defined.

Lemma fetch_mirrors_pipeline_503 :
  Handler.fetch (rt := reference) (host := hostFixture (Some "2506.01667"))
    (netStatus 503 "busy") (summarizeRequest "GET" (Some "https://app.example")) envFixture
  = (IO.requests
       (summarizeWithGemini (rt := reference) (netStatus 503 "busy")
          envFixture.(GOOGLE_API_KEY) "https://arxiv.org/abs/2506.01667"),
     Returned
       (match IO.result
                (summarizeWithGemini (rt := reference) (netStatus 503 "busy")
                   envFixture.(GOOGLE_API_KEY) "https://arxiv.org/abs/2506.01667") with
        | Returned structured =>
            mkReply 200
              (jsonHeaders (corsBase (allowedOrigins envFixture)
                              (originOf (summarizeRequest "GET" (Some "https://app.example")))))
              (SummaryJson structured)
        | Thrown e =>
            mkReply 500
              (jsonHeaders (corsBase (allowedOrigins envFixture)
                              (originOf (summarizeRequest "GET" (Some "https://app.example")))))
              (ErrorJson (orElse (Some (message (host := hostFixture (Some "2506.01667")) e))
                            "Failed to summarize"))
        end)).
Proof.
  apply (fetch_mirrors_pipeline (rt := reference) (host := hostFixture (Some "2506.01667"))
           (netStatus 503 "busy") (summarizeRequest "GET" (Some "https://app.example"))
           envFixture (mkURL "worker.example" "/api/summarize") "2506.01667"
           "https://arxiv.org/abs/2506.01667");
    try (vm_compute; reflexivity); discriminate.
Defined.

Lemma fetch_upstream_error_503 :
  Handler.fetch (rt := reference) (host := hostFixture (Some "2506.01667"))
    (netStatus 503 "busy") (summarizeRequest "GET" (Some "https://app.example")) envFixture
  = ([GET (apiUrl "2506.01667")],
     Returned
       (mkReply 500
          (jsonHeaders (corsBase (allowedOrigins envFixture)
                          (originOf (summarizeRequest "GET" (Some "https://app.example")))))
          (ErrorJson ("arXiv API error " ++ Str.ofZ (mkResponse 503 "busy").(status))))).
Proof.
  apply (fetch_upstream_error (rt := reference) (host := hostFixture (Some "2506.01667"))
           (netStatus 503 "busy") (summarizeRequest "GET" (Some "https://app.example"))
           envFixture (mkURL "worker.example" "/api/summarize") "2506.01667"
           "https://arxiv.org/abs/2506.01667" "2506.01667" (mkResponse 503 "busy"));
    try (vm_compute; reflexivity); discriminate.
Defined.

Lemma allowedOrigins_blank_commas :
  allowedOrigins (mkEnv "KEY" (Some " , ,")) = []
  /\ forall origin, isAllowed (allowedOrigins (mkEnv "KEY" (Some " , ,"))) origin = true.
Proof.
  apply (allowedOrigins_blank (mkEnv "KEY" (Some " , ,"))).
  right. exists " , ,". split; reflexivity.
Defined.

Lemma buildPrompt_reads_affiliation :
  buildPrompt
    (ArxivMeta.mk (Some "2506.01667") (Some "A Sample Paper") None ["Ada Lovelace"] None None
       [Author.mk "Ada Lovelace" (Some "University of London") Academia]
       ["https://github.com/ada/engine"] [] [])
  = buildPrompt
      (ArxivMeta.mk (Some "2506.01667") (Some "A Sample Paper") None ["Ada Lovelace"] None None
         [Author.mk "Ada Lovelace" (Some "Google Inc") Industry] [] [] [])
  /\ geminiRequest "KEY"
       (ArxivMeta.mk (Some "2506.01667") (Some "A Sample Paper") None ["Ada Lovelace"] None None
          [Author.mk "Ada Lovelace" (Some "University of London") Academia]
          ["https://github.com/ada/engine"] [] [])
     = geminiRequest "KEY"
         (ArxivMeta.mk (Some "2506.01667") (Some "A Sample Paper") None ["Ada Lovelace"] None
            None [Author.mk "Ada Lovelace" (Some "Google Inc") Industry] [] [] []).
Proof.
  apply (buildPrompt_reads "KEY"
           (ArxivMeta.mk (Some "2506.01667") (Some "A Sample Paper") None ["Ada Lovelace"] None
              None [Author.mk "Ada Lovelace" (Some "University of London") Academia]
              ["https://github.com/ada/engine"] [] [])
           (ArxivMeta.mk (Some "2506.01667") (Some "A Sample Paper") None ["Ada Lovelace"] None
              None [Author.mk "Ada Lovelace" (Some "Google Inc") Industry] [] [] [])).
  reflexivity.
Defined.

Lemma inferCollabType_set_reordered :
  inferCollabType [entryOf Academia; entryOf Industry]
  = inferCollabType [entryOf Industry; entryOf Academia; entryOf Industry].
Proof.
  apply (inferCollabType_set [entryOf Academia; entryOf Industry]
           [entryOf Industry; entryOf Academia; entryOf Industry]).
  intros a. cbn [List.In]. tauto.
Defined.

Lemma pipeline_same_request_2506 :
  normalizePaperInput (rt := reference) "2506.01667"
  = Returned ("https://arxiv.org/abs/" ++ "2506.01667")
  /\ normalizePaperInput (rt := reference) ("https://arxiv.org/abs/" ++ "2506.01667")
     = Returned ("https://arxiv.org/abs/" ++ "2506.01667")
  /\ normalizePaperInput (rt := reference) ("https://arxiv.org/pdf/" ++ "2506.01667" ++ ".pdf")
     = Returned ("https://arxiv.org/abs/" ++ "2506.01667")
  /\ extractArxivId (rt := reference) ("https://arxiv.org/abs/" ++ "2506.01667")
     = Some "2506.01667"
  /\ IO.requests
       (fetchArxivMeta (rt := reference) netDown ("https://arxiv.org/abs/" ++ "2506.01667"))
     = [GET ("https://export.arxiv.org/api/query?id_list=" ++ "2506.01667")].
Proof.
  apply (pipeline_same_request netDown "2506.01667"); vm_compute; reflexivity.
Defined.

Lemma fetch_routes_health :
  Handler.fetch (rt := reference) (host := hostFixture None) netDown
    (mkIncoming "https://worker.example/health" "GET" (Some "https://evil.example"))
    envFixture
  = ([], Returned
           (mkReply 200
              [ ("access-control-allow-origin", "null");
                ("access-control-allow-headers", "content-type");
                ("access-control-allow-methods", "GET,OPTIONS");
                ("vary", "origin") ]
              (Text "OK"))).
Proof.
  destruct (fetch_routes (rt := reference) (host := hostFixture None) netDown
              (mkIncoming "https://worker.example/health" "GET" (Some "https://evil.example"))
              envFixture (mkURL "worker.example" "/health")) as (_ & H & _).
  - vm_compute. reflexivity.
  - apply H; discriminate.
Defined.
